(** * Document analysis and persistence pipeline (wwii-server3)

    A shallow embedding of
      - [ValidationService]    (src/services/ValidationService.ts),
      - [BaseRepository], [EntityRepository], [DocumentRepository],
      - [DocumentProcessingService] (analysis, save, job tracking),
    followed by the properties of the specification that concern them.

    Conventions.
      - A JS string is a [string]; one [ascii] stands for one UTF-16 code
        unit in the range 0..255, so [String.length] is [.length].
      - A [throw] is the [Err] branch of [result]; a thrown value is an
        [Exn].
      - [new Date()] is an explicit [now] argument (epoch milliseconds).
      - Built-ins of the JS runtime and the collaborators whose code is not
        part of the repository sources ([Date], [URL], storage, AI client,
        image conversion, database faults) are the fields of [Runtime]. *)

From Stdlib Require Import ZArith String Ascii List Bool DecimalString Lia.
From stdpp Require Import gmap strings list fin_maps.

Open Scope string_scope.

(** ** Thrown values and results *)

(** What a [catch (error)] clause can receive: an [Error] instance (every
    [AppError] is one; [statusCode] defaults to 500) or any other value. *)
Inductive Exn : Type :=
| JsError (message : string) (statusCode : Z)
| JsOther.

(** [new AppError(message)] and [new AppError(message, statusCode)]. *)
Definition AppError (message : string) : Exn := JsError message 500.
Definition AppErrorWith (message : string) (statusCode : Z) : Exn :=
  JsError message statusCode.

(** [error instanceof Error ? error.message : "Unknown error"]. *)
Definition error_message (e : Exn) : string :=
  match e with
  | JsError m _ => m
  | JsOther => "Unknown error"
  end.

Inductive result (A : Type) : Type :=
| Ok (a : A)
| Err (e : Exn).
Arguments Ok {A} a.
Arguments Err {A} e.

Definition is_ok {A} (r : result A) : bool :=
  match r with Ok _ => true | Err _ => false end.

(** ** Strings *)

Module Str.

(** White space removed by [String.prototype.trim], restricted to code
    units below 256: TAB, LF, VT, FF, CR, SPACE and NBSP. *)
Definition is_ws (c : ascii) : bool :=
  let n := nat_of_ascii c in
  (Nat.leb 9 n && Nat.leb n 13) || Nat.eqb n 32 || Nat.eqb n 160.

Fixpoint trimStart (s : string) : string :=
  match s with
  | EmptyString => EmptyString
  | String c s' => if is_ws c then trimStart s' else s
  end.

(** Drops trailing white space: a character is kept when something
    non-blank follows it or when it is not white space itself. *)
Fixpoint trimEnd (s : string) : string :=
  match s with
  | EmptyString => EmptyString
  | String c s' =>
      match trimEnd s' with
      | EmptyString => if is_ws c then EmptyString else String c EmptyString
      | t => String c t
      end
  end.

Definition trim (s : string) : string := trimEnd (trimStart s).

(** [s.length]. *)
Definition len (s : string) : Z := Z.of_nat (String.length s).

(** JS truthiness of a string: the empty string is falsy. *)
Definition truthy (s : string) : bool :=
  match s with EmptyString => false | _ => true end.

(** Truthiness of an optional string ([undefined] is falsy). *)
Definition truthy_opt (o : option string) : bool :=
  match o with Some s => truthy s | None => false end.

(** The lower-case form of a code unit below 256: the letters A to Z and
    the capital letters of Latin-1 (192 to 222, the multiplication sign 215
    apart) move 32 places up. *)
Definition lower_ascii (c : ascii) : ascii :=
  let n := nat_of_ascii c in
  if (Nat.leb 65 n && Nat.leb n 90)
     || (Nat.leb 192 n && Nat.leb n 222 && negb (Nat.eqb n 215))
  then ascii_of_nat (n + 32) else c.

Fixpoint toLowerCase (s : string) : string :=
  match s with
  | EmptyString => EmptyString
  | String c s' => String (lower_ascii c) (toLowerCase s')
  end.

(** [text LIKE pattern] of PostgreSQL: in the pattern, "%" stands for any
    run of characters, "_" for any one character, and a backslash makes
    the character after it stand for itself. A backslash at the very end
    of the pattern matches nothing: the server rejects the pattern when
    the matcher comes to it, and such a query is one of those that fail. *)
Fixpoint like (pattern : string) : string -> bool :=
  match pattern with
  | EmptyString =>
      fun text => match text with EmptyString => true | _ => false end
  | String c rest =>
      if Ascii.eqb c "%" then
        fix any (text : string) : bool :=
          like rest text
          || match text with
             | EmptyString => false
             | String _ text' => any text'
             end
      else if Ascii.eqb c "_" then
        fun text => match text with
                    | EmptyString => false
                    | String _ text' => like rest text'
                    end
      else if Ascii.eqb c "\" then
        match rest with
        | EmptyString => fun _ => false
        | String escaped rest' =>
            fun text => match text with
                        | EmptyString => false
                        | String a text' => Ascii.eqb a escaped && like rest' text'
                        end
        end
      else
        fun text => match text with
                    | EmptyString => false
                    | String a text' => Ascii.eqb a c && like rest text'
                    end
  end.

(** [column: { equals: given, mode: 'insensitive' }]: Prisma sends
    [column ILIKE given], so that the given value is a pattern; both sides
    are compared in lower case. *)
Definition equals_insensitive (column given : string) : bool :=
  like (toLowerCase given) (toLowerCase column).

(** The characters with a meaning of their own in a pattern. *)
Definition is_pattern_char (c : ascii) : bool :=
  Ascii.eqb c "%" || Ascii.eqb c "_" || Ascii.eqb c "\".

(** A text without pattern characters. *)
Fixpoint plain (s : string) : bool :=
  match s with
  | EmptyString => true
  | String c s' => negb (is_pattern_char c) && plain s'
  end.

(** A text without a backslash. *)
Fixpoint no_escape (s : string) : bool :=
  match s with
  | EmptyString => true
  | String c s' => negb (Ascii.eqb c "\") && no_escape s'
  end.

(** A text in which every backslash has a character after it to escape:
    as a pattern, the server accepts it. *)
Fixpoint well_escaped (s : string) : bool :=
  match s with
  | EmptyString => true
  | String c s' =>
      if Ascii.eqb c "\"
      then match s' with
           | EmptyString => false
           | String _ s'' => well_escaped s''
           end
      else well_escaped s'
  end.

(** [xs.join(sep)]. *)
Definition join (sep : string) (xs : list string) : string :=
  String.concat sep xs.

Definition of_nat (n : nat) : string := NilZero.string_of_uint (Nat.to_uint n).
Definition of_Z (z : Z) : string := NilZero.string_of_int (Z.to_int z).

(** [xs.includes(x)]. *)
Definition includes (xs : list string) (x : string) : bool :=
  existsb (String.eqb x) xs.

End Str.

(** ** The runtime and the collaborators *)

(** [File] of types/database.ts (the fields the pipeline reads). *)
Record File : Type := mkFile {
  file_id : string;
  file_name : string;
  file_mimeType : string
}.

(** [Entity] of types/database.ts: the payload form of an entity. The type
    is the string the request carries; [ValidationService] checks it against
    the enum.
    The payloads of the model leave the id of a new row to the database:
    the optional [id] and [documents] of the interface are absent. *)
Record Entity : Type := mkEntity {
  e_name : string;
  e_type : string;
  e_date : option string
}.

Record ParsedAnalysis : Type := mkParsedAnalysis {
  pa_documentType : string;
  pa_title : string;
  pa_content : string;
  pa_entities : list Entity
}.

Record Runtime : Type := mkRuntime {
  (** A [Date] object whose time value is a number. *)
  JsDate : Type;
  (** [new Date(s)]: [None] when [isNaN(date.getTime())]. *)
  Date_parse : string -> option JsDate;
  getFullYear : JsDate -> Z;
  toISOString : JsDate -> string;
  (** [new Date(now).toISOString()] and [new Date().getFullYear()]. *)
  isoOfTime : Z -> string;
  currentYear : Z;
  (** [new URL(url)] does not throw. *)
  URL_parses : string -> bool;
  (** StorageService, utils/helpers and AIService. *)
  getFileContent : string -> result File;
  getFileMetadata : string -> result File;
  documentToImage : File -> result string;
  analyzeImage : string -> result string;
  parseAnalysis : string -> result ParsedAnalysis;
  (** The k-th query sent to the database fails (connection or driver
      error, or a query that the server rejects) when [db_fault k] holds. *)
  db_fault : nat -> bool
}.

(** ** Prisma enums (prisma/schema.prisma) *)

Module DocumentType.
Definition letter := "letter".
Definition report := "report".
Definition photo := "photo".
Definition newspaper := "newspaper".
Definition list_ := "list".
Definition diary_entry := "diary_entry".
Definition book := "book".
Definition map_ := "map".
Definition biography := "biography".
(** [Object.values(DocumentType)]. *)
Definition values : list string :=
  [letter; report; photo; newspaper; list_; diary_entry; book; map_; biography].
End DocumentType.

Module EntityType.
Definition person := "person".
Definition location := "location".
Definition organization := "organization".
Definition event := "event".
Definition date := "date".
Definition unit_ := "unit".
Definition values : list string :=
  [person; location; organization; event; date; unit_].
End EntityType.

(** [CreateDocumentRequest] of types/api.ts. *)
Record CreateDocumentRequest : Type := mkCreateDocumentRequest {
  title : string;
  fileName : string;
  content : string;
  imageUrl : option string;
  documentType : string;
  entities : list Entity
}.

Record ValidationResult : Type := mkValidationResult {
  isValid : bool;
  errors : list string
}.

(** ** ValidationService *)

Module ValidationService.
Section WithRuntime.
Context (rt : Runtime).

(** [{ isValid: errors.length === 0, errors }]. *)
Definition finish (errs : list string) : ValidationResult :=
  {| isValid := Nat.eqb (length errs) 0; errors := errs |}.

Definition isValidUrl (url : string) : bool := URL_parses rt url.

(** The date branch of [validateEntity]. *)
Definition validateEntity_date (entity : Entity) : list string :=
  if negb (String.eqb (e_type entity) EntityType.date) then []
  else if negb (Str.truthy (e_name entity))
  then ["Date entity must have a name (date value)"]
  else
    match Date_parse rt (e_name entity) with
    | None => ["Invalid date format. Use YYYY-MM-DD or valid date string"]
    | Some d =>
        let year := getFullYear rt d in
        if (year <? 1800)%Z || (currentYear rt + 10 <? year)%Z
        then ["Date year must be between 1800 and "
                +:+ Str.of_Z (currentYear rt + 10)]
        else []
    end.

Definition validateEntity (entity : Entity) : ValidationResult :=
  let name_errs :=
    if negb (Str.truthy (Str.trim (e_name entity)))
    then ["Entity name is required and cannot be empty"]
    else if (255 <? Str.len (e_name entity))%Z
    then ["Entity name cannot exceed 255 characters"]
    else [] in
  let type_errs :=
    if negb (Str.truthy (e_type entity))
    then ["Entity type is required"]
    else if negb (Str.includes EntityType.values (e_type entity))
    then ["Invalid entity type. Must be one of: "
            +:+ Str.join ", " EntityType.values]
    else [] in
  let date_errs := validateEntity_date entity in
  let person_errs :=
    if String.eqb (e_type entity) EntityType.person
       && Str.truthy (e_name entity)
       && (Str.len (e_name entity) <? 2)%Z
    then ["Person name must be at least 2 characters long"]
    else [] in
  let location_errs :=
    if String.eqb (e_type entity) EntityType.location
       && Str.truthy (e_name entity)
       && (Str.len (e_name entity) <? 2)%Z
    then ["Location name must be at least 2 characters long"]
    else [] in
  finish (name_errs ++ type_errs ++ date_errs ++ person_errs ++ location_errs)%list.

(** The body of [entities.forEach((entity, index) => ...)], [index]
    counted from [i]. *)
Fixpoint validateEach (i : nat) (es : list Entity) : list string :=
  match es with
  | [] => []
  | entity :: rest =>
      let entityValidation := validateEntity entity in
      ((if isValid entityValidation then []
        else map (fun error => "Entity " +:+ Str.of_nat (i + 1) +:+ ": " +:+ error)
                 (errors entityValidation))
       ++ validateEach (S i) rest)%list
  end.

Definition validateEntities (es : list Entity) : ValidationResult :=
  if Nat.eqb (length es) 0
  then {| isValid := false; errors := ["At least one entity is required"] |}
  else
    finish ((if Nat.ltb 50 (length es)
             then ["Cannot have more than 50 entities per document"]
             else []) ++ validateEach 0 es)%list.

(** [validateDocumentForSave]. The request is well typed, so
    [Array.isArray(document.entities)] holds and nothing in the [try]
    block throws: the [catch] branch is not reachable. *)
Definition validateDocumentForSave (document : CreateDocumentRequest)
  : ValidationResult :=
  let title_errs :=
    if negb (Str.truthy (Str.trim (title document)))
    then ["Title is required and cannot be empty"]
    else if (255 <? Str.len (title document))%Z
    then ["Title cannot exceed 255 characters"]
    else [] in
  let fileName_errs :=
    if negb (Str.truthy (Str.trim (fileName document)))
    then ["File name is required and cannot be empty"]
    else if (255 <? Str.len (fileName document))%Z
    then ["File name cannot exceed 255 characters"]
    else [] in
  let content_errs :=
    if negb (Str.truthy (Str.trim (content document)))
    then ["Content is required and cannot be empty"]
    else if (10000 <? Str.len (content document))%Z
    then ["Content cannot exceed 10,000 characters"]
    else [] in
  let type_errs :=
    if negb (Str.truthy (documentType document))
    then ["Document type is required"]
    else if negb (Str.includes DocumentType.values (documentType document))
    then ["Invalid document type. Must be one of: "
            +:+ Str.join ", " DocumentType.values]
    else [] in
  let url_errs :=
    match imageUrl document with
    | Some url =>
        if Str.truthy url && negb (isValidUrl url)
        then ["Invalid image URL format"] else []
    | None => []
    end in
  let entity_errs :=
    let entityValidation := validateEntities (entities document) in
    if isValid entityValidation then [] else errors entityValidation in
  let photo_errs :=
    if String.eqb (documentType document) DocumentType.photo
       && negb (Str.truthy_opt (imageUrl document))
    then ["Photo documents must have an image URL"]
    else [] in
  finish (title_errs ++ fileName_errs ++ content_errs ++ type_errs
            ++ url_errs ++ entity_errs ++ photo_errs)%list.

End WithRuntime.
End ValidationService.

(** ** The relational store (prisma/schema.prisma) *)

(** A row of [entities]. [id] is the [uuid()] default: an opaque fresh
    value, numbered here in order of creation. *)
Record DatabaseEntity : Type := mkDatabaseEntity {
  de_id : nat;
  de_name : string;
  de_date : option string;
  de_type : string
}.

(** A row of [documents] with the ids it is linked to in the implicit
    many-to-many table. *)
Record DocumentRow : Type := mkDocumentRow {
  dr_id : nat;
  dr_title : string;
  dr_fileName : string;
  dr_content : string;
  dr_imageUrl : option string;
  dr_documentType : string;
  dr_createdAt : Z;
  dr_updatedAt : Z;
  dr_entityIds : list nat
}.

(** [DatabaseDocument]: a document row with [include: { entities: true }]. *)
Record DatabaseDocument : Type := mkDatabaseDocument {
  dd_row : DocumentRow;
  dd_entities : list DatabaseEntity
}.

Record Tables : Type := mkTables {
  entityRows : list DatabaseEntity;
  documentRows : list DocumentRow;
  nextId : nat
}.

(** The two handles a repository method can be given: the global [prisma]
    client (every query commits on its own) and the handle [tx] that
    [prisma.$transaction] passes to its callback. *)
Inductive Client : Type := prisma | txClient.

(** The database as the process sees it: what is committed, the working
    copy of the open interactive transaction (if any), and the number of
    queries sent so far. *)
Record Database : Type := mkDatabase {
  committed : Tables;
  inTx : option Tables;
  queries : nat
}.

(** Code that works on a state [S] and may throw. *)
Definition M (S A : Type) : Type := S -> result A * S.

Definition ret {S A} (a : A) : M S A := fun s => (Ok a, s).
Definition throw {S A} (e : Exn) : M S A := fun s => (Err e, s).
Definition bind {S A B} (c : M S A) (k : A -> M S B) : M S B :=
  fun s => match c s with
           | (Ok a, s') => k a s'
           | (Err e, s') => (Err e, s')
           end.
(** [try { c } catch (error) { h(error) }]. *)
Definition try_catch {S A} (c : M S A) (h : Exn -> M S A) : M S A :=
  fun s => match c s with
           | (Ok a, s') => (Ok a, s')
           | (Err e, s') => h e s'
           end.
Definition modify {S} (f : S -> S) : M S unit := fun s => (Ok tt, f s).
Definition gets {S A} (f : S -> A) : M S A := fun s => (Ok (f s), s).

(** [await Promise.all([a, b])]: both calls are started, and the result is
    the pair of their values or the error of one that failed. *)
Definition promise_all2 {S A B} (a : M S A) (b : M S B) : M S (A * B) :=
  fun s =>
    let (ra, s1) := a s in
    let (rb, s2) := b s1 in
    match ra, rb with
    | Ok x, Ok y => (Ok (x, y), s2)
    | Err e, _ => (Err e, s2)
    | _, Err e => (Err e, s2)
    end.

Declare Scope js_scope.
Delimit Scope js_scope with js.
Notation "'let*' x ':=' c 'in' k" := (bind c (fun x => k))
  (at level 10, x name, c at level 100, k at level 200) : js_scope.
Notation "c ';;' k" := (bind c (fun _ => k))
  (at level 100, k at level 200, right associativity) : js_scope.

(** Code that talks to the database. *)
Definition Db (A : Type) : Type := M Database A.

Module Prisma.
Section WithRuntime.
Context (rt : Runtime).

(** The raw error of the driver; repositories never let it through. *)
Definition driverError : Exn := JsError "PrismaClientKnownRequestError" 500.

(** One query on [client]: it fails when the fault oracle says so or when
    the transaction it belongs to is closed; otherwise [q] reads and
    updates the tables that [client] sees. *)
Definition query {A} (client : Client) (q : Tables -> result A * Tables) : Db A :=
  fun db =>
    let k := queries db in
    let db1 := {| committed := committed db; inTx := inTx db; queries := S k |} in
    if db_fault rt k then (Err driverError, db1)
    else
      match client with
      | prisma =>
          match q (committed db) with
          | (Ok a, t') =>
              (Ok a, {| committed := t'; inTx := inTx db; queries := S k |})
          | (Err e, _) => (Err e, db1)
          end
      | txClient =>
          match inTx db with
          | None => (Err driverError, db1)
          | Some t =>
              match q t with
              | (Ok a, t') =>
                  (Ok a, {| committed := committed db; inTx := Some t';
                            queries := S k |})
              | (Err e, _) => (Err e, db1)
              end
          end
      end.

(** [client.entity.findFirst({ where: { name: { equals: name, mode:
    'insensitive' }, type } })]: the first row whose name matches [name],
    read as a pattern, and whose type is [type]. *)
Definition entity_findFirst (name type : string) (t : Tables)
  : result (option DatabaseEntity) * Tables :=
  (Ok (List.find (fun row => Str.equals_insensitive (de_name row) name
                          && String.eqb (de_type row) type)
            (entityRows t)), t).

(** [client.entity.create({ data })]: appends a row with a fresh id. *)
Definition entity_create (name type : string) (date : option string) (t : Tables)
  : result DatabaseEntity * Tables :=
  let row := {| de_id := nextId t; de_name := name; de_date := date;
                de_type := type |} in
  (Ok row, {| entityRows := entityRows t ++ [row];
              documentRows := documentRows t;
              nextId := S (nextId t) |}).

Definition entity_findById (t : Tables) (id : nat) : option DatabaseEntity :=
  List.find (fun row => Nat.eqb (de_id row) id) (entityRows t).

(** Ids without repetition, first occurrences kept: the link table holds
    a pair at most once. *)
Fixpoint dedup_ids (ids : list nat) : list nat :=
  match ids with
  | [] => []
  | i :: rest => i :: List.filter (fun j => negb (Nat.eqb i j)) (dedup_ids rest)
  end.

(** [client.document.create({ data: { ...documentData, entities: { connect:
    ids } }, include: { entities: true } })]: [connect] fails when an id
    does not name an entity row. *)
Definition document_create (now : Z) (d : CreateDocumentRequest)
    (entityIds : list nat) (t : Tables) : result DatabaseDocument * Tables :=
  if forallb (fun id => match entity_findById t id with
                        | Some _ => true | None => false end) entityIds
  then
    let row := {| dr_id := nextId t; dr_title := title d;
                  dr_fileName := fileName d; dr_content := content d;
                  dr_imageUrl := imageUrl d;
                  dr_documentType := documentType d;
                  dr_createdAt := now; dr_updatedAt := now;
                  dr_entityIds := dedup_ids entityIds |} in
    (Ok {| dd_row := row;
           dd_entities := omap (entity_findById t) (dedup_ids entityIds) |},
     {| entityRows := entityRows t;
        documentRows := documentRows t ++ [row];
        nextId := S (nextId t) |})
  else (Err driverError, t).

(** [prisma.$transaction(async (tx) => cb(tx))]: BEGIN, the callback on a
    working copy, then COMMIT when it returns and ROLLBACK when it throws.
    What the callback writes through [tx] lives in the working copy only. *)
Definition transaction {A} (cb : Client -> Db A) : Db A :=
  fun db =>
    match query prisma (fun t => (Ok tt, t)) db with
    | (Err e, db0) => (Err e, db0)
    | (Ok _, db0) =>
        let db1 := {| committed := committed db0;
                      inTx := Some (committed db0);
                      queries := queries db0 |} in
        match cb txClient db1 with
        | (Ok a, db2) =>
            let closed := {| committed := committed db2; inTx := None;
                             queries := S (queries db2) |} in
            if db_fault rt (queries db2) then (Err driverError, closed)
            else
              match inTx db2 with
              | Some t => (Ok a, {| committed := t; inTx := None;
                                    queries := S (queries db2) |})
              | None => (Err driverError, closed)
              end
        | (Err e, db2) =>
            (Err e, {| committed := committed db2; inTx := None;
                       queries := queries db2 |})
        end
    end.

End WithRuntime.
End Prisma.

(** ** Repositories *)

Module BaseRepository.
Section WithRuntime.
Context (rt : Runtime).

(** [tx || prisma]. *)
Definition client_of (tx : option Client) : Client :=
  match tx with Some c => c | None => prisma end.

(** [create(data, tx)] of the entity repository: the row is [data] as it
    was given. *)
Definition create (data : Entity) (tx : option Client) : Db DatabaseEntity :=
  try_catch
    (Prisma.query rt (client_of tx)
       (Prisma.entity_create (e_name data) (e_type data) (e_date data)))
    (fun _ => throw (AppError "Failed to create entity")).

End WithRuntime.
End BaseRepository.

Module EntityRepository.
Section WithRuntime.
Context (rt : Runtime).

Definition findByNameAndType (name type : string) (tx : option Client)
  : Db (option DatabaseEntity) :=
  try_catch
    (Prisma.query rt (BaseRepository.client_of tx)
       (Prisma.entity_findFirst name type))
    (fun _ => throw (AppError "Failed to find entity")).

(** The [date] column computed by [createFromEntity]: the ISO form of
    [new Date(name)] for a date entity with a non-empty name that parses,
    nothing otherwise. *)
Definition date_of_entity (entityData : Entity) : option string :=
  if String.eqb (e_type entityData) EntityType.date
     && Str.truthy (e_name entityData)
  then match Date_parse rt (e_name entityData) with
       | Some date => Some (toISOString rt date)
       | None => None
       end
  else None.

Definition createFromEntity (entityData : Entity) (tx : option Client)
  : Db DatabaseEntity :=
  try_catch
    (Prisma.query rt (BaseRepository.client_of tx)
       (Prisma.entity_create (e_name entityData) (e_type entityData)
          (date_of_entity entityData)))
    (fun _ => throw (AppError "Failed to create entity")).

Definition findOrCreate (entityData : Entity) (tx : option Client)
  : Db DatabaseEntity :=
  try_catch
    (let client := BaseRepository.client_of tx in
     let* existing :=
       findByNameAndType (e_name entityData) (e_type entityData) (Some client) in
     match existing with
     | Some row => ret row
     | None => createFromEntity entityData (Some client)
     end)%js
    (fun _ => throw (AppError "Failed to find or create entity")).

End WithRuntime.
End EntityRepository.

Module DocumentRepository.
Section WithRuntime.
Context (rt : Runtime).

Definition createWithEntities (now : Z) (documentData : CreateDocumentRequest)
    (entityIds : list nat) (tx : option Client) : Db DatabaseDocument :=
  try_catch
    (Prisma.query rt (BaseRepository.client_of tx)
       (Prisma.document_create now documentData entityIds))
    (fun _ => throw (AppError "Failed to create document")).

End WithRuntime.
End DocumentRepository.

(** ** Analysis results, the cache and the job table *)

(** [AnalysisResult] of types/api.ts. *)
Record AnalysisResult : Type := mkAnalysisResult {
  analysis : ParsedAnalysis;
  image : string;
  ar_fileName : string;
  ar_fileId : string;
  processedAt : string;
  savedDocument : option DatabaseDocument
}.

Record ProcessDocumentOptions : Type := mkOptions {
  autoSave : bool;
  async : bool;
  forceRefresh : bool
}.

(** What the service puts in the cache: image references and analysis
    results. *)
Inductive CacheValue : Type :=
| CachedString (s : string)
| CachedAnalysis (r : AnalysisResult).

Record CacheEntry : Type := mkCacheEntry {
  ce_value : CacheValue;
  ce_expiresAt : Z
}.

Module CacheService.

(** Modelled from the spec: CacheService (services/CacheService.ts) is not
    among the sources. Section 4.1: [get(key) -> value | absent], a read of
    an expired entry behaves as absent. *)
Definition get (now : Z) (key : string) (c : gmap string CacheEntry)
  : option CacheValue :=
  match c !! key with
  | Some entry => if (now <? ce_expiresAt entry)%Z then Some (ce_value entry)
                  else None
  | None => None
  end.

(** Modelled from the spec: CacheService is not among the sources.
    Section 4.1: [set(key, value, ttlSeconds)] stores the value with an
    expiry [ttlSeconds] after the write. *)
Definition set (now : Z) (key : string) (value : CacheValue) (ttlSeconds : Z)
    (c : gmap string CacheEntry) : gmap string CacheEntry :=
  <[key := {| ce_value := value; ce_expiresAt := now + ttlSeconds * 1000 |}]> c.

End CacheService.

Inductive JobStatus : Type :=
| pending | processing | completed | failed | cancelled.

(** [interface ProcessingJob]. *)
Record ProcessingJob : Type := mkProcessingJob {
  job_id : string;
  status : JobStatus;
  progress : Z;
  job_result : option AnalysisResult;
  job_error : option string;
  createdAt : Z;
  updatedAt : Z
}.

Definition with_status (st : JobStatus) (job : ProcessingJob) : ProcessingJob :=
  {| job_id := job_id job; status := st; progress := progress job;
     job_result := job_result job; job_error := job_error job;
     createdAt := createdAt job; updatedAt := updatedAt job |}.
Definition with_progress (p : Z) (job : ProcessingJob) : ProcessingJob :=
  {| job_id := job_id job; status := status job; progress := p;
     job_result := job_result job; job_error := job_error job;
     createdAt := createdAt job; updatedAt := updatedAt job |}.
Definition with_result (r : AnalysisResult) (job : ProcessingJob) : ProcessingJob :=
  {| job_id := job_id job; status := status job; progress := progress job;
     job_result := Some r; job_error := job_error job;
     createdAt := createdAt job; updatedAt := updatedAt job |}.
Definition with_error (e : string) (job : ProcessingJob) : ProcessingJob :=
  {| job_id := job_id job; status := status job; progress := progress job;
     job_result := job_result job; job_error := Some e;
     createdAt := createdAt job; updatedAt := updatedAt job |}.
Definition with_updatedAt (t : Z) (job : ProcessingJob) : ProcessingJob :=
  {| job_id := job_id job; status := status job; progress := progress job;
     job_result := job_result job; job_error := job_error job;
     createdAt := createdAt job; updatedAt := t |}.

(** A call that leaves the process. *)
Inductive Call : Type :=
| CallGetFileContent (fileId : string)
| CallGetFileMetadata (fileId : string)
| CallDocumentToImage (file : File)
| CallAnalyzeImage (imageUrl : string)
| CallParseAnalysis (analysisText : string).

(** The state of a [DocumentProcessingService] and of what it is wired
    to. A job is a JS object: [objects] maps its address to its fields, and
    [processingJobs] (the [Map]) maps a job id to the address, so that the
    table and the closure of the background task share one object. *)
Record Service : Type := mkService {
  db : Database;
  cache : gmap string CacheEntry;
  calls : list Call;
  processingJobs : gmap string nat;
  objects : gmap nat ProcessingJob;
  nextObject : nat
}.

Definition set_db (d : Database) (s : Service) : Service :=
  {| db := d; cache := cache s; calls := calls s;
     processingJobs := processingJobs s; objects := objects s;
     nextObject := nextObject s |}.
Definition set_cache (c : gmap string CacheEntry) (s : Service) : Service :=
  {| db := db s; cache := c; calls := calls s;
     processingJobs := processingJobs s; objects := objects s;
     nextObject := nextObject s |}.
Definition log_call (c : Call) (s : Service) : Service :=
  {| db := db s; cache := cache s; calls := calls s ++ [c];
     processingJobs := processingJobs s; objects := objects s;
     nextObject := nextObject s |}.
Definition set_processingJobs (m : gmap string nat) (s : Service) : Service :=
  {| db := db s; cache := cache s; calls := calls s;
     processingJobs := m; objects := objects s;
     nextObject := nextObject s |}.
Definition set_objects (h : gmap nat ProcessingJob) (s : Service) : Service :=
  {| db := db s; cache := cache s; calls := calls s;
     processingJobs := processingJobs s; objects := h;
     nextObject := nextObject s |}.

(** Database code run by the service. *)
Definition liftDb {A} (c : Db A) : M Service A :=
  fun s => let (r, d) := c (db s) in (r, set_db d s).

(** A collaborator is called: the call is recorded and its outcome is the
    one the runtime gives. *)
Definition external {A} (c : Call) (outcome : result A) : M Service A :=
  fun s => (outcome, log_call c s).

(** ** DocumentProcessingService *)

(** Where the callback given to [setImmediate] stands: not started yet,
    suspended at [await this.analyzeDocument(...)], suspended at
    [await this.saveDocument(...)], or returned. *)
Inductive TaskPoint : Type :=
| AtStart
| AwaitAnalyze
| AwaitSave (analysisResult : AnalysisResult)
| Finished.

(** The closure of the background callback: [jobId], the [job] object it
    captured (its address), [fileId] and [options]. *)
Record Task : Type := mkTask {
  task_jobId : string;
  task_job : nat;
  task_fileId : string;
  task_options : ProcessDocumentOptions;
  task_at : TaskPoint
}.

Definition at_point (p : TaskPoint) (t : Task) : Task :=
  {| task_jobId := task_jobId t; task_job := task_job t;
     task_fileId := task_fileId t; task_options := task_options t;
     task_at := p |}.

(** The [documentData] that the background task builds from an analysis. *)
Definition documentData_of (analysisResult : AnalysisResult) : CreateDocumentRequest :=
  {| title := pa_title (analysis analysisResult);
     fileName := ar_fileName analysisResult;
     content := pa_content (analysis analysisResult);
     imageUrl := Some (image analysisResult);
     documentType := pa_documentType (analysis analysisResult);
     entities := pa_entities (analysis analysisResult) |}.

(** [analysisResult.savedDocument = savedDocument]. *)
Definition with_savedDocument (savedDocument : DatabaseDocument)
    (analysisResult : AnalysisResult) : AnalysisResult :=
  {| analysis := analysis analysisResult;
     image := image analysisResult;
     ar_fileName := ar_fileName analysisResult;
     ar_fileId := ar_fileId analysisResult;
     processedAt := processedAt analysisResult;
     savedDocument := Some savedDocument |}.

Module DocumentProcessingService.
Section WithRuntime.
Context (rt : Runtime).

Definition cache_get (now : Z) (key : string) : M Service (option CacheValue) :=
  gets (fun s => CacheService.get now key (cache s)).

Definition cache_set (now : Z) (key : string) (v : CacheValue) (ttl : Z)
  : M Service unit :=
  modify (fun s => set_cache (CacheService.set now key v ttl (cache s)) s).

(** [convertToImage]: a string cached under the image key is returned as
    it is; otherwise the document is converted and the image cached for
    two hours. *)
Definition convertToImage (now : Z) (file : File) : M Service string :=
  try_catch
    (let cacheKey := "image_" +:+ file_id file +:+ "_" +:+ file_mimeType file in
     let* cachedImage := cache_get now cacheKey in
     match cachedImage with
     | Some (CachedString s) => ret s
     | _ =>
         let* imageUrl :=
           external (CallDocumentToImage file) (documentToImage rt file) in
         cache_set now cacheKey (CachedString imageUrl) 7200 ;;
         ret imageUrl
     end)%js
    (fun error =>
       throw (AppError ("Failed to convert document to image: "
                          +:+ error_message error))).

(** [analyzeDocument]. Under an [analysis_] key the service stores
    [AnalysisResult] objects only (and objects are truthy), so a hit is an
    entry that holds one. *)
Definition analyzeDocument (now : Z) (fileId : string)
    (options : ProcessDocumentOptions) : M Service AnalysisResult :=
  try_catch
    (let cacheKey := "analysis_" +:+ fileId in
     let* cachedResult := cache_get now cacheKey in
     match cachedResult, forceRefresh options with
     | Some (CachedAnalysis r), false => ret r
     | _, _ =>
         let* fm :=
           promise_all2
             (external (CallGetFileContent fileId) (getFileContent rt fileId))
             (external (CallGetFileMetadata fileId) (getFileMetadata rt fileId)) in
         let file := {| file_id := file_id (fst fm);
                        file_name := file_name (snd fm);
                        file_mimeType := file_mimeType (fst fm) |} in
         let* imageUrl := convertToImage now file in
         let* analysisText :=
           external (CallAnalyzeImage imageUrl) (analyzeImage rt imageUrl) in
         let* parsedAnalysis :=
           external (CallParseAnalysis analysisText)
                    (parseAnalysis rt analysisText) in
         let result := {| analysis := parsedAnalysis; image := imageUrl;
                          ar_fileName := file_name file; ar_fileId := fileId;
                          processedAt := isoOfTime rt now;
                          savedDocument := None |} in
         cache_set now cacheKey (CachedAnalysis result) 3600 ;;
         ret result
     end)%js
    (fun error =>
       throw (AppError ("Failed to analyze document: " +:+ error_message error))).

(** *** saveDocument

    [Promise.all(documentData.entities.map(async (entityData) => ...))]
    calls the callback on every entity before anything is awaited: each
    call runs up to its [findFirst] query and is suspended there. The
    queries of one interactive transaction run one at a time in the order
    they were sent, so all the lookups are answered first, in the order of
    the payload; a callback whose lookup found nothing then sends its
    [create], behind the lookups that are still waiting. *)

(** The lookups, in order. [inserts] collects the callbacks that go on to
    [create]; [slots] holds what each callback has returned so far. *)
Fixpoint run_lookups (tx : Client) (lookups inserts : list (nat * Entity))
    (slots : list (option DatabaseEntity))
  : Db (list (nat * Entity) * list (option DatabaseEntity)) :=
  match lookups with
  | [] => ret (inserts, slots)
  | (i, entityData) :: rest =>
      (let* existingEntity :=
         EntityRepository.findByNameAndType rt
           (e_name entityData) (e_type entityData) (Some tx) in
       match existingEntity with
       | Some row => run_lookups tx rest inserts (<[i := Some row]> slots)
       | None => run_lookups tx rest (inserts ++ [(i, entityData)]) slots
       end)%js
  end.

(** The inserts, in the order their lookups were answered. *)
Fixpoint run_inserts (tx : Client) (inserts : list (nat * Entity))
    (slots : list (option DatabaseEntity)) : Db (list (option DatabaseEntity)) :=
  match inserts with
  | [] => ret slots
  | (i, entityData) :: rest =>
      (let* row := BaseRepository.create rt entityData (Some tx) in
       run_inserts tx rest (<[i := Some row]> slots))%js
  end.

(** [processedEntities]: Promise.all rejects as soon as one callback
    throws, and gives the rows in payload order otherwise. *)
Definition processEntities (tx : Client) (es : list Entity)
  : Db (list DatabaseEntity) :=
  (let* p := run_lookups tx (imap pair es) [] (replicate (length es) None) in
   let* slots := run_inserts tx (fst p) (snd p) in
   ret (omap id slots))%js.

Definition saveDocument_db (now : Z) (documentData : CreateDocumentRequest)
  : Db DatabaseDocument :=
  try_catch
    (let validation :=
       ValidationService.validateDocumentForSave rt documentData in
     if negb (isValid validation)
     then throw (AppError ("Validation failed: "
                             +:+ Str.join ", " (errors validation)))
     else
       Prisma.transaction rt (fun tx =>
         let* processedEntities := processEntities tx (entities documentData) in
         DocumentRepository.createWithEntities rt now documentData
           (map de_id processedEntities) (Some tx)))%js
    (fun error =>
       throw (AppError ("Failed to save document: " +:+ error_message error))).

Definition saveDocument (now : Z) (documentData : CreateDocumentRequest)
  : M Service DatabaseDocument :=
  liftDb (saveDocument_db now documentData).

(** *** The job table *)

(** An assignment to a field of the job object at [address]. *)
Definition update_job (address : nat) (f : ProcessingJob -> ProcessingJob)
  : M Service unit :=
  modify (fun s => set_objects (alter f address (objects s)) s).

(** [this.processingJobs.set(jobId, job)]. *)
Definition table_set (jobId : string) (address : nat) : M Service unit :=
  modify (fun s => set_processingJobs (<[jobId := address]> (processingJobs s)) s).

(** [this.processingJobs.get(jobId)] followed by a read of the object. *)
Definition table_get (jobId : string) (s : Service) : option (nat * ProcessingJob) :=
  match processingJobs s !! jobId with
  | Some address =>
      match objects s !! address with
      | Some job => Some (address, job)
      | None => None
      end
  | None => None
  end.

(** [getProcessingStatus]: the fields of the job, or the 404 error. *)
Definition getProcessingStatus (jobId : string) : M Service ProcessingJob :=
  fun s =>
    match table_get jobId s with
    | None => (Err (AppErrorWith "Processing job not found" 404), s)
    | Some (_, job) => (Ok job, s)
    end.

Definition cancelProcessing (now : Z) (jobId : string) : M Service unit :=
  fun s =>
    match table_get jobId s with
    | None => (Err (AppErrorWith "Processing job not found" 404), s)
    | Some (address, job) =>
        match status job with
        | completed | failed =>
            (Err (AppErrorWith "Cannot cancel completed or failed job" 400), s)
        | _ =>
            (update_job address (with_status cancelled) ;;
             update_job address (with_updatedAt now) ;;
             table_set jobId address)%js s
        end
    end.

(** The synchronous part of [startAsyncProcessing]: a new job object in
    state [pending] is put in the table and the callback is handed to
    [setImmediate]. *)
Definition startAsyncProcessing (now : Z) (jobId fileId : string)
    (options : ProcessDocumentOptions) : M Service Task :=
  fun s =>
    let address := nextObject s in
    let job := {| job_id := jobId; status := pending; progress := 0;
                  job_result := None; job_error := None;
                  createdAt := now; updatedAt := now |} in
    (Ok {| task_jobId := jobId; task_job := address; task_fileId := fileId;
           task_options := options; task_at := AtStart |},
     {| db := db s; cache := cache s; calls := calls s;
        processingJobs := <[jobId := address]> (processingJobs s);
        objects := <[address := job]> (objects s);
        nextObject := S address |}).

(** The end of the [try] block. *)
Definition complete (now : Z) (task : Task) (analysisResult : AnalysisResult)
  : M Service TaskPoint :=
  (update_job (task_job task) (with_status completed) ;;
   update_job (task_job task) (with_progress 100) ;;
   update_job (task_job task) (with_result analysisResult) ;;
   update_job (task_job task) (with_updatedAt now) ;;
   table_set (task_jobId task) (task_job task) ;;
   ret Finished)%js.

(** The [try] block of the callback from the point where the task stands
    to its next [await]. The awaited call is run when the task resumes:
    neither [analyzeDocument] nor [saveDocument] reads or writes the job
    table, so the tracker sees the same whenever they run in between.
    [analysisResult.analysis] is an object and so truthy: the test before
    the save is the test of [options.autoSave]. *)
Definition segment (now : Z) (task : Task) : M Service TaskPoint :=
  let job := task_job task in
  let jobId := task_jobId task in
  let options := task_options task in
  match task_at task with
  | AtStart =>
      (update_job job (with_status processing) ;;
       update_job job (with_progress 10) ;;
       update_job job (with_updatedAt now) ;;
       table_set jobId job ;;
       update_job job (with_progress 50) ;;
       update_job job (with_updatedAt now) ;;
       table_set jobId job ;;
       ret AwaitAnalyze)%js
  | AwaitAnalyze =>
      (let* analysisResult := analyzeDocument now (task_fileId task) options in
       update_job job (with_progress 80) ;;
       update_job job (with_updatedAt now) ;;
       table_set jobId job ;;
       if autoSave options
       then ret (AwaitSave analysisResult)
       else complete now task analysisResult)%js
  | AwaitSave analysisResult =>
      (let* savedDocument := saveDocument now (documentData_of analysisResult) in
       complete now task (with_savedDocument savedDocument analysisResult))%js
  | Finished => ret Finished
  end.

(** The [catch] block of the callback. *)
Definition catch_block (now : Z) (task : Task) (error : Exn) : M Service TaskPoint :=
  (update_job (task_job task) (with_status failed) ;;
   update_job (task_job task) (with_error (error_message error)) ;;
   update_job (task_job task) (with_updatedAt now) ;;
   table_set (task_jobId task) (task_job task) ;;
   ret Finished)%js.

(** The event loop runs the callback from where it stands to its next
    [await] or to its end. What comes back is what leaves the callback:
    [Err] would be an exception that escapes the background path. *)
Definition resume (now : Z) (task : Task) : M Service Task :=
  (let* p := try_catch (segment now task) (catch_block now task) in
   ret (at_point p task))%js.

(** The task run to its end with nothing in between; the three times are
    the clock readings of its (at most three) resumptions. *)
Definition run_to_end (t1 t2 t3 : Z) (task : Task) : M Service Task :=
  (let* task1 := resume t1 task in
   let* task2 := resume t2 task1 in
   resume t3 task2)%js.

(** The test of [cleanupOldJobs] on one entry, negated. *)
Definition recent (now : Z) (s : Service) (kv : string * nat) : bool :=
  match objects s !! kv.2 with
  | Some job => negb (now - createdAt job >? 24 * 60 * 60 * 1000)%Z
  | None => true
  end.

(** [cleanupOldJobs]: entries whose job was created more than 24 hours
    before [now] leave the table. *)
Definition cleanupOldJobs (now : Z) : M Service unit :=
  modify (fun s =>
    set_processingJobs
      (filter (fun kv => recent now s kv = true) (processingJobs s)) s).

End WithRuntime.
End DocumentProcessingService.

(** ** A concrete runtime and concrete inputs *)

Module Demo.

Definition digit (c : ascii) : option Z :=
  let n := nat_of_ascii c in
  if Nat.leb 48 n && Nat.leb n 57 then Some (Z.of_nat (n - 48)) else None.

Fixpoint number (acc : Z) (cs : list ascii) : option Z :=
  match cs with
  | [] => Some acc
  | c :: rest => match digit c with
                 | Some d => number (10 * acc + d) rest
                 | None => None
                 end
  end.

(** A [Date] that understands calendar dates written YYYY-MM-DD and
    nothing else; the value keeps the text and the year. *)
Definition parse_ymd (s : string) : option (string * Z) :=
  match list_ascii_of_string s with
  | [y1; y2; y3; y4; d1; m1; m2; d2; a1; a2] =>
      if Ascii.eqb d1 "-" && Ascii.eqb d2 "-"
      then match number 0 [y1; y2; y3; y4], number 0 [m1; m2], number 0 [a1; a2] with
           | Some y, Some m, Some d =>
               if (1 <=? m)%Z && (m <=? 12)%Z && (1 <=? d)%Z && (d <=? 31)%Z
               then Some (s, y) else None
           | _, _, _ => None
           end
      else None
  | _ => None
  end.

Definition analysisOf (text : string) : ParsedAnalysis :=
  {| pa_documentType := "letter";
     pa_title := "Letter from the Front";
     pa_content := text;
     pa_entities := [ {| e_name := "John Smith"; e_type := "person"; e_date := None |} ] |}.

(** Every collaborator answers; the database fails on the queries listed
    in [faults]; a time is printed as "@" followed by the milliseconds. *)
Definition runtime (faults : list nat) : Runtime :=
  {| JsDate := string * Z;
     Date_parse := parse_ymd;
     getFullYear := snd;
     toISOString := fun d => fst d +:+ "T00:00:00.000Z";
     isoOfTime := fun t => "@" +:+ Str.of_Z t;
     currentYear := 2025;
     URL_parses := fun url => String.prefix "https://" url;
     getFileContent := fun fileId =>
       Ok {| file_id := fileId; file_name := ""; file_mimeType := "application/pdf" |};
     getFileMetadata := fun fileId =>
       Ok {| file_id := fileId; file_name := fileId +:+ ".pdf";
             file_mimeType := "application/pdf" |};
     documentToImage := fun file => Ok ("https://img/" +:+ file_id file);
     analyzeImage := fun imageUrl => Ok ("text of " +:+ imageUrl);
     parseAnalysis := fun text => Ok (analysisOf text);
     db_fault := fun k => existsb (Nat.eqb k) faults |}.

(** The same with an AI client that is down. *)
Definition runtime_ai_down : Runtime :=
  {| JsDate := JsDate (runtime []);
     Date_parse := Date_parse (runtime []);
     getFullYear := getFullYear (runtime []);
     toISOString := toISOString (runtime []);
     isoOfTime := isoOfTime (runtime []);
     currentYear := currentYear (runtime []);
     URL_parses := URL_parses (runtime []);
     getFileContent := getFileContent (runtime []);
     getFileMetadata := getFileMetadata (runtime []);
     documentToImage := documentToImage (runtime []);
     analyzeImage := fun _ => Err (JsError "model overloaded" 503);
     parseAnalysis := parseAnalysis (runtime []);
     db_fault := db_fault (runtime []) |}.

Definition emptyTables : Tables :=
  {| entityRows := []; documentRows := []; nextId := 0 |}.

Definition emptyDatabase : Database :=
  {| committed := emptyTables; inTx := None; queries := 0 |}.

Definition emptyService : Service :=
  {| db := emptyDatabase; cache := ∅; calls := [];
     processingJobs := ∅; objects := ∅; nextObject := 0 |}.

Definition person (name : string) : Entity :=
  {| e_name := name; e_type := "person"; e_date := None |}.

Definition dateEntity (name : string) : Entity :=
  {| e_name := name; e_type := "date"; e_date := None |}.

(** The example of section 8 of the specification. *)
Definition letterFromTheFront : CreateDocumentRequest :=
  {| title := "Letter from the Front"; fileName := "l1.pdf";
     content := "..."; imageUrl := None; documentType := "letter";
     entities := [person "John Smith"; person "john smith"] |}.

Definition letterWith (es : list Entity) : CreateDocumentRequest :=
  {| title := "Letter from the Front"; fileName := "l1.pdf";
     content := "..."; imageUrl := None; documentType := "letter";
     entities := es |}.

Definition photoWithoutImage : CreateDocumentRequest :=
  {| title := "Beach at dawn"; fileName := "p1.jpg";
     content := "Landing craft on the shore"; imageUrl := None;
     documentType := "photo";
     entities := [person "John Smith"] |}.

(** Several violations at once. *)
Definition badPayload : CreateDocumentRequest :=
  {| title := "   "; fileName := ""; content := "x"; imageUrl := None;
     documentType := "photo"; entities := [] |}.

Definition noOptions : ProcessDocumentOptions :=
  {| autoSave := false; async := false; forceRefresh := false |}.
Definition refresh : ProcessDocumentOptions :=
  {| autoSave := false; async := false; forceRefresh := true |}.
Definition withAutoSave : ProcessDocumentOptions :=
  {| autoSave := true; async := true; forceRefresh := false |}.

(** The service after [startAsyncProcessing("job_1", "f1", options)] at
    time 0, and the task it has scheduled. *)
Definition submitted (options : ProcessDocumentOptions) : Service :=
  snd (DocumentProcessingService.startAsyncProcessing 0 "job_1" "f1" options
         emptyService).

Definition scheduled (options : ProcessDocumentOptions) : Task :=
  {| task_jobId := "job_1"; task_job := 0; task_fileId := "f1";
     task_options := options; task_at := AtStart |}.

Definition job1 (st : JobStatus) (p upd : Z) : ProcessingJob :=
  {| job_id := "job_1"; status := st; progress := p; job_result := None;
     job_error := None; createdAt := 0; updatedAt := upd |}.

End Demo.

(** ** Vocabulary of the specification *)

Module Spec.

(** A text with nothing but white space in it. *)
Fixpoint blank (s : string) : bool :=
  match s with
  | EmptyString => true
  | String c s' => Str.is_ws c && blank s'
  end.

(** The payload invariants of section 4.4, step 1. *)
Inductive Rule : Type :=
| TitleRule | FileNameRule | ContentRule
| DocumentTypeRule | EntityCountRule | PhotoImageRule.

(** "non-empty title/fileName/content within length bounds, valid
    documentType, 1-50 entities, photo => imageUrl". *)
Definition holds (d : CreateDocumentRequest) (r : Rule) : bool :=
  match r with
  | TitleRule => negb (blank (title d)) && (Str.len (title d) <=? 255)%Z
  | FileNameRule => negb (blank (fileName d)) && (Str.len (fileName d) <=? 255)%Z
  | ContentRule => negb (blank (content d)) && (Str.len (content d) <=? 10000)%Z
  | DocumentTypeRule =>
      existsb (String.eqb (documentType d)) DocumentType.values
  | EntityCountRule =>
      Nat.leb 1 (length (entities d)) && Nat.leb (length (entities d)) 50
  | PhotoImageRule =>
      negb (String.eqb (documentType d) "photo")
      || match imageUrl d with
         | Some url => negb (String.eqb url "")
         | None => false
         end
  end.

(** The messages by which a violation of each rule is reported. *)
Definition rule_messages (r : Rule) : list string :=
  match r with
  | TitleRule => ["Title is required and cannot be empty";
                  "Title cannot exceed 255 characters"]
  | FileNameRule => ["File name is required and cannot be empty";
                     "File name cannot exceed 255 characters"]
  | ContentRule => ["Content is required and cannot be empty";
                    "Content cannot exceed 10,000 characters"]
  | DocumentTypeRule =>
      ["Document type is required";
       "Invalid document type. Must be one of: letter, report, photo, newspaper, list, diary_entry, book, map, biography"]
  | EntityCountRule => ["At least one entity is required";
                        "Cannot have more than 50 entities per document"]
  | PhotoImageRule => ["Photo documents must have an image URL"]
  end.

(** The rules a payload violates, and whether a list of messages reports
    a rule. *)
Definition reported (r : Rule) (errs : list string) : Prop :=
  exists m, In m (rule_messages r) /\ In m errs.

(** The natural key of an entity: lower-cased name and type. *)
Definition natural_key (e : Entity) : string * string :=
  (Str.toLowerCase (e_name e), e_type e).

(** [|distinct(name-lower, type)|]. *)
Definition distinct_keys (es : list Entity) : nat :=
  length (remove_dups (map natural_key es)).

(** The calls of the classify and parse steps on an image. *)
Definition classify_calls (rt : Runtime) (imageUrl : string) : list Call :=
  CallAnalyzeImage imageUrl ::
  match analyzeImage rt imageUrl with
  | Ok text => [CallParseAnalysis text]
  | Err _ => []
  end.

(** What classifying and parsing [imageUrl] afresh gives for [file]. *)
Definition fresh_analysis (rt : Runtime) (now : Z) (fileId : string)
    (file : File) (imageUrl : string) : result AnalysisResult :=
  match analyzeImage rt imageUrl with
  | Err e => Err (AppError ("Failed to analyze document: " +:+ error_message e))
  | Ok text =>
      match parseAnalysis rt text with
      | Err e => Err (AppError ("Failed to analyze document: " +:+ error_message e))
      | Ok parsed =>
          Ok {| analysis := parsed; image := imageUrl;
                ar_fileName := file_name file; ar_fileId := fileId;
                processedAt := isoOfTime rt now; savedDocument := None |}
      end
  end.

(** The job object that the table gives for [jobId]. *)
Definition job_of (jobId : string) (s : Service) : option ProcessingJob :=
  option_map snd (DocumentProcessingService.table_get jobId s).

End Spec.

(** ** Vocabulary of the proofs *)

(** A computation that leaves the committed tables as they are, whether it
    returns or throws. *)
Definition keeps_committed {A} (c : Db A) : Prop :=
  forall d r d', c d = (r, d') -> committed d' = committed d.

(** Between two states of the database no query was made to fail. *)
Definition no_fault_between (rt : Runtime) (d d' : Database) : Prop :=
  queries d <= queries d'
  /\ forall k, queries d <= k < queries d' -> db_fault rt k = false.

(** A computation that returns only when none of its queries failed. *)
Definition fault_free {A} (rt : Runtime) (c : Db A) : Prop :=
  forall d a d', c d = (Ok a, d') -> no_fault_between rt d d'.

(** A computation that does not touch the job table, whether it returns or
    throws. *)
Definition keeps_jobs {A} (c : M Service A) : Prop :=
  forall s r s', c s = (r, s') ->
    processingJobs s' = processingJobs s /\ objects s' = objects s.

(** The row that [BaseRepository.create] inserts for a payload entity. *)
Definition row_of (id : nat) (e : Entity) : DatabaseEntity :=
  {| de_id := id; de_name := e_name e; de_date := e_date e; de_type := e_type e |}.

(** One new row for each entity of a payload, numbered from [nextId]. *)
Definition fresh_rows (t : Tables) (es : list Entity) : list DatabaseEntity :=
  imap (fun i e => row_of (nextId t + i) e) es.

(** The tables with [rows] inserted. *)
Definition with_rows (t : Tables) (rows : list DatabaseEntity) : Tables :=
  {| entityRows := entityRows t ++ rows; documentRows := documentRows t;
     nextId := nextId t + length rows |}.

(** The lookup by name and type finds no stored entity for the
    entity. *)
Definition unknown (t : Tables) (e : Entity) : Prop :=
  List.find (fun row => Str.equals_insensitive (de_name row) (e_name e)
                        && String.eqb (de_type row) (e_type e))
            (entityRows t) = None.

(** A lookup by id found a row. *)
Definition entity_found (o : option DatabaseEntity) : bool :=
  match o with Some _ => true | None => false end.

(** How many resumptions a task may still need. *)
Definition rank (p : TaskPoint) : nat :=
  match p with
  | AtStart => 3
  | AwaitAnalyze => 2
  | AwaitSave _ => 1
  | Finished => 0
  end.

(** The two states in which the background callback leaves a job. *)
Definition settled (job : ProcessingJob) : Prop :=
  status job = completed \/ status job = failed.

(** The job as the [catch] block of the callback leaves it. *)
Definition failed_job (now : Z) (error : Exn) (job : ProcessingJob) : ProcessingJob :=
  with_updatedAt now (with_error (error_message error) (with_status failed job)).

(** ** Request checks (middleware/validation.ts, BaseController.ts) and
       the other methods of ValidationService *)

Module Js.

Definition digit_value (c : ascii) : option Z :=
  let n := nat_of_ascii c in
  if Nat.leb 48 n && Nat.leb n 57 then Some (Z.of_nat (n - 48)) else None.

(** The value of the longest prefix of decimal digits; [seen] tells
    whether a digit has been read. Nothing is returned when there is no
    digit at all. *)
Fixpoint digits_prefix (acc : Z) (seen : bool) (s : string) : option Z :=
  match s with
  | EmptyString => if seen then Some acc else None
  | String c s' =>
      match digit_value c with
      | Some d => digits_prefix (10 * acc + d) true s'
      | None => if seen then Some acc else None
      end
  end.

(** [parseInt(s, 10)]: leading white space is skipped, a sign is read,
    then the longest run of decimal digits; [None] is NaN. JS numbers are
    doubles: the value is exact up to 2^53, and comparisons with small
    integers are right beyond. *)
Definition parseInt (s : string) : option Z :=
  match Str.trimStart s with
  | String "-" rest => option_map Z.opp (digits_prefix 0 false rest)
  | String "+" rest => digits_prefix 0 false rest
  | t => digits_prefix 0 false t
  end.

(** [parseInt(x as string, 10)] on a query parameter that may be
    [undefined]. *)
Definition parseInt_param (x : option string) : option Z :=
  match x with
  | Some s => parseInt s
  | None => None
  end.

(** [n || d] on a number: NaN and 0 are falsy. *)
Definition or_default (n : option Z) (d : Z) : Z :=
  match n with
  | Some v => if (v =? 0)%Z then d else v
  | None => d
  end.

(** [/[<>{}[\]]/.test(s)]. *)
Definition is_dangerous (c : ascii) : bool :=
  Ascii.eqb c "<" || Ascii.eqb c ">" || Ascii.eqb c "{" || Ascii.eqb c "}"
  || Ascii.eqb c "[" || Ascii.eqb c "]".

Fixpoint has_dangerous (s : string) : bool :=
  match s with
  | EmptyString => false
  | String c s' => is_dangerous c || has_dangerous s'
  end.

End Js.

(** What a middleware does with a request: hand it on with [next()], or
    answer it with [res.status(statusCode).json({ error, ... })]. *)
Inductive Outcome : Type :=
| Next
| Respond (statusCode : Z) (error : string).

(** [PaginationParams] of types/api.ts. *)
Record PaginationParams : Type := mkPaginationParams {
  pg_page : Z;
  pg_limit : Z;
  pg_skip : Z
}.

Module Middleware.
Section WithRuntime.
Context (rt : Runtime).

(** The check of one of [page] and [limit]. *)
Definition check_number (x : option string) (bound : Z) (notPositive tooLarge : string)
  : option string :=
  match x with
  | None => None
  | Some s =>
      match Js.parseInt s with
      | None => Some notPositive
      | Some n =>
          if (n <? 1)%Z then Some notPositive
          else if (bound <? n)%Z then Some tooLarge
          else None
      end
  end.

(** [validatePagination]: the first failed check answers the request. *)
Definition validatePagination (page limit : option string) : Outcome :=
  match check_number page 10000 "Page must be a positive integer"
          "Page number cannot exceed 10,000" with
  | Some error => Respond 400 error
  | None =>
      match check_number limit 100 "Limit must be a positive integer"
              "Limit cannot exceed 100" with
      | Some error => Respond 400 error
      | None => Next
      end
  end.

(** [validateSearchQuery] on [req.query.q]. *)
Definition validateSearchQuery (q : option string) : Outcome :=
  match q with
  | None => Respond 400 "Search query is required"
  | Some query =>
      if negb (Str.truthy query) then Respond 400 "Search query is required"
      else
        let searchTerm := Str.trim query in
        if (Str.len searchTerm <? 2)%Z
        then Respond 400 "Search query must be at least 2 characters long"
        else if (100 <? Str.len searchTerm)%Z
        then Respond 400 "Search query cannot exceed 100 characters"
        else if Js.has_dangerous searchTerm
        then Respond 400 "Search query contains invalid characters"
        else Next
  end.

(** The body of [entities.forEach((entity, index) => ...)] of
    [validateDocumentBody], [index] counted from [i]. *)
Fixpoint bodyEntityErrors (i : nat) (es : list Entity) : list string :=
  match es with
  | [] => []
  | entity :: rest =>
      ((if negb (Str.truthy (e_name entity))
           || (Str.len (Str.trim (e_name entity)) =? 0)%Z
        then ["Entity " +:+ Str.of_nat (i + 1)
                +:+ ": name is required and must be a non-empty string"]
        else if (255 <? Str.len (e_name entity))%Z
        then ["Entity " +:+ Str.of_nat (i + 1)
                +:+ ": name cannot exceed 255 characters"]
        else [])
       ++ (if negb (Str.truthy (e_type entity))
              || negb (Str.includes EntityType.values (e_type entity))
           then ["Entity " +:+ Str.of_nat (i + 1) +:+ ": type must be one of: "
                   +:+ Str.join ", " EntityType.values]
           else [])
       ++ (if String.eqb (e_type entity) EntityType.date
              && Str.truthy (e_name entity)
           then match Date_parse rt (e_name entity) with
                | None => ["Entity " +:+ Str.of_nat (i + 1)
                             +:+ ": invalid date format"]
                | Some _ => []
                end
           else [])
       ++ bodyEntityErrors (S i) rest)%list
  end.

(** The messages that [validateDocumentBody] collects. The body is a typed
    request, so the [typeof] tests hold and [entities] is an array. *)
Definition bodyErrors (body : CreateDocumentRequest) : list string :=
  let text (value : string) (bound : Z) (required tooLong : string) :=
    if negb (Str.truthy value) || (Str.len (Str.trim value) =? 0)%Z
    then [required]
    else if (bound <? Str.len value)%Z then [tooLong] else [] in
  (text (title body) 255%Z "Title is required and must be a non-empty string"
        "Title cannot exceed 255 characters"
   ++ text (fileName body) 255%Z
        "File name is required and must be a non-empty string"
        "File name cannot exceed 255 characters"
   ++ text (content body) 10000%Z
        "Content is required and must be a non-empty string"
        "Content cannot exceed 10,000 characters"
   ++ (if negb (Str.truthy (documentType body))
          || negb (Str.includes DocumentType.values (documentType body))
       then ["Document type is required and must be one of: "
               +:+ Str.join ", " DocumentType.values]
       else [])
   ++ (if Nat.eqb (length (entities body)) 0
       then ["At least one entity is required"]
       else if Nat.ltb 50 (length (entities body))
       then ["Cannot have more than 50 entities per document"]
       else bodyEntityErrors 0 (entities body)))%list.

Definition validateDocumentBody (body : CreateDocumentRequest) : Outcome :=
  match bodyErrors body with
  | [] => Next
  | errs => Respond 400 ("Validation failed: " +:+ Str.join "; " errs)
  end.

End WithRuntime.
End Middleware.

Module BaseController.

(** [extractPaginationParams] on [req.query.page] and [req.query.limit]. *)
Definition extractPaginationParams (page limit : option string) : PaginationParams :=
  let page := Z.max 1 (Js.or_default (Js.parseInt_param page) 1) in
  let limit := Z.min 100 (Z.max 1 (Js.or_default (Js.parseInt_param limit) 10)) in
  {| pg_page := page; pg_limit := limit; pg_skip := (page - 1) * limit |}.

End BaseController.

Module ValidationQueries.

(** [ValidationService.validateSearchQuery]. *)
Definition validateSearchQuery (query : string) : ValidationResult :=
  ValidationService.finish
    ((if negb (Str.truthy (Str.trim query))
      then ["Search query is required"]
      else if (Str.len query <? 2)%Z
      then ["Search query must be at least 2 characters long"]
      else if (100 <? Str.len query)%Z
      then ["Search query cannot exceed 100 characters"]
      else [])
     ++ (if Js.has_dangerous query
         then ["Search query contains invalid characters"]
         else []))%list.

(** [ValidationService.validatePagination]. *)
Definition validatePagination (page limit : option string) : ValidationResult :=
  ValidationService.finish
    (match Middleware.check_number page 10000 "Page must be a positive integer"
             "Page number cannot exceed 10,000" with
     | Some error => [error]
     | None => []
     end
     ++ match Middleware.check_number limit 100 "Limit must be a positive integer"
                "Limit cannot exceed 100" with
        | Some error => [error]
        | None => []
        end)%list.

(** The body of [ids.forEach((id, index) => ...)], [index] counted from
    [i]. *)
Fixpoint invalidIds (i : nat) (ids : list string) : list string :=
  match ids with
  | [] => []
  | id :: rest =>
      ((if negb (Str.truthy id) || (Str.len (Str.trim id) =? 0)%Z
        then ["Invalid ID at position " +:+ Str.of_nat (i + 1)]
        else [])
       ++ invalidIds (S i) rest)%list
  end.

(** [ValidationService.validateBulkOperation(ids, maxCount)];
    [new Set(ids).size] is the number of distinct ids. *)
Definition validateBulkOperation (ids : list string) (maxCount : Z)
  : ValidationResult :=
  ValidationService.finish
    (if Nat.eqb (length ids) 0
     then ["At least one ID is required"]
     else if (maxCount <? Z.of_nat (length ids))%Z
     then ["Cannot process more than " +:+ Str.of_Z maxCount
             +:+ " items at once"]
     else
       (invalidIds 0 ids
        ++ (if negb (Nat.eqb (length (remove_dups ids)) (length ids))
            then ["Duplicate IDs are not allowed"]
            else []))%list).

End ValidationQueries.

(** ** Other repository methods *)

Module PrismaQueries.

(** [include: { entities: true }] on a document row. *)
Definition hydrate (t : Tables) (row : DocumentRow) : DatabaseDocument :=
  {| dd_row := row;
     dd_entities := omap (Prisma.entity_findById t) (dr_entityIds row) |}.

(** [client.document.findFirst({ where: { OR: [{ title: { equals: title,
    mode: 'insensitive' } }, { fileName: { equals: fileName, mode:
    'insensitive' } }] }, include: { entities: true } })]. *)
Definition document_findByTitleOrFilename (title fileName : string) (t : Tables)
  : result (option DatabaseDocument) * Tables :=
  (Ok (option_map (hydrate t)
         (List.find (fun row => Str.equals_insensitive (dr_title row) title
                                || Str.equals_insensitive (dr_fileName row) fileName)
            (documentRows t))), t).

(** [client.document.findUnique({ where: { id }, include: { entities: true
    } })]. *)
Definition document_findUnique (id : nat) (t : Tables)
  : result (option DatabaseDocument) * Tables :=
  (Ok (option_map (hydrate t)
         (List.find (fun row => Nat.eqb (dr_id row) id) (documentRows t))), t).

Definition document_exists (id : nat) (t : Tables) : bool :=
  existsb (fun row => Nat.eqb (dr_id row) id) (documentRows t).

(** The row of document [id] with its links replaced. An update that
    writes relations only touches the link table: the columns of the row,
    [updatedAt] among them, stay as they are. *)
Definition relink (id : nat) (links : list nat -> list nat)
    (row : DocumentRow) : DocumentRow :=
  if Nat.eqb (dr_id row) id
  then {| dr_id := dr_id row; dr_title := dr_title row;
          dr_fileName := dr_fileName row; dr_content := dr_content row;
          dr_imageUrl := dr_imageUrl row;
          dr_documentType := dr_documentType row;
          dr_createdAt := dr_createdAt row;
          dr_updatedAt := dr_updatedAt row;
          dr_entityIds := links (dr_entityIds row) |}
  else row.

Definition with_documents (t : Tables) (rows : list DocumentRow) : Tables :=
  {| entityRows := entityRows t; documentRows := rows; nextId := nextId t |}.

(** [client.document.update({ where: { id }, data: { entities: { set: []
    } } })]: fails when there is no such document. *)
Definition document_disconnectAll (id : nat) (t : Tables)
  : result unit * Tables :=
  if document_exists id t
  then (Ok tt, with_documents t (map (relink id (fun _ => [])) (documentRows t)))
  else (Err Prisma.driverError, t).

(** [client.document.update({ where: { id }, data: { entities: { connect:
    ids } }, include: { entities: true } })]: fails when there is no such
    document or when one of the ids names no entity. *)
Definition document_connect (id : nat) (entityIds : list nat) (t : Tables)
  : result (option DatabaseDocument) * Tables :=
  if document_exists id t
     && forallb (fun e => match Prisma.entity_findById t e with
                          | Some _ => true | None => false end) entityIds
  then
    let t' := with_documents t
                (map (relink id (fun old => Prisma.dedup_ids (old ++ entityIds)))
                     (documentRows t)) in
    (Ok (option_map (hydrate t')
           (List.find (fun row => Nat.eqb (dr_id row) id) (documentRows t'))), t')
  else (Err Prisma.driverError, t).

(** An entity that some document is linked to. *)
Definition linked (t : Tables) (row : DatabaseEntity) : bool :=
  existsb (fun d => existsb (Nat.eqb (de_id row)) (dr_entityIds d))
          (documentRows t).

(** [client.entity.deleteMany({ where: { documents: { none: {} } } })]:
    the result is [{ count }]. *)
Definition entity_deleteOrphaned (t : Tables) : result nat * Tables :=
  let kept := List.filter (linked t) (entityRows t) in
  (Ok (length (entityRows t) - length kept),
   {| entityRows := kept; documentRows := documentRows t; nextId := nextId t |}).

End PrismaQueries.

Module DocumentQueries.
Section WithRuntime.
Context (rt : Runtime).

Definition findByTitleOrFilename (title fileName : string) (tx : option Client)
  : Db (option DatabaseDocument) :=
  try_catch
    (Prisma.query rt (BaseRepository.client_of tx)
       (PrismaQueries.document_findByTitleOrFilename title fileName))
    (fun _ => throw (AppError "Failed to find document")).

Definition findByIdWithEntities (id : nat) (tx : option Client)
  : Db (option DatabaseDocument) :=
  try_catch
    (Prisma.query rt (BaseRepository.client_of tx)
       (PrismaQueries.document_findUnique id))
    (fun _ => throw (AppError "Failed to find document")).

(** [updateEntities]: two updates, one after the other. *)
Definition updateEntities (documentId : nat) (entityIds : list nat)
    (tx : option Client) : Db (option DatabaseDocument) :=
  try_catch
    (let client := BaseRepository.client_of tx in
     Prisma.query rt client (PrismaQueries.document_disconnectAll documentId) ;;
     Prisma.query rt client (PrismaQueries.document_connect documentId entityIds))%js
    (fun _ => throw (AppError "Failed to update document entities")).

End WithRuntime.
End DocumentQueries.

Module EntityQueries.
Section WithRuntime.
Context (rt : Runtime).

Definition deleteOrphaned (tx : option Client) : Db nat :=
  try_catch
    (Prisma.query rt (BaseRepository.client_of tx)
       PrismaQueries.entity_deleteOrphaned)
    (fun _ => throw (AppError "Failed to delete orphaned entities")).

End WithRuntime.
End EntityQueries.

Module ValidationUniqueness.
Section WithRuntime.
Context (rt : Runtime).

(** [ValidationService.validateDocumentUniqueness(title, fileName,
    excludeId)]. *)
Definition validateDocumentUniqueness (title fileName : string)
    (excludeId : option nat) : Db ValidationResult :=
  try_catch
    (let* existingDocument :=
       DocumentQueries.findByTitleOrFilename rt title fileName None in
     ret (ValidationService.finish
            (match existingDocument with
             | Some doc =>
                 if match excludeId with
                    | Some x => Nat.eqb (dr_id (dd_row doc)) x
                    | None => false
                    end
                 then []
                 else
                   ((if String.eqb (Str.toLowerCase (dr_title (dd_row doc)))
                          (Str.toLowerCase title)
                     then ["A document with this title already exists"]
                     else [])
                    ++ (if String.eqb (Str.toLowerCase (dr_fileName (dd_row doc)))
                             (Str.toLowerCase fileName)
                        then ["A document with this filename already exists"]
                        else []))%list
             | None => []
             end)))%js
    (fun _ => ret {| isValid := false;
                     errors := ["Failed to validate document uniqueness"] |}).

End WithRuntime.
End ValidationUniqueness.

(** ** Vocabulary of the further properties *)

(** Every job object lives below the next address to be given out. *)
Definition allocated_below (s : Service) : Prop :=
  forall address job, objects s !! address = Some job -> address < nextObject s.

(** Every entry of the job table points to a job object. *)
Definition table_points_to_objects (s : Service) : Prop :=
  forall jobId address,
    processingJobs s !! jobId = Some address -> is_Some (objects s !! address).

(** The progress a job shows while its task stands at a point. *)
Definition progress_at (p : TaskPoint) : option Z :=
  match p with
  | AtStart => Some 0%Z
  | AwaitAnalyze => Some 50%Z
  | AwaitSave _ => Some 80%Z
  | Finished => None
  end.

(** The stored entity that a lookup by name and type gives. *)
Definition known_as (t : Tables) (e : Entity) : option DatabaseEntity :=
  List.find (fun row => Str.equals_insensitive (de_name row) (e_name e)
                        && String.eqb (de_type row) (e_type e))
            (entityRows t).

(** The rows that the callbacks of a save return, in payload order: the
    stored row for a known entity, a new row (numbered from [n]) for an
    unknown one. *)
Fixpoint resolve_from (t : Tables) (n : nat) (es : list Entity)
  : list DatabaseEntity :=
  match es with
  | [] => []
  | e :: rest =>
      match known_as t e with
      | Some row => row :: resolve_from t n rest
      | None => row_of n e :: resolve_from t (S n) rest
      end
  end.

(** The new rows among them. *)
Fixpoint new_rows (t : Tables) (n : nat) (es : list Entity) : list DatabaseEntity :=
  match es with
  | [] => []
  | e :: rest =>
      match known_as t e with
      | Some _ => new_rows t n rest
      | None => row_of n e :: new_rows t (S n) rest
      end
  end.

(** The inserts that the lookups queue, with the positions of their
    entities in the payload (counted from [off]). *)
Fixpoint queued (t : Tables) (off : nat) (es : list Entity) : list (nat * Entity) :=
  match es with
  | [] => []
  | e :: rest =>
      match known_as t e with
      | Some _ => queued t (S off) rest
      | None => (off, e) :: queued t (S off) rest
      end
  end.

Module Demo2.

Definition doc (id : nat) (title fileName : string) (links : list nat) : DocumentRow :=
  {| dr_id := id; dr_title := title; dr_fileName := fileName; dr_content := "...";
     dr_imageUrl := None; dr_documentType := "letter"; dr_createdAt := 0;
     dr_updatedAt := 0; dr_entityIds := links |}.

Definition ent (id : nat) (name type : string) : DatabaseEntity :=
  {| de_id := id; de_name := name; de_date := None; de_type := type |}.

(** Two entities, one of them linked to the one document. *)
Definition tables : Tables :=
  {| entityRows := [ent 0 "John Smith" "person"; ent 1 "Caen" "location"];
     documentRows := [doc 2 "Letter from the Front" "l1.pdf" [0]];
     nextId := 3 |}.

Definition database : Database :=
  {| committed := tables; inTx := None; queries := 0 |}.

Definition service : Service :=
  {| db := database; cache := ∅; calls := [];
     processingJobs := ∅; objects := ∅; nextObject := 0 |}.

End Demo2.

(** A computation that leaves a part of the service as it is, whether it
    returns or throws. *)
Definition untouched {A B} (part : Service -> B) (c : M Service A) : Prop :=
  forall s r s', c s = (r, s') -> part s' = part s.

(** The job as the first segment of the callback leaves it. *)
Definition started_job (now : Z) (job : ProcessingJob) : ProcessingJob :=
  with_updatedAt now (with_progress 50 (with_updatedAt now
    (with_progress 10 (with_status processing job)))).

(** The job as the callback leaves it after the analysis, before a save. *)
Definition analysed_job (now : Z) (job : ProcessingJob) : ProcessingJob :=
  with_updatedAt now (with_progress 80 job).

(** The job as the end of the [try] block leaves it. *)
Definition completed_job (now : Z) (r : AnalysisResult) (job : ProcessingJob)
  : ProcessingJob :=
  with_updatedAt now (with_result r (with_progress 100 (with_status completed job))).

(** The job that [startAsyncProcessing] creates. *)
Definition pending_job (now : Z) (jobId : string) : ProcessingJob :=
  {| job_id := jobId; status := pending; progress := 0; job_result := None;
     job_error := None; createdAt := now; updatedAt := now |}.

(** What one resumption of a task that has not ended does to its job and
    where it leaves the task, read off the outcome of the awaited call. *)
Definition resumption (rt : Runtime) (now : Z) (task : Task) (s : Service)
    (job : ProcessingJob) : TaskPoint * ProcessingJob :=
  match task_at task with
  | AtStart => (AwaitAnalyze, started_job now job)
  | AwaitAnalyze =>
      match DocumentProcessingService.analyzeDocument rt now (task_fileId task)
              (task_options task) s with
      | (Ok r, _) =>
          if autoSave (task_options task)
          then (AwaitSave r, analysed_job now job)
          else (Finished, completed_job now r (analysed_job now job))
      | (Err e, _) => (Finished, failed_job now e job)
      end
  | AwaitSave r =>
      match DocumentProcessingService.saveDocument rt now (documentData_of r) s with
      | (Ok doc, _) => (Finished, completed_job now (with_savedDocument doc r) job)
      | (Err e, _) => (Finished, failed_job now e job)
      end
  | Finished => (Finished, job)
  end.


(** What [validateEntity] asks of an entity: a name that is not blank and
    has at most 255 characters, a type of the enum, for a date a name that
    parses to a year between 1800 and ten years from now, for a person or a
    location a name of at least two characters. *)
Definition entity_ok (rt : Runtime) (e : Entity) : Prop :=
  Spec.blank (e_name e) = false
  /\ (Str.len (e_name e) <= 255)%Z
  /\ In (e_type e) EntityType.values
  /\ (e_type e = "date" ->
      exists d, Date_parse rt (e_name e) = Some d
                /\ (1800 <= getFullYear rt d <= currentYear rt + 10)%Z)
  /\ (e_type e = "person" \/ e_type e = "location" -> (2 <= Str.len (e_name e))%Z).

(** The image URL of a payload, when there is one, parses as a URL. *)
Definition url_ok (rt : Runtime) (d : CreateDocumentRequest) : Prop :=
  match imageUrl d with
  | Some url => Str.truthy url = true -> URL_parses rt url = true
  | None => True
  end.

(** A page or limit parameter that is absent or parses to a number from 1
    to [bound]. *)
Definition number_ok (x : option string) (bound : Z) : Prop :=
  match x with
  | None => True
  | Some s => exists n, Js.parseInt s = Some n /\ (1 <= n <= bound)%Z
  end.


(** * Properties *)

(** ** Strings *)

Lemma trimEnd_empty s : Str.trimEnd s = "" <-> Spec.blank s = true.
Proof.
  induction s as [|c s IH]; simpl; [tauto|].
  destruct (Str.trimEnd s) eqn:E.
  - destruct (Str.is_ws c); simpl.
    + tauto.
    + split; [discriminate | discriminate].
  - split; [discriminate|].
    intros H. apply andb_true_iff in H as [_ H].
    apply IH in H. discriminate.
Qed.

Lemma blank_trimStart s : Spec.blank (Str.trimStart s) = Spec.blank s.
Proof.
  induction s as [|c s IH]; simpl; [reflexivity|].
  destruct (Str.is_ws c) eqn:E; simpl; [exact IH | now rewrite E].
Qed.

(** [!s.trim()] holds exactly for the blank strings. *)
Lemma falsy_trim s : Str.truthy (Str.trim s) = negb (Spec.blank s).
Proof.
  unfold Str.trim.
  destruct (Spec.blank s) eqn:B.
  - rewrite <- blank_trimStart in B. apply trimEnd_empty in B. now rewrite B.
  - destruct (Str.trimEnd (Str.trimStart s)) eqn:E; [|reflexivity].
    apply trimEnd_empty in E. rewrite blank_trimStart in E. congruence.
Qed.

Lemma truthy_eqb s : Str.truthy s = negb (String.eqb s "").
Proof. destruct s; reflexivity. Qed.

Lemma finish_valid errs :
  isValid (ValidationService.finish errs) = true <-> errs = [].
Proof. destruct errs; simpl; split; congruence. Qed.

Lemma finish_invalid errs m :
  In m errs -> isValid (ValidationService.finish errs) = false.
Proof. destruct errs; simpl; [tauto | reflexivity]. Qed.

(** ** Validation *)

Section Validation.
Context (rt : Runtime).
Import ValidationService.

(** The check made on each of title, file name and content. *)
Lemma text_field_reported (s : string) (bound : Z) (a b : string) :
  negb (Spec.blank s) && (Str.len s <=? bound)%Z = false ->
  exists m, In m [a; b]
    /\ In m (if negb (Str.truthy (Str.trim s)) then [a]
             else if (bound <? Str.len s)%Z then [b] else []).
Proof.
  intros H. rewrite falsy_trim, negb_involutive.
  destruct (Spec.blank s); simpl in *.
  - exists a. tauto.
  - apply Z.leb_gt in H. apply Z.ltb_lt in H. rewrite H.
    exists b. simpl. tauto.
Qed.

Lemma entity_count_reported (es : list Entity) :
  Nat.leb 1 (length es) && Nat.leb (length es) 50 = false ->
  isValid (validateEntities rt es) = false
  /\ exists m, In m (Spec.rule_messages Spec.EntityCountRule)
               /\ In m (errors (validateEntities rt es)).
Proof.
  intros H. unfold validateEntities.
  destruct (Nat.eqb (length es) 0) eqn:E0.
  - split; [reflexivity|]. eexists. split; [left; reflexivity | left; reflexivity].
  - assert (Nat.ltb 50 (length es) = true) as Hlt.
    { apply Nat.eqb_neq in E0. apply andb_false_iff in H as [H|H].
      - apply Nat.leb_gt in H. lia.
      - apply Nat.leb_gt in H. now apply Nat.ltb_lt. }
    rewrite Hlt. split.
    + eapply finish_invalid. left. reflexivity.
    + eexists. split; [right; left; reflexivity | left; reflexivity].
Qed.

Lemma reported_app_l r xs ys : Spec.reported r xs -> Spec.reported r (xs ++ ys).
Proof. intros [m [? ?]]. exists m. rewrite in_app_iff. tauto. Qed.

Lemma reported_app_r r xs ys : Spec.reported r ys -> Spec.reported r (xs ++ ys).
Proof. intros [m [? ?]]. exists m. rewrite in_app_iff. tauto. Qed.

Lemma violation_reported (d : CreateDocumentRequest) (r : Spec.Rule) :
  Spec.holds d r = false ->
  Spec.reported r (errors (validateDocumentForSave rt d)).
Proof.
  intros H. unfold validateDocumentForSave. cbn [errors finish].
  destruct r; cbn [Spec.holds] in H.
  - apply reported_app_l.
    apply (text_field_reported _ 255 _ _ H).
  - apply reported_app_r, reported_app_l.
    apply (text_field_reported _ 255 _ _ H).
  - do 2 apply reported_app_r. apply reported_app_l.
    apply (text_field_reported _ 10000 _ _ H).
  - do 3 apply reported_app_r. apply reported_app_l.
    unfold Str.includes. rewrite H. cbn [negb].
    destruct (Str.truthy (documentType d)); cbn [negb].
    + eexists. split; [right; left; reflexivity | left; reflexivity].
    + eexists. split; [left; reflexivity | left; reflexivity].
  - do 5 apply reported_app_r. apply reported_app_l.
    destruct (entity_count_reported _ H) as [Hv Hm]. rewrite Hv. exact Hm.
  - do 6 apply reported_app_r.
    apply orb_false_iff in H as [H1 H2].
    apply negb_false_iff in H1.
    unfold DocumentType.photo. rewrite H1.
    assert (Str.truthy_opt (imageUrl d) = false) as ->.
    { destruct (imageUrl d) as [url|]; [|reflexivity].
      simpl. rewrite truthy_eqb. now rewrite H2. }
    eexists. split; left; reflexivity.
Qed.

End Validation.

(** ** Transactions *)

Section Transactions.
Context (rt : Runtime).
Import DocumentProcessingService.

Lemma keeps_ret {A} (a : A) : keeps_committed (ret a).
Proof. intros d r d' H. inversion H. reflexivity. Qed.

Lemma keeps_throw {A} (e : Exn) : keeps_committed (@throw Database A e).
Proof. intros d r d' H. inversion H. reflexivity. Qed.

Lemma keeps_bind {A B} (c : Db A) (k : A -> Db B) :
  keeps_committed c -> (forall a, keeps_committed (k a)) ->
  keeps_committed (bind c k).
Proof.
  intros Hc Hk d r d' H. unfold bind in H.
  destruct (c d) as [[a|e] d1] eqn:E.
  - apply Hk in H. apply Hc in E. congruence.
  - inversion H; subst. now apply Hc in E.
Qed.

Lemma keeps_try_catch {A} (c : Db A) (h : Exn -> Db A) :
  keeps_committed c -> (forall e, keeps_committed (h e)) ->
  keeps_committed (try_catch c h).
Proof.
  intros Hc Hh d r d' H. unfold try_catch in H.
  destruct (c d) as [[a|e] d1] eqn:E.
  - inversion H; subst. now apply Hc in E.
  - apply Hh in H. apply Hc in E. congruence.
Qed.

(** A query sent through [tx] touches the working copy only. *)
Lemma keeps_query_tx {A} (q : Tables -> result A * Tables) :
  keeps_committed (Prisma.query rt txClient q).
Proof.
  intros d r d' H. unfold Prisma.query in H.
  destruct (db_fault rt (queries d)); [inversion H; reflexivity|].
  destruct (inTx d) as [t|]; [|inversion H; reflexivity].
  destruct (q t) as [[a|e] t']; inversion H; reflexivity.
Qed.

Lemma keeps_findByNameAndType name type :
  keeps_committed (EntityRepository.findByNameAndType rt name type (Some txClient)).
Proof.
  apply keeps_try_catch; [apply keeps_query_tx | intros; apply keeps_throw].
Qed.

Lemma keeps_create data :
  keeps_committed (BaseRepository.create rt data (Some txClient)).
Proof.
  apply keeps_try_catch; [apply keeps_query_tx | intros; apply keeps_throw].
Qed.

Lemma keeps_createWithEntities now d ids :
  keeps_committed (DocumentRepository.createWithEntities rt now d ids (Some txClient)).
Proof.
  apply keeps_try_catch; [apply keeps_query_tx | intros; apply keeps_throw].
Qed.

Lemma keeps_run_lookups lookups : forall inserts slots,
  keeps_committed (run_lookups rt txClient lookups inserts slots).
Proof.
  induction lookups as [|[i e] rest IH]; intros inserts slots; simpl.
  - apply keeps_ret.
  - apply keeps_bind; [apply keeps_findByNameAndType|].
    intros [row|]; apply IH.
Qed.

Lemma keeps_run_inserts inserts : forall slots,
  keeps_committed (run_inserts rt txClient inserts slots).
Proof.
  induction inserts as [|[i e] rest IH]; intros slots; simpl.
  - apply keeps_ret.
  - apply keeps_bind; [apply keeps_create | intros row; apply IH].
Qed.

Lemma keeps_processEntities es :
  keeps_committed (processEntities rt txClient es).
Proof.
  unfold processEntities.
  apply keeps_bind; [apply keeps_run_lookups|]. intros p.
  apply keeps_bind; [apply keeps_run_inserts|]. intros slots.
  apply keeps_ret.
Qed.

(** A transaction whose callback writes through [tx] only and fails:
    nothing of it is committed. *)
Lemma transaction_rollback {A} (cb : Client -> Db A) d e d' :
  keeps_committed (cb txClient) ->
  Prisma.transaction rt cb d = (Err e, d') ->
  committed d' = committed d.
Proof.
  intros Hcb H. unfold Prisma.transaction, Prisma.query in H.
  destruct (db_fault rt (queries d)); [inversion H; reflexivity|].
  cbn [committed inTx queries] in H.
  match type of H with
  | context [cb txClient ?d1] => destruct (cb txClient d1) as [[a|e1] d2] eqn:E
  end.
  - apply Hcb in E. cbn [committed] in E.
    destruct (db_fault rt (queries d2)).
    + inversion H; subst. exact E.
    + destruct (inTx d2); inversion H; subst. exact E.
  - apply Hcb in E. cbn [committed] in E. inversion H; subst. exact E.
Qed.

Lemma saveDocument_db_rollback now documentData d e d' :
  saveDocument_db rt now documentData d = (Err e, d') ->
  committed d' = committed d.
Proof.
  unfold saveDocument_db, try_catch. intros H.
  destruct (isValid (ValidationService.validateDocumentForSave rt documentData)).
  - cbn [negb] in H.
    match type of H with
    | context [Prisma.transaction rt ?cb d] =>
        destruct (Prisma.transaction rt cb d) as [[a|e1] d1] eqn:E
    end; [discriminate|].
    unfold throw in H. inversion H; subst.
    eapply transaction_rollback; [|exact E].
    apply keeps_bind; [apply keeps_processEntities|].
    intros processed. apply keeps_createWithEntities.
  - cbn [negb throw] in H. inversion H. reflexivity.
Qed.

(** An invalid payload is refused before the database is touched. *)
Lemma saveDocument_invalid now documentData (s : Service) :
  isValid (ValidationService.validateDocumentForSave rt documentData) = false ->
  saveDocument rt now documentData s =
    (Err (AppError ("Failed to save document: Validation failed: "
                      +:+ Str.join ", "
                            (errors (ValidationService.validateDocumentForSave
                                       rt documentData)))), s).
Proof.
  intros H. unfold saveDocument, liftDb, saveDocument_db, try_catch.
  rewrite H. cbn. destruct s; reflexivity.
Qed.

End Transactions.

(** ** Failures reach the caller *)

Section Faults.
Context (rt : Runtime).
Import DocumentProcessingService.

Lemma no_fault_refl d : no_fault_between rt d d.
Proof. split; [lia | intros k Hk; lia]. Qed.

Lemma no_fault_trans d1 d2 d3 :
  no_fault_between rt d1 d2 -> no_fault_between rt d2 d3 ->
  no_fault_between rt d1 d3.
Proof.
  intros [L1 F1] [L2 F2]. split; [lia|].
  intros k Hk. destruct (Nat.lt_ge_cases k (queries d2)).
  - apply F1. lia.
  - apply F2. lia.
Qed.

Lemma fault_free_ret {A} (a : A) : fault_free rt (ret a).
Proof. intros d x d' H. inversion H; subst. apply no_fault_refl. Qed.

Lemma fault_free_bind {A B} (c : Db A) (k : A -> Db B) :
  fault_free rt c -> (forall a, fault_free rt (k a)) -> fault_free rt (bind c k).
Proof.
  intros Hc Hk d b d' H. unfold bind in H.
  destruct (c d) as [[a|e] d1] eqn:E; [|discriminate].
  eapply no_fault_trans; [eapply Hc; exact E | eapply Hk; exact H].
Qed.

(** A [catch] that throws again does not turn a failure into a result. *)
Lemma fault_free_rethrow {A} (c : Db A) (h : Exn -> Exn) :
  fault_free rt c -> fault_free rt (try_catch c (fun e => throw (h e))).
Proof.
  intros Hc d a d' H. unfold try_catch in H.
  destruct (c d) as [[x|e] d1] eqn:E; [|discriminate].
  inversion H; subst. eapply Hc; exact E.
Qed.

Lemma fault_free_query {A} client (q : Tables -> result A * Tables) :
  fault_free rt (Prisma.query rt client q).
Proof.
  intros d a d' H. unfold Prisma.query in H.
  destruct (db_fault rt (queries d)) eqn:F; [discriminate|].
  assert (queries d' = S (queries d)) as Hq.
  { destruct client.
    - destruct (q (committed d)) as [[x|e] t']; inversion H; reflexivity.
    - destruct (inTx d) as [t|]; [|discriminate].
      destruct (q t) as [[x|e] t']; inversion H; reflexivity. }
  split; [lia|]. intros k Hk.
  assert (k = queries d) as -> by lia. exact F.
Qed.

Lemma fault_free_run_lookups tx lookups : forall inserts slots,
  fault_free rt (run_lookups rt tx lookups inserts slots).
Proof.
  induction lookups as [|[i e] rest IH]; intros inserts slots; simpl.
  - apply fault_free_ret.
  - apply fault_free_bind.
    + apply (fault_free_rethrow _ (fun _ => AppError "Failed to find entity")).
      apply fault_free_query.
    + intros [row|]; apply IH.
Qed.

Lemma fault_free_run_inserts tx inserts : forall slots,
  fault_free rt (run_inserts rt tx inserts slots).
Proof.
  induction inserts as [|[i e] rest IH]; intros slots; simpl.
  - apply fault_free_ret.
  - apply fault_free_bind.
    + apply (fault_free_rethrow _ (fun _ => AppError "Failed to create entity")).
      apply fault_free_query.
    + intros row. apply IH.
Qed.

Lemma fault_free_transaction {A} (cb : Client -> Db A) :
  fault_free rt (cb txClient) -> fault_free rt (Prisma.transaction rt cb).
Proof.
  intros Hcb d a d' H. unfold Prisma.transaction, Prisma.query in H.
  destruct (db_fault rt (queries d)) eqn:F0; [discriminate|].
  cbn [committed inTx queries] in H.
  match type of H with
  | context [cb txClient ?d1] =>
      destruct (cb txClient d1) as [[x|e1] d2] eqn:E
  end; [|discriminate].
  apply Hcb in E. destruct E as [L Fm]. cbn [queries] in L, Fm.
  destruct (db_fault rt (queries d2)) eqn:F2; [discriminate|].
  destruct (inTx d2); [|discriminate].
  inversion H; subst. unfold no_fault_between. cbn [queries]. split; [lia|].
  intros k Hk.
  destruct (Nat.eq_dec k (queries d)) as [->|]; [exact F0|].
  destruct (Nat.eq_dec k (queries d2)) as [->|]; [exact F2|].
  apply Fm. lia.
Qed.

Lemma fault_free_saveDocument_db now documentData :
  fault_free rt (saveDocument_db rt now documentData).
Proof.
  unfold saveDocument_db.
  apply (fault_free_rethrow _
           (fun error => AppError ("Failed to save document: "
                                     +:+ error_message error))).
  destruct (negb _).
  - intros d a d' H. discriminate.
  - apply fault_free_transaction.
    apply fault_free_bind.
    + unfold processEntities. apply fault_free_bind.
      * apply fault_free_run_lookups.
      * intros p. apply fault_free_bind;
          [apply fault_free_run_inserts | intros; apply fault_free_ret].
    + intros processed.
      apply (fault_free_rethrow _ (fun _ => AppError "Failed to create document")).
      apply fault_free_query.
Qed.

End Faults.

(** ** The claims about saving *)

(** C7. A save that fails leaves the committed tables exactly as they
    were: no document row and no entity row of that save is visible. And a
    save returns normally only when none of the queries it sent (BEGIN,
    the lookups, the inserts, COMMIT) failed, so every failure inside the
    transaction is such a failed save. *)
Theorem C7_failed_save_rolls_back (rt : Runtime) (now : Z)
    (documentData : CreateDocumentRequest) (s : Service) :
  match DocumentProcessingService.saveDocument rt now documentData s with
  | (Err _, s') => committed (db s') = committed (db s)
  | (Ok _, s') => no_fault_between rt (db s) (db s')
  end.
Proof.
  unfold DocumentProcessingService.saveDocument, liftDb.
  destruct (DocumentProcessingService.saveDocument_db rt now documentData (db s))
    as [[doc|e] d'] eqn:E; cbn [db set_db].
  - eapply fault_free_saveDocument_db. exact E.
  - eapply saveDocument_db_rollback. exact E.
Qed.

(** A save whose document insert fails (the fourth query: BEGIN, one
    lookup and one entity insert went through): the entity row inserted
    before the failure is not in the committed tables. *)
Example failed_document_insert_rolls_entity_back :
  let out := DocumentProcessingService.saveDocument (Demo.runtime [3]) 1000
               (Demo.letterWith [Demo.person "John Smith"]) Demo.emptyService in
  fst out = Err (JsError "Failed to save document: Failed to create document" 500)
  /\ committed (db (snd out)) = Demo.emptyTables
  /\ inTx (db (snd out)) = None
  /\ queries (db (snd out)) = 4.
Proof. vm_compute. repeat split; reflexivity. Qed.

(** C1 (evaluation at the example of section 8). Saving the payload with
    the entities "John Smith" and "john smith", both persons, into an empty
    store succeeds and leaves two entity rows, although the payload has one
    distinct (lower-cased name, type) pair: both lookups are answered
    before either insert is sent. *)
Theorem C1_shared_key_inserted_twice :
  let out := DocumentProcessingService.saveDocument (Demo.runtime []) 1000
               Demo.letterFromTheFront Demo.emptyService in
  is_ok (fst out) = true
  /\ Spec.distinct_keys (entities Demo.letterFromTheFront) = 1
  /\ length (entityRows (committed (db (snd out)))) = 2
  /\ map de_name (entityRows (committed (db (snd out))))
     = ["John Smith"; "john smith"].
Proof. vm_compute. repeat split; reflexivity. Qed.

(** The sibling path: [findOrCreate] called for the same two entities one
    after the other, inside one transaction, inserts one row and gives it
    back for both. *)
Example findOrCreate_in_sequence_inserts_once :
  let open := {| committed := Demo.emptyTables; inTx := Some Demo.emptyTables;
                 queries := 0 |} in
  let row := {| de_id := 0; de_name := "John Smith"; de_date := None;
                de_type := "person" |} in
  let out :=
    (let* a := EntityRepository.findOrCreate (Demo.runtime [])
                 (Demo.person "John Smith") (Some txClient) in
     let* b := EntityRepository.findOrCreate (Demo.runtime [])
                 (Demo.person "john smith") (Some txClient) in
     ret (a, b))%js open in
  fst out = Ok (row, row)
  /\ option_map entityRows (inTx (snd out)) = Some [row].
Proof. vm_compute. split; reflexivity. Qed.

(** C8. Every payload invariant that the payload violates is reported in
    the one list of errors that [validateDocumentForSave] returns, the
    result is invalid, and [saveDocument] throws with all of these messages
    joined; a photo without an image URL is reported by the message of the
    photo rule. *)
Theorem C8_all_violations_listed (rt : Runtime) (now : Z)
    (d : CreateDocumentRequest) (s : Service) (r : Spec.Rule) :
  Spec.holds d r = false ->
  let v := ValidationService.validateDocumentForSave rt d in
  isValid v = false
  /\ (forall r', Spec.holds d r' = false -> Spec.reported r' (errors v))
  /\ (documentType d = "photo" -> imageUrl d = None ->
      In "Photo documents must have an image URL" (errors v))
  /\ DocumentProcessingService.saveDocument rt now d s
     = (Err (AppError ("Failed to save document: Validation failed: "
                         +:+ Str.join ", " (errors v))), s).
Proof.
  intros H v.
  assert (isValid v = false) as Hv.
  { destruct (violation_reported rt d r H) as [m [_ Hm]].
    subst v. unfold ValidationService.validateDocumentForSave in *.
    cbn [errors ValidationService.finish] in Hm.
    eapply finish_invalid. exact Hm. }
  split; [exact Hv|]. split; [intros r'; apply violation_reported|].
  split.
  - intros Hp Hi.
    destruct (violation_reported rt d Spec.PhotoImageRule) as [m [[<-|[]] Hm]].
    + cbn. rewrite Hp, Hi. reflexivity.
    + exact Hm.
  - apply saveDocument_invalid. exact Hv.
Qed.

(** C8 at a payload that breaks four rules at once. *)
Lemma C8_witness :
  Spec.holds Demo.badPayload Spec.TitleRule = false
  /\ errors (ValidationService.validateDocumentForSave (Demo.runtime []) Demo.badPayload)
     = ["Title is required and cannot be empty";
        "File name is required and cannot be empty";
        "At least one entity is required";
        "Photo documents must have an image URL"]
  /\ isValid (ValidationService.validateDocumentForSave (Demo.runtime []) Demo.badPayload)
     = false.
Proof.
  split; [reflexivity|]. split; [reflexivity|].
  exact (proj1 (C8_all_violations_listed (Demo.runtime []) 0 Demo.badPayload
                  Demo.emptyService Spec.TitleRule eq_refl)).
Defined.

(** ** The job table *)

Section Jobs.
Import DocumentProcessingService.

Lemma table_get_Some jobId s address job :
  table_get jobId s = Some (address, job) <->
  processingJobs s !! jobId = Some address /\ objects s !! address = Some job.
Proof.
  unfold table_get. split.
  - destruct (processingJobs s !! jobId) as [a|]; [|discriminate].
    destruct (objects s !! a) as [j|] eqn:E; [|discriminate].
    intros H. inversion H; subst. tauto.
  - intros [-> ->]. reflexivity.
Qed.

(** Assigning to a field of an object that exists. *)
Lemma alter_existing (f : ProcessingJob -> ProcessingJob)
    (h : gmap nat ProcessingJob) address job :
  h !! address = Some job -> alter f address h = <[address := f job]> h.
Proof.
  intros H. apply map_eq. intros j.
  destruct (decide (address = j)) as [->|Hne].
  - rewrite lookup_alter_eq, lookup_insert_eq, H. reflexivity.
  - rewrite lookup_alter_ne, lookup_insert_ne by done. reflexivity.
Qed.

(** What a cancellation that goes through does to the service. *)
Lemma cancelProcessing_run now jobId s address job :
  table_get jobId s = Some (address, job) ->
  status job <> completed -> status job <> failed ->
  cancelProcessing now jobId s
  = (Ok tt,
     set_objects
       (<[address := with_updatedAt now (with_status cancelled job)]> (objects s)) s).
Proof.
  intros H Hc Hf. unfold cancelProcessing. rewrite H.
  apply table_get_Some in H as [Ht Ho].
  assert ((update_job address (with_status cancelled) ;;
           update_job address (with_updatedAt now) ;;
           table_set jobId address)%js s
          = (Ok tt,
             set_objects
               (<[address := with_updatedAt now (with_status cancelled job)]>
                  (objects s)) s)) as Hrun.
  { unfold update_job, table_set, bind, modify. cbn.
    rewrite (insert_id _ _ _ Ht).
    rewrite (alter_existing _ _ _ _ Ho).
    rewrite alter_insert_eq.
    destruct s; reflexivity. }
  destruct (status job); try exact Hrun; congruence.
Qed.

Lemma cancelProcessing_refused now jobId s address job :
  table_get jobId s = Some (address, job) ->
  status job = completed \/ status job = failed ->
  cancelProcessing now jobId s
  = (Err (AppErrorWith "Cannot cancel completed or failed job" 400), s).
Proof.
  intros H [E|E]; unfold cancelProcessing; rewrite H, E; reflexivity.
Qed.

Lemma job_of_set_objects jobId s address job h :
  processingJobs s !! jobId = Some address ->
  h !! address = Some job ->
  Spec.job_of jobId (set_objects h s) = Some job.
Proof.
  intros Ht Hh. unfold Spec.job_of, table_get. cbn.
  rewrite Ht, Hh. reflexivity.
Qed.

End Jobs.

(** C5 (as the code has it). For a job in the table, [cancelProcessing]
    goes through and leaves the job [cancelled], with [updatedAt] set to
    the time of the call, when the job is [pending], [processing] or
    already [cancelled]; when the job is [completed] or [failed] it throws
    the 400 error "Cannot cancel completed or failed job" and changes
    nothing. *)
Theorem C5_cancel_by_status (now : Z) (jobId : string) (s : Service)
    (address : nat) (job : ProcessingJob) :
  DocumentProcessingService.table_get jobId s = Some (address, job) ->
  match status job with
  | completed | failed =>
      DocumentProcessingService.cancelProcessing now jobId s
      = (Err (AppErrorWith "Cannot cancel completed or failed job" 400), s)
  | pending | processing | cancelled =>
      exists s',
        DocumentProcessingService.cancelProcessing now jobId s = (Ok tt, s')
        /\ Spec.job_of jobId s'
           = Some (with_updatedAt now (with_status cancelled job))
  end.
Proof.
  intros H.
  pose proof (proj1 (table_get_Some _ _ _ _) H) as [Ht Ho].
  assert (status job <> completed -> status job <> failed ->
          exists s',
            DocumentProcessingService.cancelProcessing now jobId s = (Ok tt, s')
            /\ Spec.job_of jobId s'
               = Some (with_updatedAt now (with_status cancelled job))) as Hgo.
  { intros Hc Hf. eexists. split.
    - apply (cancelProcessing_run now jobId s address job H Hc Hf).
    - apply (job_of_set_objects jobId s address); [exact Ht|].
      apply lookup_insert_eq. }
  destruct (status job) eqn:E.
  - apply Hgo; discriminate.
  - apply Hgo; discriminate.
  - apply (cancelProcessing_refused now jobId s address job H). left. exact E.
  - apply (cancelProcessing_refused now jobId s address job H). right. exact E.
  - apply Hgo; discriminate.
Qed.

(** C5 at a pending job. *)
Lemma C5_witness :
  DocumentProcessingService.table_get "job_1" (Demo.submitted Demo.noOptions)
  = Some (0, Demo.job1 pending 0 0)
  /\ exists s',
       DocumentProcessingService.cancelProcessing 5 "job_1"
         (Demo.submitted Demo.noOptions) = (Ok tt, s')
       /\ Spec.job_of "job_1" s' = Some (Demo.job1 cancelled 0 5).
Proof.
  split; [reflexivity|].
  exact (C5_cancel_by_status 5 "job_1" (Demo.submitted Demo.noOptions) 0
           (Demo.job1 pending 0 0) eq_refl).
Defined.

(** C5 fails as stated for a job that is already cancelled: a second
    cancellation does not throw, and it changes [updatedAt]. *)
Lemma C5_cancelled_job_cancelled_again :
  let s1 := snd (DocumentProcessingService.cancelProcessing 5 "job_1"
                   (Demo.submitted Demo.noOptions)) in
  let out := DocumentProcessingService.cancelProcessing 9 "job_1" s1 in
  Spec.job_of "job_1" s1 = Some (Demo.job1 cancelled 0 5)
  /\ fst out = Ok tt
  /\ Spec.job_of "job_1" (snd out) = Some (Demo.job1 cancelled 0 9)
  /\ snd out <> s1.
Proof.
  cbv zeta. split; [reflexivity|]. split; [reflexivity|].
  split; [reflexivity|].
  intros H. apply (f_equal (Spec.job_of "job_1")) in H.
  vm_compute in H. discriminate.
Qed.

(** C10. A cancellation of a pending or processing job that goes through
    rewrites, in the job's object, the status (to [cancelled]) and
    [updatedAt] (to the time of the call) and nothing else; every other
    object, the table itself, the database, the cache and the record of
    calls are as before. *)
Theorem C10_cancel_frame (now : Z) (jobId : string) (s : Service)
    (address : nat) (job : ProcessingJob) :
  DocumentProcessingService.table_get jobId s = Some (address, job) ->
  status job = pending \/ status job = processing ->
  exists s' job',
    DocumentProcessingService.cancelProcessing now jobId s = (Ok tt, s')
    /\ objects s' !! address = Some job'
    /\ status job' = cancelled /\ updatedAt job' = now
    /\ job_id job' = job_id job /\ progress job' = progress job
    /\ job_result job' = job_result job /\ job_error job' = job_error job
    /\ createdAt job' = createdAt job
    /\ (forall other, other <> address -> objects s' !! other = objects s !! other)
    /\ processingJobs s' = processingJobs s
    /\ (forall jobId' address',
          processingJobs s !! jobId' = Some address' -> address' <> address ->
          DocumentProcessingService.table_get jobId' s'
          = DocumentProcessingService.table_get jobId' s)
    /\ db s' = db s /\ cache s' = cache s /\ calls s' = calls s.
Proof.
  intros H Hst.
  exists (set_objects
            (<[address := with_updatedAt now (with_status cancelled job)]>
               (objects s)) s),
         (with_updatedAt now (with_status cancelled job)).
  split.
  { apply (cancelProcessing_run now jobId s address job H);
      destruct Hst as [E|E]; rewrite E; discriminate. }
  split; [apply lookup_insert_eq|].
  repeat (split; [reflexivity|]).
  split.
  { intros other Hne. cbn. apply lookup_insert_ne. congruence. }
  split; [reflexivity|].
  split; [|repeat split; reflexivity].
  intros jobId' address' Ht Hne.
  unfold DocumentProcessingService.table_get. cbn. rewrite Ht.
  rewrite lookup_insert_ne by congruence. reflexivity.
Qed.

(** C10 at a pending job. *)
Lemma C10_witness :
  DocumentProcessingService.table_get "job_1" (Demo.submitted Demo.noOptions)
  = Some (0, Demo.job1 pending 0 0)
  /\ exists s' job',
       DocumentProcessingService.cancelProcessing 5 "job_1"
         (Demo.submitted Demo.noOptions) = (Ok tt, s')
       /\ objects s' !! 0 = Some job'
       /\ status job' = cancelled /\ updatedAt job' = 5%Z.
Proof.
  split; [reflexivity|].
  destruct (C10_cancel_frame 5 "job_1" (Demo.submitted Demo.noOptions) 0
              (Demo.job1 pending 0 0) eq_refl (or_introl eq_refl))
    as [s' [job' [H1 [H2 [H3 [H4 _]]]]]].
  exists s', job'. repeat split; assumption.
Defined.

(** ** What the analysis and the save leave alone *)

Section Frames.
Context (rt : Runtime).
Import DocumentProcessingService.

Lemma keeps_jobs_ret {A} (a : A) : keeps_jobs (ret a).
Proof. intros s r s' H. inversion H. tauto. Qed.

Lemma keeps_jobs_throw {A} (e : Exn) : keeps_jobs (@throw Service A e).
Proof. intros s r s' H. inversion H. tauto. Qed.

Lemma keeps_jobs_bind {A B} (c : M Service A) (k : A -> M Service B) :
  keeps_jobs c -> (forall a, keeps_jobs (k a)) -> keeps_jobs (bind c k).
Proof.
  intros Hc Hk s r s' H. unfold bind in H.
  destruct (c s) as [[a|e] s1] eqn:E.
  - apply Hk in H. apply Hc in E. destruct H, E. split; congruence.
  - inversion H; subst. now apply Hc in E.
Qed.

Lemma keeps_jobs_try_catch {A} (c : M Service A) (h : Exn -> M Service A) :
  keeps_jobs c -> (forall e, keeps_jobs (h e)) -> keeps_jobs (try_catch c h).
Proof.
  intros Hc Hh s r s' H. unfold try_catch in H.
  destruct (c s) as [[a|e] s1] eqn:E.
  - inversion H; subst. now apply Hc in E.
  - apply Hh in H. apply Hc in E. destruct H, E. split; congruence.
Qed.

Lemma keeps_jobs_promise_all2 {A B} (a : M Service A) (b : M Service B) :
  keeps_jobs a -> keeps_jobs b -> keeps_jobs (promise_all2 a b).
Proof.
  intros Ha Hb s r s' H. unfold promise_all2 in H.
  destruct (a s) as [ra s1] eqn:Ea. destruct (b s1) as [rb s2] eqn:Eb.
  apply Ha in Ea. apply Hb in Eb. destruct Ea, Eb.
  assert (s' = s2) as ->.
  { destruct ra, rb; inversion H; reflexivity. }
  split; congruence.
Qed.

Lemma keeps_jobs_external {A} (c : Call) (outcome : result A) :
  keeps_jobs (external c outcome).
Proof. intros s r s' H. inversion H. tauto. Qed.

Lemma keeps_jobs_cache_get now key : keeps_jobs (cache_get now key).
Proof. intros s r s' H. inversion H. tauto. Qed.

Lemma keeps_jobs_cache_set now key v ttl : keeps_jobs (cache_set now key v ttl).
Proof. intros s r s' H. inversion H. tauto. Qed.

Lemma keeps_jobs_liftDb {A} (c : Db A) : keeps_jobs (liftDb c).
Proof.
  intros s r s' H. unfold liftDb in H.
  destruct (c (db s)) as [x d]. inversion H. tauto.
Qed.

Lemma keeps_jobs_convertToImage now file : keeps_jobs (convertToImage rt now file).
Proof.
  unfold convertToImage.
  apply keeps_jobs_try_catch; [|intros; apply keeps_jobs_throw].
  apply keeps_jobs_bind; [apply keeps_jobs_cache_get|].
  assert (keeps_jobs
            (let* imageUrl :=
               external (CallDocumentToImage file) (documentToImage rt file) in
             cache_set now ("image_" +:+ file_id file +:+ "_" +:+ file_mimeType file)
               (CachedString imageUrl) 7200 ;;
             ret imageUrl)%js) as Hmiss.
  { apply keeps_jobs_bind; [apply keeps_jobs_external|]. intros imageUrl.
    apply keeps_jobs_bind; [apply keeps_jobs_cache_set|]. intros _.
    apply keeps_jobs_ret. }
  intros [[img|r]|]; [apply keeps_jobs_ret | exact Hmiss | exact Hmiss].
Qed.

Lemma keeps_jobs_analyzeDocument now fileId options :
  keeps_jobs (analyzeDocument rt now fileId options).
Proof.
  unfold analyzeDocument.
  apply keeps_jobs_try_catch; [|intros; apply keeps_jobs_throw].
  apply keeps_jobs_bind; [apply keeps_jobs_cache_get|].
  intros cached.
  destruct cached as [[img|r]|];
    [ | destruct (forceRefresh options); [|apply keeps_jobs_ret] | ];
    (apply keeps_jobs_bind;
       [apply keeps_jobs_promise_all2; apply keeps_jobs_external|];
     intros fm;
     apply keeps_jobs_bind; [apply keeps_jobs_convertToImage|]; intros imageUrl;
     apply keeps_jobs_bind; [apply keeps_jobs_external|]; intros text;
     apply keeps_jobs_bind; [apply keeps_jobs_external|]; intros parsed;
     apply keeps_jobs_bind; [apply keeps_jobs_cache_set|]; intros _;
     apply keeps_jobs_ret).
Qed.

Lemma keeps_jobs_saveDocument now documentData :
  keeps_jobs (saveDocument rt now documentData).
Proof. apply keeps_jobs_liftDb. Qed.

End Frames.

(** ** The background task *)

Section Background.
Context (rt : Runtime).
Import DocumentProcessingService.

Lemma complete_run now task r s :
  exists s',
    complete now task r s = (Ok Finished, s')
    /\ objects s'
       = alter (with_updatedAt now) (task_job task)
           (alter (with_result r) (task_job task)
              (alter (with_progress 100) (task_job task)
                 (alter (with_status completed) (task_job task) (objects s))))
    /\ processingJobs s'
       = <[task_jobId task := task_job task]> (processingJobs s).
Proof. eexists. split; [reflexivity|]. split; reflexivity. Qed.

Lemma catch_block_run now task e s :
  exists s',
    catch_block now task e s = (Ok Finished, s')
    /\ objects s'
       = alter (with_updatedAt now) (task_job task)
           (alter (with_error (error_message e)) (task_job task)
              (alter (with_status failed) (task_job task) (objects s)))
    /\ processingJobs s'
       = <[task_jobId task := task_job task]> (processingJobs s).
Proof. eexists. split; [reflexivity|]. split; reflexivity. Qed.

(** The [try] block throws only out of the two awaited calls, before the
    job is written to. *)
Lemma segment_throws now task s e s1 :
  segment rt now task s = (Err e, s1) ->
  processingJobs s1 = processingJobs s /\ objects s1 = objects s.
Proof.
  unfold segment. destruct (task_at task) as [| |r|].
  - discriminate.
  - unfold bind at 1.
    destruct (analyzeDocument rt now (task_fileId task) (task_options task) s)
      as [[r|e1] s2] eqn:E.
    + destruct (autoSave (task_options task)); discriminate.
    + intros H. inversion H; subst.
      eapply keeps_jobs_analyzeDocument. exact E.
  - unfold bind at 1.
    destruct (saveDocument rt now (documentData_of r) s) as [[doc|e1] s2] eqn:E.
    + discriminate.
    + intros H. inversion H; subst.
      eapply keeps_jobs_saveDocument. exact E.
  - discriminate.
Qed.

(** What the [catch] block leaves when the [try] block has thrown. *)
Lemma resume_after_throw now task s e s1 job :
  segment rt now task s = (Err e, s1) ->
  objects s !! task_job task = Some job ->
  exists s',
    resume rt now task s = (Ok (at_point Finished task), s')
    /\ objects s' !! task_job task = Some (failed_job now e job)
    /\ processingJobs s' !! task_jobId task = Some (task_job task).
Proof.
  intros Hseg Hjob.
  destruct (segment_throws _ _ _ _ _ Hseg) as [_ Hobj].
  destruct (catch_block_run now task e s1) as [s' [Hrun [Ho Ht]]].
  exists s'. split.
  - unfold resume, bind, try_catch. rewrite Hseg, Hrun. reflexivity.
  - split.
    + rewrite Ho, !lookup_alter_eq, Hobj, Hjob. reflexivity.
    + rewrite Ht. apply lookup_insert_eq.
Qed.

(** One resumption. It never throws; it keeps the job object and the
    table entry; it brings the task strictly closer to its end; and when it
    ends the task, the job is [completed] or [failed], whatever its status
    was before. *)
Lemma resume_step now task s job :
  objects s !! task_job task = Some job ->
  (task_at task = Finished -> settled job) ->
  exists p s' job',
    resume rt now task s = (Ok (at_point p task), s')
    /\ objects s' !! task_job task = Some job'
    /\ (p = Finished -> settled job')
    /\ rank p <= pred (rank (task_at task))
    /\ (processingJobs s !! task_jobId task = Some (task_job task) ->
        processingJobs s' !! task_jobId task = Some (task_job task))
    /\ (task_at task = AtStart -> status job' = processing).
Proof.
  intros Hjob Hfin.
  destruct (segment rt now task s) as [[p|e] s1] eqn:Hseg.
  2:{ destruct (resume_after_throw now task s e s1 job Hseg Hjob)
        as [s' [Hr [Ho Ht]]].
      exists Finished, s', (failed_job now e job).
      split; [exact Hr|]. split; [exact Ho|].
      split; [intros _; right; reflexivity|].
      split; [simpl; lia|]. split; [intros _; exact Ht|].
      intros Hat. unfold segment in Hseg. rewrite Hat in Hseg. discriminate. }
  assert (resume rt now task s = (Ok (at_point p task), s1)) as Hr.
  { unfold resume, bind, try_catch. rewrite Hseg. reflexivity. }
  unfold segment in Hseg. destruct (task_at task) as [| |r|] eqn:Hat.
  - (* AtStart *)
    inversion Hseg; subst; clear Hseg.
    eexists AwaitAnalyze, _, _. split; [exact Hr|]. cbn.
    split; [rewrite !lookup_alter_eq, Hjob; reflexivity|].
    split; [discriminate|]. split; [lia|].
    split; [intros _; apply lookup_insert_eq | reflexivity].
  - (* AwaitAnalyze *)
    unfold bind at 1 in Hseg.
    destruct (analyzeDocument rt now (task_fileId task) (task_options task) s)
      as [[r|e1] s2] eqn:E; [|discriminate].
    destruct (keeps_jobs_analyzeDocument rt _ _ _ _ _ _ E) as [Ht2 Ho2].
    destruct (autoSave (task_options task)).
    + inversion Hseg; subst; clear Hseg.
      eexists (AwaitSave r), _, _. split; [exact Hr|]. cbn.
      split; [rewrite !lookup_alter_eq, Ho2, Hjob; reflexivity|].
      split; [discriminate|]. split; [lia|].
      split; [intros _; apply lookup_insert_eq | discriminate].
    + inversion Hseg; subst; clear Hseg.
      eexists Finished, _, _. split; [exact Hr|]. cbn.
      split; [rewrite !lookup_alter_eq, Ho2, Hjob; reflexivity|].
      split; [intros _; left; reflexivity|]. split; [lia|].
      split; [intros _; apply lookup_insert_eq | discriminate].
  - (* AwaitSave *)
    unfold bind at 1 in Hseg.
    destruct (saveDocument rt now (documentData_of r) s) as [[doc|e1] s2] eqn:E;
      [|discriminate].
    destruct (keeps_jobs_saveDocument rt _ _ _ _ _ E) as [Ht2 Ho2].
    inversion Hseg; subst; clear Hseg.
    eexists Finished, _, _. split; [exact Hr|]. cbn.
    split; [rewrite !lookup_alter_eq, Ho2, Hjob; reflexivity|].
    split; [intros _; left; reflexivity|]. split; [lia|].
    split; [intros _; apply lookup_insert_eq | discriminate].
  - (* Finished *)
    inversion Hseg; subst; clear Hseg.
    exists Finished, s1, job. split; [exact Hr|].
    split; [exact Hjob|]. split; [intros _; apply Hfin; reflexivity|].
    split; [simpl; lia|]. split; [tauto | discriminate].
Qed.

End Background.

(** What a [catch] that wraps and throws again lets out. *)
Lemma rethrow_shape {S A} (c : M S A) (h : Exn -> Exn) s e s1 :
  try_catch c (fun error => throw (h error)) s = (Err e, s1) ->
  exists cause, e = h cause.
Proof.
  unfold try_catch, throw. destruct (c s) as [[a|e0] s0]; [discriminate|].
  intros H. inversion H. exists e0. reflexivity.
Qed.

Lemma job_of_lookup jobId s address job :
  processingJobs s !! jobId = Some address ->
  objects s !! address = Some job ->
  Spec.job_of jobId s = Some job.
Proof.
  intros Ht Ho. unfold Spec.job_of, DocumentProcessingService.table_get.
  rewrite Ht, Ho. reflexivity.
Qed.

(** C9. A resumption of the background callback never throws. When the
    [try] block throws (which only the awaited analysis and save can do,
    and what they throw is an [AppError] that carries the message of the
    cause), the task ends, and the job in the table is [failed] with the
    message of the error in its [error] field. *)
Theorem C9_background_failure_is_recorded (rt : Runtime) (now : Z)
    (task : Task) (s : Service) (job : ProcessingJob) :
  objects s !! task_job task = Some job ->
  (exists task' s', DocumentProcessingService.resume rt now task s = (Ok task', s'))
  /\ (forall e s1,
        DocumentProcessingService.segment rt now task s = (Err e, s1) ->
        exists s' job',
          DocumentProcessingService.resume rt now task s
          = (Ok (at_point Finished task), s')
          /\ Spec.job_of (task_jobId task) s' = Some job'
          /\ job' = failed_job now e job
          /\ status job' = failed
          /\ job_error job' = Some (error_message e))
  /\ (forall e s1,
        task_at task = AwaitAnalyze ->
        DocumentProcessingService.analyzeDocument rt now (task_fileId task)
          (task_options task) s = (Err e, s1) ->
        DocumentProcessingService.segment rt now task s = (Err e, s1)
        /\ exists cause,
             e = AppError ("Failed to analyze document: " +:+ error_message cause))
  /\ (forall r e s1,
        task_at task = AwaitSave r ->
        DocumentProcessingService.saveDocument rt now (documentData_of r) s
        = (Err e, s1) ->
        DocumentProcessingService.segment rt now task s = (Err e, s1)
        /\ exists cause,
             e = AppError ("Failed to save document: " +:+ error_message cause)).
Proof.
  intros Hjob. split; [|split; [|split]].
  - destruct (DocumentProcessingService.segment rt now task s) as [[p|e] s1] eqn:E.
    + exists (at_point p task), s1.
      unfold DocumentProcessingService.resume, bind, try_catch. rewrite E.
      reflexivity.
    + destruct (resume_after_throw rt now task s e s1 job E Hjob) as [s' [Hr _]].
      eauto.
  - intros e s1 E.
    destruct (resume_after_throw rt now task s e s1 job E Hjob)
      as [s' [Hr [Ho Ht]]].
    exists s', (failed_job now e job). split; [exact Hr|].
    split; [apply (job_of_lookup _ _ _ _ Ht Ho)|].
    repeat split; reflexivity.
  - intros e s1 Hat E. split.
    + unfold DocumentProcessingService.segment. rewrite Hat.
      unfold bind at 1. rewrite E. reflexivity.
    + unfold DocumentProcessingService.analyzeDocument in E.
      apply (rethrow_shape _
               (fun error => AppError ("Failed to analyze document: "
                                         +:+ error_message error))) in E.
      exact E.
  - intros r e s1 Hat E. split.
    + unfold DocumentProcessingService.segment. rewrite Hat.
      unfold bind at 1. rewrite E. reflexivity.
    + unfold DocumentProcessingService.saveDocument, liftDb in E.
      destruct (DocumentProcessingService.saveDocument_db rt now
                  (documentData_of r) (db s)) as [x d] eqn:Ed.
      inversion E; subst. clear E.
      unfold DocumentProcessingService.saveDocument_db in Ed.
      apply (rethrow_shape _
               (fun error => AppError ("Failed to save document: "
                                         +:+ error_message error))) in Ed.
      exact Ed.
Qed.

(** C9 with an AI client that is down: the job ends [failed] with the
    message of the analysis error. *)
Lemma C9_witness :
  objects (Demo.submitted Demo.noOptions) !! 0 = Some (Demo.job1 pending 0 0)
  /\ exists s' job',
       DocumentProcessingService.resume Demo.runtime_ai_down 20
         (at_point AwaitAnalyze (Demo.scheduled Demo.noOptions))
         (Demo.submitted Demo.noOptions)
       = (Ok (at_point Finished (Demo.scheduled Demo.noOptions)), s')
       /\ Spec.job_of "job_1" s' = Some job'
       /\ status job' = failed
       /\ job_error job'
          = Some "Failed to analyze document: model overloaded".
Proof.
  split; [reflexivity|].
  destruct (C9_background_failure_is_recorded Demo.runtime_ai_down 20
              (at_point AwaitAnalyze (Demo.scheduled Demo.noOptions))
              (Demo.submitted Demo.noOptions) (Demo.job1 pending 0 0) eq_refl)
    as [_ [H _]].
  destruct (H (AppError "Failed to analyze document: model overloaded")
              (snd (DocumentProcessingService.segment Demo.runtime_ai_down 20
                      (at_point AwaitAnalyze (Demo.scheduled Demo.noOptions))
                      (Demo.submitted Demo.noOptions))) eq_refl)
    as [s' [job' [H1 [H2 [H3 [H4 H5]]]]]].
  exists s', job'. repeat split; assumption.
Defined.

(** C2 is not met: a job cancelled while pending is taken up by the
    background task all the same; the task saves a document and the job
    ends [completed] with progress 100 and a result. *)
Lemma C2_cancelled_job_completes :
  let s0 := Demo.submitted Demo.withAutoSave in
  let cancel := DocumentProcessingService.cancelProcessing 5 "job_1" s0 in
  let run := DocumentProcessingService.run_to_end (Demo.runtime []) 10 20 30
               (Demo.scheduled Demo.withAutoSave) (snd cancel) in
  Spec.job_of "job_1" s0 = Some (Demo.job1 pending 0 0)
  /\ fst cancel = Ok tt
  /\ Spec.job_of "job_1" (snd cancel) = Some (Demo.job1 cancelled 0 5)
  /\ option_map status (Spec.job_of "job_1" (snd run)) = Some completed
  /\ option_map progress (Spec.job_of "job_1" (snd run)) = Some 100%Z
  /\ option_map updatedAt (Spec.job_of "job_1" (snd run)) = Some 30%Z
  /\ length (documentRows (committed (db (snd run)))) = 1.
Proof. vm_compute. repeat split; reflexivity. Qed.

(** C2 is not met by the code. Cancelling a pending or processing job
    sets its status to [cancelled], as the claim says, but the background
    task never looks at the status: when its remaining resumptions have
    run, the task has ended and the job is [completed] or [failed], not
    [cancelled]. *)
Theorem C2_cancel_does_not_stop_task (rt : Runtime) (now t1 t2 t3 : Z)
    (jobId : string) (s : Service) (job : ProcessingJob) (task : Task) :
  DocumentProcessingService.table_get jobId s = Some (task_job task, job) ->
  status job = pending \/ status job = processing ->
  task_jobId task = jobId ->
  task_at task <> Finished ->
  exists s1,
    DocumentProcessingService.cancelProcessing now jobId s = (Ok tt, s1)
    /\ Spec.job_of jobId s1 = Some (with_updatedAt now (with_status cancelled job))
    /\ exists task' s2 job2,
         DocumentProcessingService.run_to_end rt t1 t2 t3 task s1 = (Ok task', s2)
         /\ task_at task' = Finished
         /\ Spec.job_of jobId s2 = Some job2
         /\ settled job2
         /\ status job2 <> cancelled.
Proof.
  intros Hget Hst Hid Hat.
  pose proof (proj1 (table_get_Some _ _ _ _) Hget) as [Ht Ho].
  eexists. split.
  { apply (cancelProcessing_run now jobId s _ job Hget);
      destruct Hst as [E|E]; rewrite E; discriminate. }
  split.
  { apply (job_of_set_objects jobId s (task_job task)); [exact Ht|].
    apply lookup_insert_eq. }
  set (s1 := set_objects _ s).
  assert (objects s1 !! task_job task
          = Some (with_updatedAt now (with_status cancelled job))) as Ho1
    by apply lookup_insert_eq.
  assert (processingJobs s1 !! task_jobId task = Some (task_job task)) as Ht1
    by (rewrite Hid; exact Ht).
  destruct (resume_step rt t1 task s1 _ Ho1) as (p1 & sa & ja & R1 & Oa & Fa & Ka & Ta & _).
  { intros E. contradiction. }
  destruct (resume_step rt t2 (at_point p1 task) sa ja Oa) as (p2 & sb & jb & R2 & Ob & Fb & Kb & Tb & _).
  { exact Fa. }
  destruct (resume_step rt t3 (at_point p2 (at_point p1 task)) sb jb Ob)
    as (p3 & sc & jc & R3 & Oc & Fc & Kc & Tc & _).
  { exact Fb. }
  cbn [at_point task_at task_job task_jobId] in *.
  assert (rank p3 = 0) as Hp3.
  { assert (rank (task_at task) <= 3) by (destruct (task_at task); simpl; lia).
    lia. }
  assert (p3 = Finished) as -> by (destruct p3; simpl in Hp3; congruence).
  eexists _, sc, jc. split.
  { unfold DocumentProcessingService.run_to_end, bind.
    rewrite R1, R2, R3. reflexivity. }
  split; [reflexivity|].
  split.
  { rewrite <- Hid. apply (job_of_lookup _ _ (task_job task)); [|exact Oc].
    auto. }
  assert (settled jc) as Hs by (apply Fc; reflexivity).
  split; [exact Hs|].
  destruct Hs as [E|E]; rewrite E; discriminate.
Qed.

(** C2 at a job cancelled before the task has started. *)
Lemma C2_witness :
  DocumentProcessingService.table_get "job_1" (Demo.submitted Demo.withAutoSave)
  = Some (0, Demo.job1 pending 0 0)
  /\ exists s1 task' s2 job2,
       DocumentProcessingService.cancelProcessing 5 "job_1"
         (Demo.submitted Demo.withAutoSave) = (Ok tt, s1)
       /\ DocumentProcessingService.run_to_end (Demo.runtime []) 10 20 30
            (Demo.scheduled Demo.withAutoSave) s1 = (Ok task', s2)
       /\ Spec.job_of "job_1" s2 = Some job2
       /\ status job2 <> cancelled.
Proof.
  split; [reflexivity|].
  destruct (C2_cancel_does_not_stop_task (Demo.runtime []) 5 10 20 30 "job_1"
              (Demo.submitted Demo.withAutoSave) (Demo.job1 pending 0 0)
              (Demo.scheduled Demo.withAutoSave) eq_refl (or_introl eq_refl)
              eq_refl)
    as (s1 & H1 & _ & task' & s2 & job2 & H2 & _ & H3 & _ & H4).
  { discriminate. }
  exists s1, task', s2, job2. repeat split; assumption.
Defined.

(** ** The analysis cache *)

Section Analysis.
Context (rt : Runtime).
Import DocumentProcessingService.

Lemma cache_get_lookup now key c v :
  CacheService.get now key c = Some v ->
  exists entry, c !! key = Some entry /\ ce_value entry = v.
Proof.
  unfold CacheService.get. destruct (c !! key) as [entry|]; [|discriminate].
  destruct (now <? ce_expiresAt entry)%Z; [|discriminate].
  intros H. inversion H. eauto.
Qed.

(** An analysis that returns leaves its result in the cache under the
    analysis key. *)
Lemma analyzeDocument_caches now fileId options s r s1 :
  analyzeDocument rt now fileId options s = (Ok r, s1) ->
  exists entry,
    cache s1 !! ("analysis_" +:+ fileId) = Some entry
    /\ ce_value entry = CachedAnalysis r.
Proof.
  intros H.
  unfold analyzeDocument, try_catch in H. unfold bind at 1 in H.
  unfold cache_get at 1, gets in H.
  assert (forall (miss : M Service AnalysisResult),
            miss = (let* fm :=
                      promise_all2
                        (external (CallGetFileContent fileId) (getFileContent rt fileId))
                        (external (CallGetFileMetadata fileId) (getFileMetadata rt fileId)) in
                    let file := {| file_id := file_id (fst fm);
                                   file_name := file_name (snd fm);
                                   file_mimeType := file_mimeType (fst fm) |} in
                    let* imageUrl := convertToImage rt now file in
                    let* analysisText :=
                      external (CallAnalyzeImage imageUrl) (analyzeImage rt imageUrl) in
                    let* parsedAnalysis :=
                      external (CallParseAnalysis analysisText)
                               (parseAnalysis rt analysisText) in
                    let result := {| analysis := parsedAnalysis; image := imageUrl;
                                     ar_fileName := file_name file; ar_fileId := fileId;
                                     processedAt := isoOfTime rt now;
                                     savedDocument := None |} in
                    cache_set now ("analysis_" +:+ fileId) (CachedAnalysis result) 3600 ;;
                    ret result)%js ->
            match miss s with
            | (Ok a, s') => (Ok a, s')
            | (Err e, s') =>
                throw (AppError ("Failed to analyze document: " +:+ error_message e)) s'
            end = (Ok r, s1) ->
            exists entry,
              cache s1 !! ("analysis_" +:+ fileId) = Some entry
              /\ ce_value entry = CachedAnalysis r) as Hmiss.
  { clear H. intros miss -> Hm.
    unfold bind, promise_all2, external in Hm.
    destruct (getFileContent rt fileId) as [f|e]; [|discriminate].
    destruct (getFileMetadata rt fileId) as [m|e]; [|discriminate].
    cbn [fst snd] in Hm.
    match type of Hm with
    | context [convertToImage rt now ?file ?st] =>
        destruct (convertToImage rt now file st) as [[img|e] s2]
    end; [|discriminate].
    destruct (analyzeImage rt img) as [text|e]; [|discriminate].
    destruct (parseAnalysis rt text) as [parsed|e]; [|discriminate].
    unfold cache_set, modify, ret in Hm. inversion Hm; subst.
    eexists. split; [apply lookup_insert_eq | reflexivity]. }
  destruct (CacheService.get now ("analysis_" +:+ fileId) (cache s))
    as [[img|r0]|] eqn:G.
  - eapply Hmiss; [reflexivity | exact H].
  - destruct (forceRefresh options).
    + eapply Hmiss; [reflexivity | exact H].
    + unfold ret in H. inversion H; subst.
      apply cache_get_lookup in G. exact G.
  - eapply Hmiss; [reflexivity | exact H].
Qed.

End Analysis.

(** C6. After a call of [analyzeDocument] that returned, a call for the
    same file without [forceRefresh], made while the entry is still in the
    cache, returns the same result and leaves the whole state of the
    service, the record of calls to the storage, the converter and the AI
    client included, as it was: nothing is fetched, converted or classified
    a second time. *)
Theorem C6_second_call_served_from_cache (rt : Runtime) (t1 t2 : Z)
    (fileId : string) (options1 options2 : ProcessDocumentOptions)
    (s s1 : Service) (r : AnalysisResult) :
  DocumentProcessingService.analyzeDocument rt t1 fileId options1 s = (Ok r, s1) ->
  forceRefresh options2 = false ->
  is_Some (CacheService.get t2 ("analysis_" +:+ fileId) (cache s1)) ->
  DocumentProcessingService.analyzeDocument rt t2 fileId options2 s1 = (Ok r, s1)
  /\ calls (snd (DocumentProcessingService.analyzeDocument rt t2 fileId options2 s1))
     = calls s1.
Proof.
  intros H1 Hf [v Hv].
  assert (DocumentProcessingService.analyzeDocument rt t2 fileId options2 s1
          = (Ok r, s1)) as H2.
  { destruct (analyzeDocument_caches rt _ _ _ _ _ _ H1) as [entry [He Hval]].
    assert (CacheService.get t2 ("analysis_" +:+ fileId) (cache s1)
            = Some (CachedAnalysis r)) as Hget.
    { unfold CacheService.get in *. rewrite He in *.
      destruct (t2 <? ce_expiresAt entry)%Z; [|discriminate].
      rewrite Hval. reflexivity. }
    unfold DocumentProcessingService.analyzeDocument, try_catch.
    unfold bind at 1. unfold DocumentProcessingService.cache_get at 1, gets.
    rewrite Hget, Hf. reflexivity. }
  split; [exact H2|]. rewrite H2. reflexivity.
Qed.

(** C6 on the empty service: a first call at time 1000, a second one a
    second later. *)
Lemma C6_witness :
  let first := DocumentProcessingService.analyzeDocument (Demo.runtime []) 1000
                 "f1" Demo.noOptions Demo.emptyService in
  is_ok (fst first) = true
  /\ length (calls (snd first)) = 5
  /\ fst (DocumentProcessingService.analyzeDocument (Demo.runtime []) 2000 "f1"
            Demo.noOptions (snd first)) = fst first
  /\ calls (snd (DocumentProcessingService.analyzeDocument (Demo.runtime []) 2000
                   "f1" Demo.noOptions (snd first)))
     = calls (snd first).
Proof.
  cbv zeta. split; [reflexivity|]. split; [reflexivity|].
  destruct (C6_second_call_served_from_cache (Demo.runtime []) 1000 2000 "f1"
              Demo.noOptions Demo.noOptions Demo.emptyService
              (snd (DocumentProcessingService.analyzeDocument (Demo.runtime [])
                      1000 "f1" Demo.noOptions Demo.emptyService))
              {| analysis := Demo.analysisOf "text of https://img/f1";
                 image := "https://img/f1"; ar_fileName := "f1.pdf";
                 ar_fileId := "f1"; processedAt := "@1000";
                 savedDocument := None |}
              eq_refl eq_refl) as [H1 H2].
  { eexists. vm_compute. reflexivity. }
  split; [rewrite H1; reflexivity | exact H2].
Defined.

(** C3 fails as stated: after a first analysis of "f1", an analysis with
    [forceRefresh] fetches, classifies and parses again, but the image is
    taken from the cache and [documentToImage] is not called. *)
Lemma C3_refresh_serves_image_from_cache :
  let first := DocumentProcessingService.analyzeDocument (Demo.runtime []) 1000
                 "f1" Demo.noOptions Demo.emptyService in
  let second := DocumentProcessingService.analyzeDocument (Demo.runtime []) 2000
                  "f1" Demo.refresh (snd first) in
  let file := {| file_id := "f1"; file_name := "f1.pdf";
                 file_mimeType := "application/pdf" |} in
  calls (snd first)
  = [CallGetFileContent "f1"; CallGetFileMetadata "f1"; CallDocumentToImage file;
     CallAnalyzeImage "https://img/f1"; CallParseAnalysis "text of https://img/f1"]
  /\ is_ok (fst second) = true
  /\ calls (snd second)
     = (calls (snd first)
        ++ [CallGetFileContent "f1"; CallGetFileMetadata "f1";
            CallAnalyzeImage "https://img/f1";
            CallParseAnalysis "text of https://img/f1"])%list
  /\ ~ In (CallDocumentToImage file)
          (drop (length (calls (snd first))) (calls (snd second))).
Proof.
  cbv zeta. split; [reflexivity|]. split; [reflexivity|]. split; [reflexivity|].
  vm_compute. intros H. repeat (destruct H as [H|H]; [discriminate|]). exact H.
Qed.

(** C3 (as the code has it). With [forceRefresh] the cached analysis is
    not looked at: the content and the metadata are fetched and the image
    is classified and parsed again, whatever the cache holds under the
    analysis key. The conversion alone keeps its cache: a string cached
    under the image key is used as the image and [documentToImage] is not
    called; it is called when no such string is cached. *)
Theorem C3_refresh_keeps_image_cache (rt : Runtime) (now : Z) (fileId : string)
    (options : ProcessDocumentOptions) (s : Service) (f m : File) :
  forceRefresh options = true ->
  getFileContent rt fileId = Ok f ->
  getFileMetadata rt fileId = Ok m ->
  let file := {| file_id := file_id f; file_name := file_name m;
                 file_mimeType := file_mimeType f |} in
  let out := DocumentProcessingService.analyzeDocument rt now fileId options s in
  match CacheService.get now ("image_" +:+ file_id f +:+ "_" +:+ file_mimeType f)
          (cache s) with
  | Some (CachedString img) =>
      fst out = Spec.fresh_analysis rt now fileId file img
      /\ calls (snd out)
         = (calls s ++ [CallGetFileContent fileId; CallGetFileMetadata fileId]
              ++ Spec.classify_calls rt img)%list
  | _ =>
      fst out
      = match documentToImage rt file with
        | Ok img => Spec.fresh_analysis rt now fileId file img
        | Err e =>
            Err (AppError ("Failed to analyze document: "
                             +:+ error_message
                                   (AppError ("Failed to convert document to image: "
                                                +:+ error_message e))))
        end
      /\ calls (snd out)
         = (calls s ++ [CallGetFileContent fileId; CallGetFileMetadata fileId;
                        CallDocumentToImage file]
              ++ match documentToImage rt file with
                 | Ok img => Spec.classify_calls rt img
                 | Err _ => []
                 end)%list
  end.
Proof.
  intros Hf Hc Hm file out. subst out.
  destruct (DocumentProcessingService.analyzeDocument rt now fileId options s)
    as [res s'] eqn:E.
  cbn [fst snd].
  unfold DocumentProcessingService.analyzeDocument, try_catch in E.
  unfold bind at 1 in E.
  unfold DocumentProcessingService.cache_get at 1, gets in E.
  rewrite Hf in E.
  destruct (CacheService.get now ("analysis_" +:+ fileId) (cache s))
    as [[cachedText|cachedResult]|];
    unfold bind, promise_all2, external in E;
    rewrite Hc, Hm in E; cbn [fst snd] in E;
    unfold DocumentProcessingService.convertToImage, try_catch, bind,
      DocumentProcessingService.cache_get, gets in E;
    cbn [cache log_call file_id file_mimeType] in E;
    (destruct (CacheService.get now
                 ("image_" +:+ file_id f +:+ "_" +:+ file_mimeType f) (cache s))
       as [[img|r]|];
     unfold Spec.fresh_analysis, Spec.classify_calls;
     unfold external, DocumentProcessingService.cache_set, modify, ret, throw in E;
     fold file in E;
     try destruct (documentToImage rt file) as [img|e];
     try destruct (analyzeImage rt img) as [text|e1];
     try destruct (parseAnalysis rt text) as [parsed|e2];
     inversion E; subst; cbn; rewrite <- ?app_assoc; split; reflexivity).
Qed.

(** C3 after a first analysis of "f1": the refresh fetches, classifies and
    parses, and converts nothing. *)
Lemma C3_witness :
  let first := DocumentProcessingService.analyzeDocument (Demo.runtime []) 1000
                 "f1" Demo.noOptions Demo.emptyService in
  forceRefresh Demo.refresh = true
  /\ calls (snd (DocumentProcessingService.analyzeDocument (Demo.runtime []) 2000
                   "f1" Demo.refresh (snd first)))
     = (calls (snd first)
        ++ [CallGetFileContent "f1"; CallGetFileMetadata "f1";
            CallAnalyzeImage "https://img/f1";
            CallParseAnalysis "text of https://img/f1"])%list.
Proof.
  cbv zeta. split; [reflexivity|].
  pose proof (C3_refresh_keeps_image_cache (Demo.runtime []) 2000 "f1"
                Demo.refresh
                (snd (DocumentProcessingService.analyzeDocument (Demo.runtime [])
                        1000 "f1" Demo.noOptions Demo.emptyService))
                {| file_id := "f1"; file_name := "";
                   file_mimeType := "application/pdf" |}
                {| file_id := "f1"; file_name := "f1.pdf";
                   file_mimeType := "application/pdf" |}
                eq_refl eq_refl eq_refl) as H.
  vm_compute in H. destruct H as [_ H]. exact H.
Defined.

(** ** Date entities *)

Section Dates.
Context (rt : Runtime).
Import ValidationService.

Lemma validateEntity_bad_date (entity : Entity) :
  e_type entity = "date" ->
  Date_parse rt (e_name entity) = None ->
  isValid (validateEntity rt entity) = false.
Proof.
  intros Ht Hp. unfold validateEntity.
  assert (exists m, In m (validateEntity_date rt entity)) as [m Hm].
  { unfold validateEntity_date, EntityType.date. rewrite Ht.
    rewrite String.eqb_refl. cbn [negb].
    destruct (Str.truthy (e_name entity)); cbn [negb].
    - rewrite Hp. eexists. left. reflexivity.
    - eexists. left. reflexivity. }
  apply (finish_invalid _ m).
  rewrite !in_app_iff. tauto.
Qed.

Lemma validateEach_invalid (entity : Entity) (es : list Entity) :
  In entity es -> isValid (validateEntity rt entity) = false ->
  forall i, validateEach rt i es <> [].
Proof.
  intros Hin Hbad. induction es as [|e rest IH]; [destruct Hin|].
  intros i. cbn [validateEach]. destruct Hin as [->|Hin].
  - rewrite Hbad.
    destruct (errors (validateEntity rt entity)) as [|m ms] eqn:E.
    + unfold validateEntity in Hbad, E. cbn [errors finish] in E.
      unfold finish in Hbad. cbn [isValid] in Hbad.
      rewrite E in Hbad. discriminate.
    + discriminate.
  - intros H. apply app_eq_nil in H as [_ H]. exact (IH Hin (S i) H).
Qed.

Lemma validateEntities_invalid (entity : Entity) (es : list Entity) :
  In entity es -> isValid (validateEntity rt entity) = false ->
  isValid (validateEntities rt es) = false.
Proof.
  intros Hin Hbad. unfold validateEntities.
  destruct (Nat.eqb (length es) 0); [reflexivity|].
  pose proof (validateEach_invalid entity es Hin Hbad 0) as Hne.
  unfold finish. cbn [isValid].
  destruct (validateEach rt 0 es) as [|m ms]; [congruence|].
  rewrite length_app. cbn [length].
  apply Nat.eqb_neq. lia.
Qed.

Lemma validateDocumentForSave_bad_entity (d : CreateDocumentRequest)
    (entity : Entity) :
  In entity (entities d) -> isValid (validateEntity rt entity) = false ->
  isValid (validateDocumentForSave rt d) = false.
Proof.
  intros Hin Hbad.
  pose proof (validateEntities_invalid entity _ Hin Hbad) as Hes.
  unfold validateDocumentForSave. rewrite Hes.
  destruct (errors (validateEntities rt (entities d))) as [|m ms] eqn:E.
  - unfold validateEntities in Hes, E.
    destruct (Nat.eqb (length (entities d)) 0); [discriminate|].
    unfold finish in Hes, E. cbn [isValid errors] in Hes, E.
    rewrite E in Hes. discriminate.
  - apply (finish_invalid _ m). rewrite !in_app_iff.
    do 5 right. left. left. reflexivity.
Qed.

End Dates.

(** C4 fails as stated: a date entity whose name is not a date makes the
    save throw, and nothing is stored. *)
Lemma C4_malformed_date_blocks_save :
  let d := Demo.letterWith [Demo.person "John Smith";
                            Demo.dateEntity "sometime in June"] in
  Date_parse (Demo.runtime []) "sometime in June" = None
  /\ (forall r : Spec.Rule, Spec.holds d r = true)
  /\ DocumentProcessingService.saveDocument (Demo.runtime []) 1000 d
       Demo.emptyService
     = (Err (JsError "Failed to save document: Validation failed: Entity 2: Invalid date format. Use YYYY-MM-DD or valid date string" 500),
        Demo.emptyService).
Proof.
  cbv zeta. split; [reflexivity|]. split; [intros []; reflexivity|].
  vm_compute. reflexivity.
Qed.

(** Through [saveDocument] a date entity whose name is a date is stored by
    [BaseRepository.create], as it was given: the [date] column stays
    empty, where [createFromEntity] would have filled it. *)
Example saveDocument_leaves_date_column_empty :
  let d := Demo.letterWith [Demo.dateEntity "1944-06-06"] in
  let out := DocumentProcessingService.saveDocument (Demo.runtime []) 1000 d
               Demo.emptyService in
  is_ok (fst out) = true
  /\ entityRows (committed (db (snd out)))
     = [ {| de_id := 0; de_name := "1944-06-06"; de_date := None;
            de_type := "date" |} ]
  /\ EntityRepository.date_of_entity (Demo.runtime []) (Demo.dateEntity "1944-06-06")
     = Some "1944-06-06T00:00:00.000Z".
Proof. vm_compute. repeat split; reflexivity. Qed.

(** C4 (as the code has it). A date entity whose name does not parse as a
    date is refused by the validation: [saveDocument] throws "Failed to
    save document: Validation failed: ..." and leaves the service as it
    was. [createFromEntity] on its own is lenient: inside an open
    transaction it creates the row of a date entity with the ISO form of
    the date when the (non-empty) name parses and without a date value
    when it does not. *)
Theorem C4_date_entities (rt : Runtime) (entity : Entity) :
  e_type entity = "date" ->
  (Date_parse rt (e_name entity) = None ->
   forall now d s, In entity (entities d) ->
     isValid (ValidationService.validateDocumentForSave rt d) = false
     /\ exists msg,
          DocumentProcessingService.saveDocument rt now d s
          = (Err (AppError ("Failed to save document: Validation failed: "
                              +:+ msg)), s))
  /\ (forall d t,
        inTx d = Some t -> db_fault rt (queries d) = false ->
        exists row d',
          EntityRepository.createFromEntity rt entity (Some txClient) d
          = (Ok row, d')
          /\ de_name row = e_name entity /\ de_type row = "date"
          /\ de_date row
             = (if Str.truthy (e_name entity)
                then option_map (toISOString rt) (Date_parse rt (e_name entity))
                else None)
          /\ inTx d' = Some {| entityRows := entityRows t ++ [row];
                               documentRows := documentRows t;
                               nextId := S (nextId t) |}
          /\ committed d' = committed d).
Proof.
  intros Ht. split.
  - intros Hp now d s Hin.
    assert (isValid (ValidationService.validateDocumentForSave rt d) = false) as Hv.
    { apply (validateDocumentForSave_bad_entity rt d entity Hin).
      apply validateEntity_bad_date; assumption. }
    split; [exact Hv|]. eexists. apply saveDocument_invalid. exact Hv.
  - intros d t Htx Hq.
    unfold EntityRepository.createFromEntity, try_catch, Prisma.query,
      BaseRepository.client_of, Prisma.entity_create.
    rewrite Hq, Htx. eexists _, _. split; [reflexivity|].
    cbn [de_name de_type de_date inTx committed].
    split; [reflexivity|]. split; [exact Ht|].
    split; [|split; reflexivity].
    unfold EntityRepository.date_of_entity, EntityType.date.
    rewrite Ht, String.eqb_refl. cbn [andb].
    destruct (Str.truthy (e_name entity)); [|reflexivity].
    destruct (Date_parse rt (e_name entity)); reflexivity.
Qed.

(** C4 at the entity "sometime in June". *)
Lemma C4_witness :
  e_type (Demo.dateEntity "sometime in June") = "date"
  /\ isValid (ValidationService.validateDocumentForSave (Demo.runtime [])
                (Demo.letterWith [Demo.dateEntity "sometime in June"])) = false.
Proof.
  split; [reflexivity|].
  exact (proj1 (proj1 (C4_date_entities (Demo.runtime [])
                         (Demo.dateEntity "sometime in June") eq_refl)
                  eq_refl 0%Z
                  (Demo.letterWith [Demo.dateEntity "sometime in June"])
                  Demo.emptyService (or_introl eq_refl))).
Defined.

(** ** Entities resolved side by side *)

Section Resolution.
Local Open Scope list_scope.
Context (rt : Runtime).
Hypothesis no_fault : forall k, db_fault rt k = false.
Import DocumentProcessingService.

(** With nothing known yet, every lookup comes back empty and its callback
    queues an insert. *)
Lemma run_lookups_unknown (t : Tables) (c : Tables) lookups :
  Forall (fun ie => unknown t (snd ie)) lookups ->
  forall inserts slots k,
    run_lookups rt txClient lookups inserts slots
      {| committed := c; inTx := Some t; queries := k |}
    = (Ok (inserts ++ lookups, slots),
       {| committed := c; inTx := Some t; queries := k + length lookups |}).
Proof.
  induction 1 as [|[i e] rest Hu _ IH]; intros inserts slots k.
  - simpl. unfold ret. rewrite app_nil_r, Nat.add_0_r. reflexivity.
  - cbn [run_lookups]. unfold bind at 1.
    unfold EntityRepository.findByNameAndType, try_catch, Prisma.query,
      BaseRepository.client_of, Prisma.entity_findFirst.
    cbn [queries inTx committed]. rewrite no_fault.
    unfold unknown in Hu. cbn [snd] in Hu. rewrite Hu.
    rewrite IH. rewrite <- app_assoc. cbn [length app].
    rewrite Nat.add_succ_r. reflexivity.
Qed.

Lemma slots_fill (done : list DatabaseEntity) (row : DatabaseEntity) (n : nat) :
  <[length done := Some row]> (map Some done ++ replicate (S n) None)
  = map Some (done ++ [row]) ++ replicate n None.
Proof.
  induction done as [|d done IH]; [reflexivity|].
  cbn. f_equal. exact IH.
Qed.

(** The inserts then add one row each. *)
Lemma run_inserts_fresh (c : Tables) (es : list Entity) :
  forall (done : list DatabaseEntity) (t : Tables) (k : nat),
    run_inserts rt txClient (imap (fun i e => (length done + i, e)) es)
      (map Some done ++ replicate (length es) None)
      {| committed := c; inTx := Some t; queries := k |}
    = (Ok (map Some (done ++ fresh_rows t es)),
       {| committed := c; inTx := Some (with_rows t (fresh_rows t es));
          queries := k + length es |}).
Proof.
  induction es as [|e rest IH]; intros done t k.
  - cbn. unfold ret, with_rows, fresh_rows. cbn.
    rewrite !app_nil_r, !Nat.add_0_r. destruct t; reflexivity.
  - cbn [imap run_inserts length replicate]. unfold bind at 1.
    unfold BaseRepository.create, try_catch, Prisma.query,
      BaseRepository.client_of, Prisma.entity_create.
    cbn [queries inTx committed]. rewrite no_fault.
    rewrite Nat.add_0_r.
    change (None :: replicate (length rest) None)
      with (replicate (S (length rest)) (@None DatabaseEntity)).
    rewrite slots_fill.
    set (row := {| de_id := nextId t; de_name := e_name e;
                   de_date := e_date e; de_type := e_type e |}).
    set (t1 := {| entityRows := entityRows t ++ [row];
                  documentRows := documentRows t; nextId := S (nextId t) |}).
    rewrite (imap_ext _ (fun i e0 => (length (done ++ [row]) + i, e0)) rest).
    2:{ intros i x _. cbn. rewrite length_app. cbn. f_equal. lia. }
    rewrite (IH (done ++ [row]) t1 (S k)).
    assert (fresh_rows t (e :: rest) = row :: fresh_rows t1 rest) as ->.
    { unfold fresh_rows. cbn [imap]. f_equal.
      - unfold row_of, row. rewrite Nat.add_0_r. reflexivity.
      - apply imap_ext. intros i x _. cbn. f_equal. lia. }
    rewrite <- app_assoc. cbn [app].
    f_equal. f_equal.
    + unfold with_rows, t1. cbn. rewrite <- app_assoc. cbn.
      f_equal. f_equal. unfold fresh_rows. rewrite !length_imap. lia.
    + lia.
Qed.

Lemma omap_id_Some (rows : list DatabaseEntity) : omap id (map Some rows) = rows.
Proof. induction rows as [|r rows IH]; [reflexivity|]. cbn. now rewrite IH. Qed.

Lemma processEntities_unknown (c t : Tables) (k : nat) (es : list Entity) :
  Forall (unknown t) es ->
  processEntities rt txClient es
    {| committed := c; inTx := Some t; queries := k |}
  = (Ok (fresh_rows t es),
     {| committed := c; inTx := Some (with_rows t (fresh_rows t es));
        queries := k + length es + length es |}).
Proof.
  intros Hu. unfold processEntities. unfold bind at 1.
  rewrite run_lookups_unknown.
  2:{ apply Forall_forall. intros [i e] Hin.
      apply elem_of_lookup_imap in Hin as (j & x & Heq & Hx).
      inversion Heq; subst. cbn.
      rewrite Forall_forall in Hu. apply Hu.
      apply list_elem_of_lookup. eauto. }
  cbn [fst snd app]. unfold bind at 1.
  rewrite length_imap.
  assert (run_inserts rt txClient (imap pair es) (replicate (length es) None)
            {| committed := c; inTx := Some t; queries := k + length es |}
          = (Ok (map Some (fresh_rows t es)),
             {| committed := c; inTx := Some (with_rows t (fresh_rows t es));
                queries := k + length es + length es |})) as Hrun
    by exact (run_inserts_fresh c es [] t (k + length es)).
  rewrite Hrun. unfold ret. rewrite omap_id_Some. reflexivity.
Qed.

Lemma findById_inserted (t : Tables) (rows : list DatabaseEntity) row :
  In row rows ->
  entity_found (Prisma.entity_findById (with_rows t rows) (de_id row)) = true.
Proof.
  intros Hin. unfold Prisma.entity_findById, entity_found.
  destruct (List.find _ _) eqn:E; [reflexivity|].
  eapply find_none in E.
  - rewrite Nat.eqb_refl in E. discriminate.
  - unfold with_rows. cbn. apply in_or_app. right. exact Hin.
Qed.

(** What the save does with a payload of entities that the store does not
    know: it goes through and inserts one row for every entity of the
    payload, whether or not two of them share a name and a type. *)
Theorem saveDocument_inserts_every_unknown_entity (now : Z)
    (d : CreateDocumentRequest) (s : Service) :
  isValid (ValidationService.validateDocumentForSave rt d) = true ->
  Forall (unknown (committed (db s))) (entities d) ->
  let out := saveDocument rt now d s in
  is_ok (fst out) = true
  /\ entityRows (committed (db (snd out)))
     = entityRows (committed (db s)) ++ fresh_rows (committed (db s)) (entities d)
  /\ length (fresh_rows (committed (db s)) (entities d)) = length (entities d).
Proof.
  intros Hv Hu out. subst out.
  assert (forallb (fun id => entity_found
                     (Prisma.entity_findById
                        (with_rows (committed (db s))
                           (fresh_rows (committed (db s)) (entities d))) id))
            (map de_id (fresh_rows (committed (db s)) (entities d))) = true) as Hall.
  { apply forallb_forall. intros id Hid.
    apply in_map_iff in Hid as (row & <- & Hrow).
    apply findById_inserted. exact Hrow. }
  unfold entity_found in Hall.
  destruct (saveDocument rt now d s) as [res s'] eqn:E. cbn [fst snd].
  unfold saveDocument, liftDb, saveDocument_db, try_catch in E.
  rewrite Hv in E. cbn [negb] in E.
  unfold Prisma.transaction, Prisma.query in E. rewrite no_fault in E.
  cbn [committed inTx queries] in E. unfold bind at 1 in E.
  rewrite (processEntities_unknown _ _ _ _ Hu) in E.
  unfold DocumentRepository.createWithEntities, try_catch, Prisma.query,
    BaseRepository.client_of in E.
  cbn [committed inTx queries] in E. rewrite no_fault in E.
  unfold Prisma.document_create in E. rewrite Hall in E.
  cbn [committed inTx queries] in E. rewrite no_fault in E.
  inversion E; subst. cbn.
  split; [reflexivity|]. split; [reflexivity|].
  unfold fresh_rows. apply length_imap.
Qed.

End Resolution.

(** * Further properties *)

(** ** The job table: submission, status, sweep *)

Section Tracker.
Import DocumentProcessingService.

(** A job that the table does not know is reported as not found, by the
    status query and by the cancellation alike, and nothing changes. *)
Theorem unknown_job_is_not_found (now : Z) (jobId : string) (s : Service) :
  processingJobs s !! jobId = None ->
  getProcessingStatus jobId s
  = (Err (AppErrorWith "Processing job not found" 404), s)
  /\ cancelProcessing now jobId s
     = (Err (AppErrorWith "Processing job not found" 404), s).
Proof.
  intros H. unfold getProcessingStatus, cancelProcessing, table_get.
  rewrite H. split; reflexivity.
Qed.

Lemma unknown_job_is_not_found_witness :
  processingJobs (Demo.submitted Demo.noOptions) !! "job_2" = None
  /\ fst (getProcessingStatus "job_2" (Demo.submitted Demo.noOptions))
     = Err (JsError "Processing job not found" 404).
Proof.
  split; [reflexivity|].
  rewrite (proj1 (unknown_job_is_not_found 0 "job_2"
                    (Demo.submitted Demo.noOptions) eq_refl)).
  reflexivity.
Defined.

Lemma fresh_address_is_free (s : Service) :
  allocated_below s -> objects s !! nextObject s = None.
Proof.
  intros Ha. destruct (objects s !! nextObject s) as [job|] eqn:E; [|reflexivity].
  apply Ha in E. lia.
Qed.

(** A submission is visible at once: the status query answers with a
    pending job at progress 0, stamped with the time of the submission;
    the jobs of other ids are as they were; and the table keeps its two
    invariants. *)
Theorem submitted_job_is_pending (now : Z) (jobId fileId : string)
    (options : ProcessDocumentOptions) (s : Service) :
  allocated_below s ->
  table_points_to_objects s ->
  exists task s',
    startAsyncProcessing now jobId fileId options s = (Ok task, s')
    /\ task_at task = AtStart /\ task_jobId task = jobId
    /\ task_fileId task = fileId /\ task_options task = options
    /\ table_get jobId s' = Some (task_job task, pending_job now jobId)
    /\ getProcessingStatus jobId s' = (Ok (pending_job now jobId), s')
    /\ (forall other, other <> jobId -> table_get other s' = table_get other s)
    /\ db s' = db s /\ cache s' = cache s /\ calls s' = calls s
    /\ allocated_below s' /\ table_points_to_objects s'.
Proof.
  intros Ha Hp. eexists _, _. split; [reflexivity|].
  cbn [task_at task_jobId task_fileId task_options task_job].
  assert (forall (s0 : Service) address (job : ProcessingJob),
            table_get jobId
              {| db := db s0; cache := cache s0; calls := calls s0;
                 processingJobs := <[jobId := address]> (processingJobs s0);
                 objects := <[address := job]> (objects s0);
                 nextObject := S address |} = Some (address, job)) as Hget.
  { intros s0 address job. unfold table_get. cbn.
    rewrite !lookup_insert_eq. reflexivity. }
  repeat (split; [reflexivity|]).
  split; [apply Hget|].
  split; [unfold getProcessingStatus; rewrite Hget; reflexivity|].
  split.
  { intros other Hne. unfold table_get. cbn.
    rewrite lookup_insert_ne by congruence.
    destruct (processingJobs s !! other) as [address|] eqn:E; [|reflexivity].
    rewrite lookup_insert_ne; [reflexivity|].
    intros <-. destruct (Hp _ _ E) as [job Hjob].
    rewrite (fresh_address_is_free s Ha) in Hjob. discriminate. }
  repeat (split; [reflexivity|]).
  split.
  - intros address job. cbn. intros H.
    destruct (decide (nextObject s = address)) as [<-|Hne]; [lia|].
    rewrite lookup_insert_ne in H by exact Hne. apply Ha in H. lia.
  - intros id address. cbn. intros H.
    destruct (decide (jobId = id)) as [<-|Hne].
    + rewrite lookup_insert_eq in H. inversion H; subst.
      rewrite lookup_insert_eq. eauto.
    + rewrite lookup_insert_ne in H by exact Hne.
      destruct (Hp _ _ H) as [job Hjob].
      destruct (decide (nextObject s = address)) as [<-|Hne2].
      * rewrite lookup_insert_eq. eauto.
      * rewrite lookup_insert_ne by exact Hne2. eauto.
Qed.

Lemma submitted_job_is_pending_witness :
  allocated_below Demo.emptyService
  /\ table_points_to_objects Demo.emptyService
  /\ exists task s',
       startAsyncProcessing 7 "job_1" "f1" Demo.noOptions Demo.emptyService
       = (Ok task, s')
       /\ getProcessingStatus "job_1" s' = (Ok (pending_job 7 "job_1"), s').
Proof.
  assert (allocated_below Demo.emptyService) as Ha.
  { intros address job H. cbn in H. rewrite lookup_empty in H. discriminate. }
  assert (table_points_to_objects Demo.emptyService) as Hp.
  { intros id address H. cbn in H. rewrite lookup_empty in H. discriminate. }
  split; [exact Ha|]. split; [exact Hp|].
  destruct (submitted_job_is_pending 7 "job_1" "f1" Demo.noOptions
              Demo.emptyService Ha Hp)
    as (task & s' & H1 & _ & _ & _ & _ & _ & H2 & _).
  exists task, s'. split; assumption.
Defined.

Lemma cleanupOldJobs_sweeps_by_age_aux (now : Z) (s : Service) :
  exists s',
    cleanupOldJobs now s = (Ok tt, s')
    /\ (forall jobId address job,
          table_get jobId s = Some (address, job) ->
          table_get jobId s'
          = if (now - createdAt job >? 86400000)%Z then None
            else Some (address, job))
    /\ (forall jobId, table_get jobId s = None -> table_get jobId s' = None)
    /\ objects s' = objects s /\ db s' = db s /\ cache s' = cache s
    /\ calls s' = calls s /\ nextObject s' = nextObject s.
Proof.
  eexists. split; [reflexivity|]. cbn.
  split; [|split; [|repeat split; reflexivity]].
  - intros jobId address job H.
    apply table_get_Some in H as [Ht Ho].
    unfold table_get. cbn.
    destruct (now - createdAt job >? 86400000)%Z eqn:Age.
    + assert (filter (fun kv => recent now s kv = true) (processingJobs s) !! jobId
              = None) as ->; [|reflexivity].
      apply map_lookup_filter_None. right. intros x Hx.
      rewrite Ht in Hx. inversion Hx; subst.
      unfold recent. cbn. rewrite Ho.
      change (24 * 60 * 60 * 1000)%Z with 86400000%Z. rewrite Age. discriminate.
    + assert (filter (fun kv => recent now s kv = true) (processingJobs s) !! jobId
              = Some address) as ->; [|rewrite Ho; reflexivity].
      apply map_lookup_filter_Some. split; [exact Ht|].
      unfold recent. cbn. rewrite Ho.
      change (24 * 60 * 60 * 1000)%Z with 86400000%Z. rewrite Age. reflexivity.
  - intros jobId H. unfold table_get in *. cbn.
    destruct (filter (fun kv => recent now s kv = true) (processingJobs s) !! jobId)
      as [address|] eqn:E; [|reflexivity].
    apply map_lookup_filter_Some in E as [E _]. rewrite E in H. exact H.
Qed.

(** The sweep removes from the table exactly the jobs that were created
    more than 24 hours before it runs: a job of exactly that age, or
    younger, stays as it is, and an id that was unknown stays unknown. The
    job objects, the database, the cache and the record of calls are not
    touched. *)
Theorem cleanupOldJobs_sweeps_by_age (now : Z) (s : Service) :
  exists s',
    cleanupOldJobs now s = (Ok tt, s')
    /\ (forall jobId address job,
          table_get jobId s = Some (address, job) ->
          table_get jobId s'
          = if (now - createdAt job >? 86400000)%Z then None
            else Some (address, job))
    /\ (forall jobId, table_get jobId s = None -> table_get jobId s' = None)
    /\ objects s' = objects s /\ db s' = db s /\ cache s' = cache s
    /\ calls s' = calls s /\ nextObject s' = nextObject s.
Proof. exact (cleanupOldJobs_sweeps_by_age_aux now s). Qed.

End Tracker.

(** ** What the analysis leaves alone *)

Section Untouched.
Context (rt : Runtime).
Context {B : Type} (part : Service -> B).
Hypothesis part_log_call : forall c s, part (log_call c s) = part s.
Hypothesis part_set_cache : forall m s, part (set_cache m s) = part s.
Import DocumentProcessingService.

Lemma untouched_ret {A} (a : A) : untouched part (ret a).
Proof. intros s r s' H. inversion H. reflexivity. Qed.

Lemma untouched_throw {A} (e : Exn) : untouched part (@throw Service A e).
Proof. intros s r s' H. inversion H. reflexivity. Qed.

Lemma untouched_bind {A C} (c : M Service A) (k : A -> M Service C) :
  untouched part c -> (forall a, untouched part (k a)) -> untouched part (bind c k).
Proof.
  intros Hc Hk s r s' H. unfold bind in H.
  destruct (c s) as [[a|e] s1] eqn:E.
  - apply Hk in H. apply Hc in E. congruence.
  - inversion H; subst. now apply Hc in E.
Qed.

Lemma untouched_try_catch {A} (c : M Service A) (h : Exn -> M Service A) :
  untouched part c -> (forall e, untouched part (h e)) ->
  untouched part (try_catch c h).
Proof.
  intros Hc Hh s r s' H. unfold try_catch in H.
  destruct (c s) as [[a|e] s1] eqn:E.
  - inversion H; subst. now apply Hc in E.
  - apply Hh in H. apply Hc in E. congruence.
Qed.

Lemma untouched_promise_all2 {A C} (a : M Service A) (b : M Service C) :
  untouched part a -> untouched part b -> untouched part (promise_all2 a b).
Proof.
  intros Ha Hb s r s' H. unfold promise_all2 in H.
  destruct (a s) as [ra s1] eqn:Ea. destruct (b s1) as [rb s2] eqn:Eb.
  apply Ha in Ea. apply Hb in Eb.
  assert (s' = s2) as -> by (destruct ra, rb; inversion H; reflexivity).
  congruence.
Qed.

Lemma untouched_external {A} (c : Call) (outcome : result A) :
  untouched part (external c outcome).
Proof. intros s r s' H. inversion H. apply part_log_call. Qed.

Lemma untouched_cache_get now key : untouched part (cache_get now key).
Proof. intros s r s' H. inversion H. reflexivity. Qed.

Lemma untouched_cache_set now key v ttl : untouched part (cache_set now key v ttl).
Proof. intros s r s' H. inversion H. apply part_set_cache. Qed.

Lemma untouched_convertToImage now file :
  untouched part (convertToImage rt now file).
Proof.
  unfold convertToImage.
  apply untouched_try_catch; [|intros; apply untouched_throw].
  apply untouched_bind; [apply untouched_cache_get|].
  intros [[img|r]|]; [apply untouched_ret | | ];
    (apply untouched_bind; [apply untouched_external|]; intros imageUrl;
     apply untouched_bind; [apply untouched_cache_set|]; intros _;
     apply untouched_ret).
Qed.

Lemma untouched_analyzeDocument now fileId options :
  untouched part (analyzeDocument rt now fileId options).
Proof.
  unfold analyzeDocument.
  apply untouched_try_catch; [|intros; apply untouched_throw].
  apply untouched_bind; [apply untouched_cache_get|].
  intros cached.
  destruct cached as [[img|r]|];
    [ | destruct (forceRefresh options); [|apply untouched_ret] | ];
    (apply untouched_bind;
       [apply untouched_promise_all2; apply untouched_external|];
     intros fm;
     apply untouched_bind; [apply untouched_convertToImage|]; intros imageUrl;
     apply untouched_bind; [apply untouched_external|]; intros text;
     apply untouched_bind; [apply untouched_external|]; intros parsed;
     apply untouched_bind; [apply untouched_cache_set|]; intros _;
     apply untouched_ret).
Qed.

End Untouched.

Lemma analyzeDocument_frame (rt : Runtime) (now : Z)
    (fileId : string) (options : ProcessDocumentOptions) (s : Service) :
  let s' := snd (DocumentProcessingService.analyzeDocument rt now fileId options s) in
  db s' = db s /\ processingJobs s' = processingJobs s
  /\ objects s' = objects s /\ nextObject s' = nextObject s.
Proof.
  cbv zeta.
  destruct (DocumentProcessingService.analyzeDocument rt now fileId options s)
    as [r s'] eqn:E. cbn [snd].
  repeat split.
  - apply (untouched_analyzeDocument rt db (fun _ _ => eq_refl) (fun _ _ => eq_refl)
             _ _ _ _ _ _ E).
  - apply (untouched_analyzeDocument rt processingJobs (fun _ _ => eq_refl)
             (fun _ _ => eq_refl) _ _ _ _ _ _ E).
  - apply (untouched_analyzeDocument rt objects (fun _ _ => eq_refl)
             (fun _ _ => eq_refl) _ _ _ _ _ _ E).
  - apply (untouched_analyzeDocument rt nextObject (fun _ _ => eq_refl)
             (fun _ _ => eq_refl) _ _ _ _ _ _ E).
Qed.

(** "Analyze a document without saving to database": whether it returns or
    throws, [analyzeDocument] leaves the database, the job table, the job
    objects and the address counter exactly as they were; the cache and the
    record of calls are all it can change. *)
Theorem analyzeDocument_writes_cache_only (rt : Runtime) (now : Z)
    (fileId : string) (options : ProcessDocumentOptions) (s : Service) :
  let s' := snd (DocumentProcessingService.analyzeDocument rt now fileId options s) in
  db s' = db s /\ processingJobs s' = processingJobs s
  /\ objects s' = objects s /\ nextObject s' = nextObject s.
Proof. exact (analyzeDocument_frame rt now fileId options s). Qed.

Lemma analysis_key_is_no_image_key (fileId a b : string) :
  "image_" +:+ a +:+ "_" +:+ b <> "analysis_" +:+ fileId.
Proof. cbn. discriminate. Qed.

(** No partial result: an analysis that throws leaves the entry of the
    file under the analysis key as it was (an image converted before the
    failure may have been cached under its own key). *)
Theorem failed_analysis_caches_no_result (rt : Runtime) (now : Z)
    (fileId : string) (options : ProcessDocumentOptions) (s s' : Service)
    (e : Exn) :
  DocumentProcessingService.analyzeDocument rt now fileId options s = (Err e, s') ->
  cache s' !! ("analysis_" +:+ fileId) = cache s !! ("analysis_" +:+ fileId).
Proof.
  intros E.
  unfold DocumentProcessingService.analyzeDocument, try_catch in E.
  unfold bind at 1 in E.
  unfold DocumentProcessingService.cache_get at 1, gets in E.
  destruct (CacheService.get now ("analysis_" +:+ fileId) (cache s))
    as [[cachedText|cachedResult]|];
    [ | destruct (forceRefresh options); [|discriminate] | ];
    unfold bind, promise_all2, external in E;
    (destruct (getFileContent rt fileId) as [f|e1];
     destruct (getFileMetadata rt fileId) as [m|e2];
     cbn [fst snd] in E;
     try (inversion E; subst; reflexivity);
     unfold DocumentProcessingService.convertToImage, try_catch, bind,
       DocumentProcessingService.cache_get, gets in E;
     cbn [cache log_call file_id file_mimeType] in E;
     destruct (CacheService.get now
                 ("image_" +:+ file_id f +:+ "_" +:+ file_mimeType f) (cache s))
       as [[img|r]|];
     unfold external, DocumentProcessingService.cache_set, modify, ret, throw in E;
     try match type of E with
         | context [documentToImage rt ?file] =>
             destruct (documentToImage rt file) as [img|e3]
         end;
     try destruct (analyzeImage rt img) as [text|e4];
     try destruct (parseAnalysis rt text) as [parsed|e5];
     inversion E; subst; cbn;
     unfold CacheService.set;
     rewrite ?lookup_insert_ne by apply analysis_key_is_no_image_key;
     reflexivity).
Qed.

Lemma failed_analysis_caches_no_result_witness :
  let out := DocumentProcessingService.analyzeDocument Demo.runtime_ai_down 1000
               "f1" Demo.noOptions Demo.emptyService in
  is_ok (fst out) = false
  /\ cache (snd out) !! "analysis_f1" = None
  /\ is_Some (cache (snd out) !! "image_f1_application/pdf").
Proof.
  cbv zeta. split; [reflexivity|]. split.
  - exact (failed_analysis_caches_no_result Demo.runtime_ai_down 1000 "f1"
             Demo.noOptions Demo.emptyService
             (snd (DocumentProcessingService.analyzeDocument Demo.runtime_ai_down
                     1000 "f1" Demo.noOptions Demo.emptyService))
             (AppError "Failed to analyze document: model overloaded") eq_refl).
  - eexists. vm_compute. reflexivity.
Defined.

(** ** The background task, step by step *)

Section Steps.
Context (rt : Runtime).
Import DocumentProcessingService.

Lemma saveDocument_keeps_tracker now d s :
  let s' := snd (saveDocument rt now d s) in
  processingJobs s' = processingJobs s /\ objects s' = objects s
  /\ nextObject s' = nextObject s /\ cache s' = cache s /\ calls s' = calls s.
Proof.
  cbv zeta. unfold saveDocument, liftDb.
  destruct (saveDocument_db rt now d (db s)) as [r d']. cbn. tauto.
Qed.

(** One resumption of a task that has not ended: where the task goes and
    what its job becomes are given by [resumption]; the table maps the id
    to the job afterwards; no other job object and no other table entry
    changes. *)
Lemma resume_effect now task s job :
  objects s !! task_job task = Some job ->
  task_at task <> Finished ->
  exists s',
    resume rt now task s
    = (Ok (at_point (fst (resumption rt now task s job)) task), s')
    /\ objects s' !! task_job task = Some (snd (resumption rt now task s job))
    /\ processingJobs s' !! task_jobId task = Some (task_job task)
    /\ (forall other, other <> task_job task ->
        objects s' !! other = objects s !! other)
    /\ (forall other, other <> task_jobId task ->
        processingJobs s' !! other = processingJobs s !! other)
    /\ nextObject s' = nextObject s.
Proof.
  intros Hjob Hat.
  unfold resume, resumption, try_catch, segment. unfold bind at 1.
  destruct (task_at task) as [| |r|] eqn:Eat; [| | |congruence].
  - eexists. split; [reflexivity|]. cbn.
    split; [rewrite !lookup_alter_eq, Hjob; reflexivity|].
    split; [apply lookup_insert_eq|].
    split; [intros other Hne; rewrite !lookup_alter_ne by congruence; reflexivity|].
    split; [intros other Hne; rewrite !lookup_insert_ne by congruence; reflexivity|].
    reflexivity.
  - unfold bind at 1.
    pose proof (analyzeDocument_frame rt now (task_fileId task)
                  (task_options task) s) as Hfr. cbv zeta in Hfr.
    destruct (analyzeDocument rt now (task_fileId task) (task_options task) s)
      as [[r|e] s1]; cbn [snd] in Hfr; destruct Hfr as (_ & Ht & Ho & Hn).
    + destruct (autoSave (task_options task));
        (eexists; split; [reflexivity|]; cbn;
         split; [rewrite !lookup_alter_eq, Ho, Hjob; reflexivity|];
         split; [apply lookup_insert_eq|];
         split; [intros other Hne; rewrite !lookup_alter_ne by congruence;
                 rewrite Ho; reflexivity|];
         split; [intros other Hne; rewrite !lookup_insert_ne by congruence;
                 rewrite Ht; reflexivity|];
         exact Hn).
    + eexists. split; [reflexivity|]. cbn.
      split; [rewrite !lookup_alter_eq, Ho, Hjob; reflexivity|].
      split; [apply lookup_insert_eq|].
      split; [intros other Hne; rewrite !lookup_alter_ne by congruence;
              rewrite Ho; reflexivity|].
      split; [intros other Hne; rewrite !lookup_insert_ne by congruence;
              rewrite Ht; reflexivity|].
      exact Hn.
  - unfold bind at 1.
    pose proof (saveDocument_keeps_tracker now (documentData_of r) s) as Hfr.
    cbv zeta in Hfr.
    destruct (saveDocument rt now (documentData_of r) s) as [[doc|e] s1];
      cbn [snd] in Hfr; destruct Hfr as (Ht & Ho & Hn & _);
      (eexists; split; [reflexivity|]; cbn;
       split; [rewrite !lookup_alter_eq, Ho, Hjob; reflexivity|];
       split; [apply lookup_insert_eq|];
       split; [intros other Hne; rewrite !lookup_alter_ne by congruence;
               rewrite Ho; reflexivity|];
       split; [intros other Hne; rewrite !lookup_insert_ne by congruence;
               rewrite Ht; reflexivity|];
       exact Hn).
Qed.

End Steps.

(** When the awaited call returns, the task moves on. With the analysis
    back and [autoSave] off, and with the save back, the task ends and the
    job is [completed] with progress 100 and the result (which carries the
    saved document after a save); with the analysis back and [autoSave] on,
    the job shows progress 80 and the task waits for the save. *)
Theorem background_success (rt : Runtime) (now : Z) (task : Task) (s : Service)
    (job : ProcessingJob) :
  objects s !! task_job task = Some job ->
  (forall r s1,
     task_at task = AwaitAnalyze ->
     DocumentProcessingService.analyzeDocument rt now (task_fileId task)
       (task_options task) s = (Ok r, s1) ->
     exists s',
       DocumentProcessingService.resume rt now task s
       = (Ok (at_point (if autoSave (task_options task)
                        then AwaitSave r else Finished) task), s')
       /\ Spec.job_of (task_jobId task) s'
          = Some (if autoSave (task_options task)
                  then analysed_job now job
                  else completed_job now r (analysed_job now job)))
  /\ (forall r doc s1,
        task_at task = AwaitSave r ->
        DocumentProcessingService.saveDocument rt now (documentData_of r) s
        = (Ok doc, s1) ->
        exists s',
          DocumentProcessingService.resume rt now task s
          = (Ok (at_point Finished task), s')
          /\ Spec.job_of (task_jobId task) s'
             = Some (completed_job now (with_savedDocument doc r) job)
          /\ savedDocument (with_savedDocument doc r) = Some doc).
Proof.
  intros Hjob. split.
  - intros r s1 Hat E.
    destruct (resume_effect rt now task s job Hjob) as (s' & Hr & Ho & Ht & _).
    { rewrite Hat. discriminate. }
    unfold resumption in Hr, Ho. rewrite Hat, E in Hr, Ho.
    exists s'. split.
    + rewrite Hr. destruct (autoSave (task_options task)); reflexivity.
    + rewrite (job_of_lookup _ _ _ _ Ht Ho).
      destruct (autoSave (task_options task)); reflexivity.
  - intros r doc s1 Hat E.
    destruct (resume_effect rt now task s job Hjob) as (s' & Hr & Ho & Ht & _).
    { rewrite Hat. discriminate. }
    unfold resumption in Hr, Ho. rewrite Hat, E in Hr, Ho.
    exists s'. split; [exact Hr|].
    split; [exact (job_of_lookup _ _ _ _ Ht Ho) | reflexivity].
Qed.

Lemma background_success_witness :
  objects (Demo.submitted Demo.noOptions) !! 0 = Some (Demo.job1 pending 0 0)
  /\ exists s',
       DocumentProcessingService.resume (Demo.runtime []) 20
         (at_point AwaitAnalyze (Demo.scheduled Demo.noOptions))
         (Demo.submitted Demo.noOptions)
       = (Ok (at_point Finished (Demo.scheduled Demo.noOptions)), s')
       /\ option_map status (Spec.job_of "job_1" s') = Some completed
       /\ option_map progress (Spec.job_of "job_1" s') = Some 100%Z.
Proof.
  split; [reflexivity|].
  destruct (proj1 (background_success (Demo.runtime []) 20
                     (at_point AwaitAnalyze (Demo.scheduled Demo.noOptions))
                     (Demo.submitted Demo.noOptions) (Demo.job1 pending 0 0)
                     eq_refl)
              {| analysis := Demo.analysisOf "text of https://img/f1";
                 image := "https://img/f1"; ar_fileName := "f1.pdf";
                 ar_fileId := "f1"; processedAt := "@20";
                 savedDocument := None |}
              (snd (DocumentProcessingService.analyzeDocument (Demo.runtime []) 20
                      "f1" Demo.noOptions (Demo.submitted Demo.noOptions)))
              eq_refl eq_refl) as (s' & H1 & H2).
  exists s'. split; [exact H1|].
  cbn [task_jobId at_point Demo.scheduled] in H2. rewrite H2.
  split; reflexivity.
Defined.

(** A job that the sweep has removed while its task was still running
    comes back: the next resumption of the task puts the job, with its
    original creation time, into the table again. *)
Theorem swept_job_comes_back (rt : Runtime) (now now' : Z) (task : Task)
    (s : Service) (job : ProcessingJob) :
  DocumentProcessingService.table_get (task_jobId task) s
  = Some (task_job task, job) ->
  task_at task <> Finished ->
  (now - createdAt job > 86400000)%Z ->
  exists s1 task' s2 job',
    DocumentProcessingService.cleanupOldJobs now s = (Ok tt, s1)
    /\ DocumentProcessingService.table_get (task_jobId task) s1 = None
    /\ DocumentProcessingService.resume rt now' task s1 = (Ok task', s2)
    /\ DocumentProcessingService.table_get (task_jobId task) s2
       = Some (task_job task, job')
    /\ createdAt job' = createdAt job.
Proof.
  intros Hget Hat Hold.
  pose proof (proj1 (table_get_Some _ _ _ _) Hget) as [Ht Ho].
  destruct (cleanupOldJobs_sweeps_by_age_aux now s) as (s1 & Hc & Hsw & _ & Hobj & _).
  exists s1.
  assert (objects s1 !! task_job task = Some job) as Ho1 by (rewrite Hobj; exact Ho).
  destruct (resume_effect rt now' task s1 job Ho1 Hat) as (s2 & Hr & Ho2 & Ht2 & _).
  eexists _, s2, _. split; [exact Hc|]. split.
  { rewrite (Hsw _ _ _ Hget).
    assert ((now - createdAt job >? 86400000)%Z = true) as -> by (apply Z.gtb_lt; lia).
    reflexivity. }
  split; [exact Hr|]. split.
  { apply table_get_Some. split; [exact Ht2 | exact Ho2]. }
  unfold resumption.
  destruct (task_at task) as [| |r|]; [reflexivity| | |congruence].
  - destruct (DocumentProcessingService.analyzeDocument rt now' (task_fileId task)
                (task_options task) s1) as [[r|e] sa];
      [destruct (autoSave (task_options task))|]; reflexivity.
  - destruct (DocumentProcessingService.saveDocument rt now' (documentData_of r) s1)
      as [[doc|e] sa]; reflexivity.
Qed.

Lemma swept_job_comes_back_witness :
  DocumentProcessingService.table_get "job_1" (Demo.submitted Demo.noOptions)
  = Some (0, Demo.job1 pending 0 0)
  /\ exists s1 task' s2 job',
       DocumentProcessingService.cleanupOldJobs 86400001
         (Demo.submitted Demo.noOptions) = (Ok tt, s1)
       /\ DocumentProcessingService.table_get "job_1" s1 = None
       /\ DocumentProcessingService.resume (Demo.runtime []) 86400002
            (Demo.scheduled Demo.noOptions) s1 = (Ok task', s2)
       /\ DocumentProcessingService.table_get "job_1" s2 = Some (0, job').
Proof.
  split; [reflexivity|].
  destruct (swept_job_comes_back (Demo.runtime []) 86400001 86400002
              (Demo.scheduled Demo.noOptions) (Demo.submitted Demo.noOptions)
              (Demo.job1 pending 0 0) eq_refl)
    as (s1 & task' & s2 & job' & H1 & H2 & H3 & H4 & _).
  { discriminate. }
  { reflexivity. }
  exists s1, task', s2, job'. repeat split; assumption.
Defined.

(** The progress of a job never goes back. While the job shows the
    progress of the point where its task stands (0 before the start, 50
    during the analysis, 80 during the save), a resumption of the task
    leaves a progress that is at least as large and at most 100: again the
    progress of the new point, 100 for a job that completed, and the
    progress reached so far for a job that failed. *)
Theorem progress_never_decreases (rt : Runtime) (now : Z) (task : Task)
    (s : Service) (job : ProcessingJob) :
  objects s !! task_job task = Some job ->
  progress_at (task_at task) = Some (progress job) ->
  exists task' s' job',
    DocumentProcessingService.resume rt now task s = (Ok task', s')
    /\ objects s' !! task_job task = Some job'
    /\ (progress job <= progress job' <= 100)%Z
    /\ match progress_at (task_at task') with
       | Some p => progress job' = p
       | None =>
           (status job' = completed /\ progress job' = 100%Z)
           \/ (status job' = failed /\ progress job' = progress job)
       end.
Proof.
  intros Hjob Hp.
  assert (task_at task <> Finished) as Hat
    by (intros E; rewrite E in Hp; discriminate).
  destruct (resume_effect rt now task s job Hjob Hat) as (s' & Hr & Ho & _).
  eexists _, s', _. split; [exact Hr|]. split; [exact Ho|].
  unfold resumption. cbn [at_point task_at].
  destruct (task_at task) as [| |r|]; [| | |congruence];
    cbn [progress_at] in Hp; inversion Hp as [Hp'].
  - cbn. lia.
  - destruct (DocumentProcessingService.analyzeDocument rt now (task_fileId task)
                (task_options task) s) as [[r|e] sa].
    + destruct (autoSave (task_options task)); cbn.
      * lia.
      * split; [lia|]. left. split; reflexivity.
    + cbn. rewrite <- Hp'. split; [lia|]. right. split; reflexivity.
  - destruct (DocumentProcessingService.saveDocument rt now (documentData_of r) s)
      as [[doc|e] sa]; cbn.
    + split; [lia|]. left. split; reflexivity.
    + rewrite <- Hp'. split; [lia|]. right. split; reflexivity.
Qed.

Lemma progress_never_decreases_witness :
  objects (Demo.submitted Demo.noOptions) !! 0 = Some (Demo.job1 pending 0 0)
  /\ exists task' s' job',
       DocumentProcessingService.resume (Demo.runtime []) 10
         (Demo.scheduled Demo.noOptions) (Demo.submitted Demo.noOptions)
       = (Ok task', s')
       /\ objects s' !! 0 = Some job'
       /\ (0 <= progress job' <= 100)%Z.
Proof.
  split; [reflexivity|].
  destruct (progress_never_decreases (Demo.runtime []) 10
              (Demo.scheduled Demo.noOptions) (Demo.submitted Demo.noOptions)
              (Demo.job1 pending 0 0) eq_refl eq_refl)
    as (task' & s' & job' & H1 & H2 & H3 & _).
  exists task', s', job'. repeat split; try assumption; apply H3.
Defined.

(** ** Saving: known and unknown entities together *)

Section Persistence.
Local Open Scope list_scope.
Context (rt : Runtime).
Hypothesis no_fault : forall k, db_fault rt k = false.
Import DocumentProcessingService.

Lemma slot_set {A} (pre : list A) (x y : A) (rest : list A) :
  <[length pre + 0 := x]> (pre ++ y :: rest) = pre ++ x :: rest.
Proof.
  rewrite Nat.add_0_r. induction pre as [|p pre IH]; [reflexivity|].
  cbn. f_equal. exact IH.
Qed.

Lemma findByNameAndType_run (t c : Tables) (k : nat) (e : Entity) :
  EntityRepository.findByNameAndType rt (e_name e) (e_type e) (Some txClient)
    {| committed := c; inTx := Some t; queries := k |}
  = (Ok (known_as t e), {| committed := c; inTx := Some t; queries := S k |}).
Proof.
  unfold EntityRepository.findByNameAndType, try_catch, Prisma.query,
    BaseRepository.client_of, Prisma.entity_findFirst.
  cbn [queries inTx committed]. rewrite no_fault. reflexivity.
Qed.

(** The lookups of a payload against the tables [t]: the known entities
    fill their slots, the unknown ones queue their inserts. *)
Lemma run_lookups_general (t c : Tables) (es : list Entity) :
  forall (pre : list (option DatabaseEntity)) (acc : list (nat * Entity)) (k : nat),
    run_lookups rt txClient (imap (fun i e => (length pre + i, e)) es) acc
      (pre ++ replicate (length es) None)
      {| committed := c; inTx := Some t; queries := k |}
    = (Ok (acc ++ queued t (length pre) es, pre ++ map (known_as t) es),
       {| committed := c; inTx := Some t; queries := k + length es |}).
Proof.
  induction es as [|e rest IH]; intros pre acc k.
  - cbn. unfold ret. rewrite !app_nil_r, Nat.add_0_r. reflexivity.
  - cbn [imap run_lookups length replicate map queued]. unfold bind at 1.
    rewrite findByNameAndType_run.
    rewrite (imap_ext _ (fun i e0 => (length (pre ++ [known_as t e]) + i, e0)) rest).
    2:{ intros i x _. cbn. rewrite length_app. cbn. f_equal. lia. }
    destruct (known_as t e) as [row|] eqn:Ek.
    + rewrite slot_set.
      replace (pre ++ Some row :: replicate (length rest) None)
        with ((pre ++ [Some row]) ++ replicate (length rest) None)
        by (rewrite <- app_assoc; reflexivity).
      rewrite IH. rewrite length_app. cbn [length].
      rewrite <- app_assoc. cbn [app].
      replace (length pre + 1) with (S (length pre)) by lia.
      replace (S k + length rest) with (k + S (length rest)) by lia.
      reflexivity.
    + replace (pre ++ None :: replicate (length rest) None)
        with ((pre ++ [None]) ++ replicate (length rest) None)
        by (rewrite <- app_assoc; reflexivity).
      rewrite IH. rewrite length_app. cbn [length].
      rewrite <- !app_assoc. cbn [app].
      replace (length pre + 1) with (S (length pre)) by lia.
      replace (S k + length rest) with (k + S (length rest)) by lia.
      rewrite Nat.add_0_r. reflexivity.
Qed.

(** The queued inserts then fill the remaining slots, one new row each. *)
Lemma run_inserts_general (t c : Tables) (es : list Entity) :
  forall (pre : list (option DatabaseEntity)) (t' : Tables) (k : nat),
    run_inserts rt txClient (queued t (length pre) es)
      (pre ++ map (known_as t) es)
      {| committed := c; inTx := Some t'; queries := k |}
    = (Ok (pre ++ map Some (resolve_from t (nextId t') es)),
       {| committed := c;
          inTx := Some (with_rows t' (new_rows t (nextId t') es));
          queries := k + length (new_rows t (nextId t') es) |}).
Proof.
  induction es as [|e rest IH]; intros pre t' k.
  - cbn. unfold ret, with_rows. cbn.
    rewrite !app_nil_r, !Nat.add_0_r. destruct t'; reflexivity.
  - cbn [queued map resolve_from new_rows].
    destruct (known_as t e) as [row|] eqn:Ek.
    + replace (pre ++ Some row :: map (known_as t) rest)
        with ((pre ++ [Some row]) ++ map (known_as t) rest)
        by (rewrite <- app_assoc; reflexivity).
      replace (S (length pre)) with (length (pre ++ [Some row]))
        by (rewrite length_app; cbn; lia).
      rewrite IH. rewrite <- app_assoc. reflexivity.
    + cbn [run_inserts]. unfold bind at 1.
      unfold BaseRepository.create, try_catch, Prisma.query,
        BaseRepository.client_of, Prisma.entity_create.
      cbn [queries inTx committed]. rewrite no_fault.
      pose proof (slot_set pre (Some (row_of (nextId t') e)) None
                    (map (known_as t) rest)) as Hset.
      rewrite Nat.add_0_r in Hset. unfold row_of in Hset at 1.
      rewrite Hset. clear Hset.
      fold (row_of (nextId t') e).
      set (row := row_of (nextId t') e).
      set (t1 := {| entityRows := entityRows t' ++ [row];
                    documentRows := documentRows t'; nextId := S (nextId t') |}).
      replace (pre ++ Some row :: map (known_as t) rest)
        with ((pre ++ [Some row]) ++ map (known_as t) rest)
        by (rewrite <- app_assoc; reflexivity).
      replace (S (length pre)) with (length (pre ++ [Some row]))
        by (rewrite length_app; cbn; lia).
      rewrite (IH (pre ++ [Some row]) t1 (S k)).
      rewrite <- app_assoc. cbn [app length].
      change (nextId t1) with (S (nextId t')).
      f_equal. f_equal.
      * unfold with_rows, t1. cbn. rewrite <- app_assoc. cbn.
        f_equal. f_equal. lia.
      * lia.
Qed.

Lemma processEntities_general (c t : Tables) (k : nat) (es : list Entity) :
  processEntities rt txClient es
    {| committed := c; inTx := Some t; queries := k |}
  = (Ok (resolve_from t (nextId t) es),
     {| committed := c; inTx := Some (with_rows t (new_rows t (nextId t) es));
        queries := k + length es + length (new_rows t (nextId t) es) |}).
Proof.
  unfold processEntities. unfold bind at 1.
  assert (run_lookups rt txClient (imap pair es) [] (replicate (length es) None)
            {| committed := c; inTx := Some t; queries := k |}
          = (Ok (queued t 0 es, map (known_as t) es),
             {| committed := c; inTx := Some t; queries := k + length es |})) as ->
    by exact (run_lookups_general t c es [] [] k).
  cbn [fst snd]. unfold bind at 1.
  assert (run_inserts rt txClient (queued t 0 es) (map (known_as t) es)
            {| committed := c; inTx := Some t; queries := k + length es |}
          = (Ok (map Some (resolve_from t (nextId t) es)),
             {| committed := c;
                inTx := Some (with_rows t (new_rows t (nextId t) es));
                queries := k + length es + length (new_rows t (nextId t) es) |}))
    as -> by exact (run_inserts_general t c es [] t (k + length es)).
  unfold ret. rewrite omap_id_Some. reflexivity.
Qed.

Lemma resolve_from_in (t : Tables) (es : list Entity) :
  forall n row,
    In row (resolve_from t n es) ->
    In row (entityRows t) \/ In row (new_rows t n es).
Proof.
  induction es as [|e rest IH]; intros n row H; [destruct H|].
  cbn in *. destruct (known_as t e) as [r|] eqn:Ek.
  - destruct H as [<-|H].
    + left. unfold known_as in Ek. apply find_some in Ek. tauto.
    + apply IH in H. tauto.
  - destruct H as [<-|H].
    + right. left. reflexivity.
    + apply IH in H. destruct H; [left | right; right]; assumption.
Qed.

Lemma findById_present (t : Tables) (row : DatabaseEntity) :
  In row (entityRows t) ->
  entity_found (Prisma.entity_findById t (de_id row)) = true.
Proof.
  intros Hin. unfold Prisma.entity_findById, entity_found.
  destruct (List.find _ _) eqn:E; [reflexivity|].
  eapply find_none in E; [|exact Hin].
  rewrite Nat.eqb_refl in E. discriminate.
Qed.

(** The document and the database that a valid save gives. *)
Lemma saveDocument_run (now : Z) (d : CreateDocumentRequest) (s : Service) :
  isValid (ValidationService.validateDocumentForSave rt d) = true ->
  let t := committed (db s) in
  let t1 := with_rows t (new_rows t (nextId t) (entities d)) in
  let ids := Prisma.dedup_ids (map de_id (resolve_from t (nextId t) (entities d))) in
  let row := {| dr_id := nextId t1; dr_title := title d;
                dr_fileName := fileName d; dr_content := content d;
                dr_imageUrl := imageUrl d; dr_documentType := documentType d;
                dr_createdAt := now; dr_updatedAt := now;
                dr_entityIds := ids |} in
  saveDocument rt now d s
  = (Ok {| dd_row := row; dd_entities := omap (Prisma.entity_findById t1) ids |},
     set_db {| committed := {| entityRows := entityRows t1;
                               documentRows := documentRows t1 ++ [row];
                               nextId := S (nextId t1) |};
               inTx := None;
               queries := S (S (queries (db s)) + length (entities d)
                             + length (new_rows t (nextId t) (entities d)) + 1) |} s).
Proof.
  intros Hv t t1 ids row.
  assert (forallb (fun id => entity_found (Prisma.entity_findById t1 id))
            (map de_id (resolve_from t (nextId t) (entities d))) = true) as Hall.
  { apply forallb_forall. intros id Hid.
    apply in_map_iff in Hid as (r & <- & Hr).
    apply findById_present. apply resolve_from_in in Hr.
    unfold t1, with_rows. cbn. apply in_or_app. exact Hr. }
  unfold entity_found in Hall.
  unfold saveDocument, liftDb, saveDocument_db, try_catch.
  rewrite Hv. cbn [negb].
  unfold Prisma.transaction, Prisma.query. rewrite no_fault.
  cbn [committed inTx queries]. unfold bind at 1.
  rewrite processEntities_general.
  unfold DocumentRepository.createWithEntities, try_catch, Prisma.query,
    BaseRepository.client_of.
  cbn [committed inTx queries]. rewrite no_fault.
  unfold Prisma.document_create. fold t. fold t1. rewrite Hall.
  cbn [committed inTx queries]. rewrite no_fault.
  f_equal. f_equal. f_equal. lia.
Qed.

End Persistence.

(** ** Patterns *)

Section Patterns.

Lemma lower_ascii_pattern_char c :
  Str.is_pattern_char (Str.lower_ascii c) = Str.is_pattern_char c.
Proof. destruct c as [[] [] [] [] [] [] [] []]; reflexivity. Qed.

Lemma lower_ascii_escape c :
  Ascii.eqb (Str.lower_ascii c) "\" = Ascii.eqb c "\".
Proof. destruct c as [[] [] [] [] [] [] [] []]; reflexivity. Qed.

Lemma plain_toLowerCase s : Str.plain (Str.toLowerCase s) = Str.plain s.
Proof.
  induction s as [|c s IH]; [reflexivity|].
  cbn [Str.toLowerCase Str.plain]. now rewrite lower_ascii_pattern_char, IH.
Qed.

Lemma no_escape_toLowerCase s : Str.no_escape (Str.toLowerCase s) = Str.no_escape s.
Proof.
  induction s as [|c s IH]; [reflexivity|].
  cbn [Str.toLowerCase Str.no_escape]. now rewrite lower_ascii_escape, IH.
Qed.

(** A pattern without pattern characters matches itself and nothing
    else. *)
Lemma like_plain p :
  Str.plain p = true -> forall t, Str.like p t = String.eqb t p.
Proof.
  induction p as [|c p IH]; intros Hp t.
  - destruct t; reflexivity.
  - cbn [Str.plain] in Hp. apply andb_true_iff in Hp as [Hc Hp].
    apply negb_true_iff in Hc. unfold Str.is_pattern_char in Hc.
    apply orb_false_iff in Hc as [Hc H3]. apply orb_false_iff in Hc as [H1 H2].
    cbn [Str.like]. rewrite H1, H2, H3.
    destruct t as [|a t]; [reflexivity|].
    cbn [String.eqb]. now rewrite (IH Hp).
Qed.

Lemma like_percent rest t :
  Str.like (String "%" rest) t
  = Str.like rest t
    || match t with
       | EmptyString => false
       | String _ t' => Str.like (String "%" rest) t'
       end.
Proof. destruct t; reflexivity. Qed.

(** A pattern without a backslash matches itself. *)
Lemma like_self p : Str.no_escape p = true -> Str.like p p = true.
Proof.
  induction p as [|c p IH]; intros Hp; [reflexivity|].
  cbn [Str.no_escape] in Hp. apply andb_true_iff in Hp as [Hc Hp].
  apply negb_true_iff in Hc. specialize (IH Hp).
  destruct (Ascii.eqb c "%") eqn:E1.
  - apply Ascii.eqb_eq in E1. subst c.
    rewrite like_percent, (like_percent p p), IH.
    cbn [orb]. apply orb_true_r.
  - cbn [Str.like]. rewrite E1, Hc.
    destruct (Ascii.eqb c "_"); [exact IH|].
    now rewrite Ascii.eqb_refl, IH.
Qed.

(** The capital letters of Latin-1 are folded as those of ASCII are. *)
Example toLowerCase_folds_latin1 :
  Str.toLowerCase (String (ascii_of_nat 201) "MILE")
  = String (ascii_of_nat 233) "mile".
Proof. reflexivity. Qed.

Lemma equals_insensitive_plain column given :
  Str.plain given = true ->
  Str.equals_insensitive column given
  = String.eqb (Str.toLowerCase column) (Str.toLowerCase given).
Proof.
  intros H. unfold Str.equals_insensitive.
  apply like_plain. now rewrite plain_toLowerCase.
Qed.

Lemma equals_insensitive_self name :
  Str.no_escape name = true -> Str.equals_insensitive name name = true.
Proof.
  intros H. unfold Str.equals_insensitive.
  apply like_self. now rewrite no_escape_toLowerCase.
Qed.

End Patterns.

Lemma runtime_has_no_fault : forall k, db_fault (Demo.runtime []) k = false.
Proof. intros k. reflexivity. Qed.

Lemma new_rows_count (t : Tables) (es : list Entity) :
  forall n,
    length (new_rows t n es)
    = length (List.filter (fun e => negb (entity_found (known_as t e))) es).
Proof.
  induction es as [|e rest IH]; intros n; [reflexivity|].
  cbn. destruct (known_as t e); cbn; [apply IH | f_equal; apply IH].
Qed.

(** A valid payload, whose names the server accepts as patterns, saved
    without a database failure: the entities that the lookup finds in the
    store (a row of the same type whose name matches the payload name,
    read as a pattern without regard to case) are reused, and exactly one
    row is inserted for each payload entity that it does not find; the
    rows that were stored stay, in place and unchanged; one document row
    is added, linked to the resolved entities; the transaction is closed.
    For a name without pattern characters, the lookup finds a row exactly
    when the store has one of the same type and the same name up to
    case. *)
Theorem saveDocument_reuses_known_entities (rt : Runtime) (now : Z)
    (d : CreateDocumentRequest) (s : Service) :
  (forall k, db_fault rt k = false) ->
  isValid (ValidationService.validateDocumentForSave rt d) = true ->
  Forall (fun e => Str.well_escaped (e_name e) = true) (entities d) ->
  let t := committed (db s) in
  exists doc s',
    DocumentProcessingService.saveDocument rt now d s = (Ok doc, s')
    /\ entityRows (committed (db s'))
       = (entityRows t ++ new_rows t (nextId t) (entities d))%list
    /\ length (new_rows t (nextId t) (entities d))
       = length (List.filter (fun e => negb (entity_found (known_as t e)))
                   (entities d))
    /\ documentRows (committed (db s')) = (documentRows t ++ [dd_row doc])%list
    /\ dr_entityIds (dd_row doc)
       = Prisma.dedup_ids (map de_id (resolve_from t (nextId t) (entities d)))
    /\ dr_title (dd_row doc) = title d /\ dr_fileName (dd_row doc) = fileName d
    /\ dr_content (dd_row doc) = content d
    /\ dr_documentType (dd_row doc) = documentType d
    /\ inTx (db s') = None
    /\ (forall e,
          In e (entities d) -> Str.plain (e_name e) = true ->
          (entity_found (known_as t e) = true <->
           exists row,
             In row (entityRows t)
             /\ Str.toLowerCase (de_name row) = Str.toLowerCase (e_name e)
             /\ de_type row = e_type e)).
Proof.
  intros Hnf Hv _ t.
  eexists _, _. split; [apply (saveDocument_run rt Hnf now d s Hv)|].
  cbn. split; [reflexivity|]. split; [apply new_rows_count|].
  do 7 (split; [reflexivity|]).
  intros e _ Hplain. unfold known_as. split.
  - destruct (List.find _ (entityRows t)) as [row|] eqn:Ef; [|discriminate].
    intros _. apply find_some in Ef as [Hin Hm].
    rewrite (equals_insensitive_plain _ _ Hplain) in Hm.
    apply andb_true_iff in Hm as [Hn Ht].
    apply String.eqb_eq in Hn, Ht. exists row. auto.
  - intros (row & Hin & Hn & Ht).
    destruct (List.find _ (entityRows t)) as [row'|] eqn:Ef; [reflexivity|].
    eapply find_none in Ef; [|exact Hin]. cbn in Ef.
    rewrite (equals_insensitive_plain _ _ Hplain), Hn, Ht in Ef.
    rewrite !String.eqb_refl in Ef. discriminate.
Qed.

Lemma saveDocument_reuses_known_entities_witness :
  let d := Demo.letterWith [Demo.person "john smith"; Demo.person "Jane Doe"] in
  isValid (ValidationService.validateDocumentForSave (Demo.runtime []) d) = true
  /\ Forall (fun e => Str.well_escaped (e_name e) = true) (entities d)
  /\ exists doc s',
       DocumentProcessingService.saveDocument (Demo.runtime []) 9 d Demo2.service
       = (Ok doc, s')
       /\ entityRows (committed (db s'))
          = [Demo2.ent 0 "John Smith" "person"; Demo2.ent 1 "Caen" "location";
             Demo2.ent 3 "Jane Doe" "person"]
       /\ dr_entityIds (dd_row doc) = [0; 3].
Proof.
  cbv zeta. split; [reflexivity|].
  assert (Forall (fun e => Str.well_escaped (e_name e) = true)
            (entities (Demo.letterWith [Demo.person "john smith";
                                        Demo.person "Jane Doe"]))) as Hw
    by (repeat constructor).
  split; [exact Hw|].
  destruct (saveDocument_reuses_known_entities (Demo.runtime []) 9
              (Demo.letterWith [Demo.person "john smith"; Demo.person "Jane Doe"])
              Demo2.service runtime_has_no_fault eq_refl Hw)
    as (doc & s' & H1 & H2 & _ & _ & H3 & _).
  exists doc, s'. split; [exact H1|]. split; [exact H2 | exact H3].
Defined.

(** The lookup reads the payload name as a pattern: "J_hn Smith" finds
    the stored "John Smith", and no row is inserted for it. *)
Example wildcard_name_finds_stored_row :
  exists doc s',
    DocumentProcessingService.saveDocument (Demo.runtime []) 9
      (Demo.letterWith [Demo.person "J_hn Smith"]) Demo2.service
    = (Ok doc, s')
    /\ entityRows (committed (db s')) = entityRows Demo2.tables
    /\ dr_entityIds (dd_row doc) = [0].
Proof.
  eexists _, _. split; [vm_compute; reflexivity|]. split; reflexivity.
Qed.

Lemma find_app_skip {A} (p : A -> bool) (l l' : list A) :
  (forall x, In x l -> p x = false) ->
  List.find p (l ++ l')%list = List.find p l'.
Proof.
  induction l as [|a l IH]; intros H; [reflexivity|].
  cbn. rewrite (H a (or_introl eq_refl)). apply IH.
  intros x Hx. apply H. right. exact Hx.
Qed.

(** A saved document reads back: when no stored document has an id at or
    above the id counter, [findByIdWithEntities] on the id of the document
    that [saveDocument] has returned gives that very document, with its
    entities. *)
Theorem saved_document_reads_back (rt : Runtime) (now : Z)
    (d : CreateDocumentRequest) (s : Service) :
  (forall k, db_fault rt k = false) ->
  isValid (ValidationService.validateDocumentForSave rt d) = true ->
  Forall (fun row => dr_id row < nextId (committed (db s)))
         (documentRows (committed (db s))) ->
  exists doc s',
    DocumentProcessingService.saveDocument rt now d s = (Ok doc, s')
    /\ fst (DocumentQueries.findByIdWithEntities rt (dr_id (dd_row doc)) None (db s'))
       = Ok (Some doc).
Proof.
  intros Hnf Hv Hfresh.
  eexists _, _. split; [apply (saveDocument_run rt Hnf now d s Hv)|].
  cbn [dd_row dr_id db set_db].
  unfold DocumentQueries.findByIdWithEntities, try_catch, Prisma.query,
    BaseRepository.client_of, PrismaQueries.document_findUnique.
  cbn [queries committed inTx]. rewrite Hnf. cbn [fst documentRows with_rows].
  rewrite find_app_skip.
  - cbn. rewrite Nat.eqb_refl. reflexivity.
  - intros x Hx. rewrite Forall_forall in Hfresh.
    apply (proj2 (list_elem_of_In _ _)) in Hx.
    apply Hfresh in Hx. apply Nat.eqb_neq. cbn. lia.
Qed.

Lemma saved_document_reads_back_witness :
  let d := Demo.letterWith [Demo.person "john smith"; Demo.person "Jane Doe"] in
  Forall (fun row => dr_id row < nextId Demo2.tables) (documentRows Demo2.tables)
  /\ exists doc s',
       DocumentProcessingService.saveDocument (Demo.runtime []) 9 d Demo2.service
       = (Ok doc, s')
       /\ fst (DocumentQueries.findByIdWithEntities (Demo.runtime [])
                 (dr_id (dd_row doc)) None (db s')) = Ok (Some doc).
Proof.
  cbv zeta.
  assert (Forall (fun row => dr_id row < nextId Demo2.tables)
            (documentRows Demo2.tables)) as Hf.
  { repeat constructor. }
  split; [exact Hf|].
  exact (saved_document_reads_back (Demo.runtime []) 9
           (Demo.letterWith [Demo.person "john smith"; Demo.person "Jane Doe"])
           Demo2.service runtime_has_no_fault eq_refl Hf).
Defined.

(** ** findOrCreate, deleteOrphaned, updateEntities *)

Lemma known_as_by_key (t : Tables) (e e' : Entity) :
  Spec.natural_key e' = Spec.natural_key e -> known_as t e' = known_as t e.
Proof.
  unfold Spec.natural_key. intros H. inversion H as [[Hn Ht]].
  unfold known_as, Str.equals_insensitive. rewrite Hn, Ht. reflexivity.
Qed.

(** [findOrCreate] inserts at most once for a name without a backslash
    and a type: called again, in the same transaction, for an entity with
    the same type and the same name up to case, it returns the row of the
    first call and leaves the tables as the first call left them. The
    first call itself returns the row that the lookup finds (the first of
    the same type whose name matches the given name, read as a pattern
    without regard to case), unchanged, when there is one, and inserts a
    row with the name and type it was given when there is none. *)
Theorem findOrCreate_is_idempotent (rt : Runtime) (e e' : Entity)
    (c t : Tables) (k : nat) :
  (forall k, db_fault rt k = false) ->
  Spec.natural_key e' = Spec.natural_key e ->
  Str.no_escape (e_name e) = true ->
  exists row t1 k1,
    EntityRepository.findOrCreate rt e (Some txClient)
      {| committed := c; inTx := Some t; queries := k |}
    = (Ok row, {| committed := c; inTx := Some t1; queries := k1 |})
    /\ EntityRepository.findOrCreate rt e' (Some txClient)
         {| committed := c; inTx := Some t1; queries := k1 |}
       = (Ok row, {| committed := c; inTx := Some t1; queries := S k1 |})
    /\ ((known_as t e = Some row /\ t1 = t)
        \/ (known_as t e = None
            /\ entityRows t1 = (entityRows t ++ [row])%list
            /\ documentRows t1 = documentRows t
            /\ de_name row = e_name e /\ de_type row = e_type e)).
Proof.
  intros Hnf Hkey Hesc.
  unfold EntityRepository.findOrCreate, try_catch, BaseRepository.client_of.
  unfold bind.
  rewrite !(findByNameAndType_run rt Hnf).
  destruct (known_as t e) as [row|] eqn:Ek.
  - exists row, t, (S k). split; [reflexivity|].
    rewrite (findByNameAndType_run rt Hnf), (known_as_by_key t e e' Hkey), Ek.
    split; [reflexivity|]. left. split; reflexivity.
  - unfold EntityRepository.createFromEntity, try_catch, Prisma.query,
      BaseRepository.client_of, Prisma.entity_create.
    cbn [queries inTx committed]. rewrite Hnf.
    eexists _, _, _. split; [reflexivity|].
    rewrite (findByNameAndType_run rt Hnf).
    match goal with
    | |- context [known_as ?t1 e'] =>
        assert (known_as t1 e'
                = Some {| de_id := nextId t; de_name := e_name e;
                          de_date := EntityRepository.date_of_entity rt e;
                          de_type := e_type e |}) as ->
    end.
    { rewrite (known_as_by_key _ e e' Hkey). unfold known_as.
      cbn [entityRows]. rewrite find_app_skip.
      - cbn. rewrite (equals_insensitive_self _ Hesc), String.eqb_refl.
        reflexivity.
      - intros x Hx. unfold known_as in Ek. eapply find_none in Ek; [|exact Hx].
        exact Ek. }
    split; [reflexivity|]. right. repeat split; reflexivity.
Qed.

Lemma findOrCreate_is_idempotent_witness :
  Spec.natural_key (Demo.person "JOHN SMITH")
  = Spec.natural_key (Demo.person "John Smith")
  /\ Str.no_escape (e_name (Demo.person "John Smith")) = true
  /\ exists row t1 k1,
       EntityRepository.findOrCreate (Demo.runtime []) (Demo.person "John Smith")
         (Some txClient)
         {| committed := Demo.emptyTables; inTx := Some Demo.emptyTables;
            queries := 1 |}
       = (Ok row, {| committed := Demo.emptyTables; inTx := Some t1;
                     queries := k1 |})
       /\ EntityRepository.findOrCreate (Demo.runtime []) (Demo.person "JOHN SMITH")
            (Some txClient)
            {| committed := Demo.emptyTables; inTx := Some t1; queries := k1 |}
          = (Ok row, {| committed := Demo.emptyTables; inTx := Some t1;
                        queries := S k1 |}).
Proof.
  split; [reflexivity|]. split; [reflexivity|].
  destruct (findOrCreate_is_idempotent (Demo.runtime [])
              (Demo.person "John Smith") (Demo.person "JOHN SMITH")
              Demo.emptyTables Demo.emptyTables 1 runtime_has_no_fault eq_refl
              eq_refl)
    as (row & t1 & k1 & H1 & H2 & _).
  exists row, t1, k1. split; assumption.
Defined.

Lemma find_filter_same {A} (p q : A -> bool) (l : list A) :
  (forall x, In x l -> p x = true -> q x = true) ->
  List.find p (List.filter q l) = List.find p l.
Proof.
  induction l as [|a l IH]; intros H; [reflexivity|].
  cbn. destruct (p a) eqn:Pa.
  - rewrite (H a (or_introl eq_refl) Pa). cbn. rewrite Pa. reflexivity.
  - destruct (q a); cbn; rewrite ?Pa; apply IH;
      intros x Hx; apply H; right; exact Hx.
Qed.

Lemma filter_twice {A} (q : A -> bool) (l : list A) :
  List.filter q (List.filter q l) = List.filter q l.
Proof.
  induction l as [|a l IH]; [reflexivity|].
  cbn. destruct (q a) eqn:Qa; cbn; rewrite ?Qa, IH; reflexivity.
Qed.

Lemma list_filter_length {A} (q : A -> bool) (l : list A) :
  length (List.filter q l) <= length l.
Proof.
  induction l as [|a l IH]; [reflexivity|].
  cbn. destruct (q a); cbn; lia.
Qed.

Lemma omap_agree {A B} (f g : A -> option B) (l : list A) :
  (forall x, In x l -> f x = g x) -> omap f l = omap g l.
Proof.
  induction l as [|a l IH]; intros H; [reflexivity|].
  cbn. rewrite (H a (or_introl eq_refl)), IH; [reflexivity|].
  intros x Hx. apply H. right. exact Hx.
Qed.

(** [deleteOrphaned] removes exactly the entities that no document is
    linked to and reports how many they were: an entity stays if and only
    if some document is linked to it; the documents are untouched and read
    back with the same entities as before; a second run finds nothing to
    delete. *)
Theorem deleteOrphaned_removes_exactly_the_orphans (rt : Runtime) (d : Database) :
  db_fault rt (queries d) = false ->
  exists n d',
    EntityQueries.deleteOrphaned rt None d = (Ok n, d')
    /\ documentRows (committed d') = documentRows (committed d)
    /\ nextId (committed d') = nextId (committed d)
    /\ (forall row,
          In row (entityRows (committed d')) <->
          In row (entityRows (committed d))
          /\ PrismaQueries.linked (committed d) row = true)
    /\ n + length (entityRows (committed d')) = length (entityRows (committed d))
    /\ (forall doc,
          In doc (documentRows (committed d)) ->
          PrismaQueries.hydrate (committed d') doc
          = PrismaQueries.hydrate (committed d) doc)
    /\ PrismaQueries.entity_deleteOrphaned (committed d') = (Ok 0, committed d').
Proof.
  intros Hnf.
  unfold EntityQueries.deleteOrphaned, try_catch, Prisma.query,
    BaseRepository.client_of, PrismaQueries.entity_deleteOrphaned.
  rewrite Hnf. eexists _, _. split; [reflexivity|].
  cbn [committed entityRows documentRows nextId].
  split; [reflexivity|]. split; [reflexivity|].
  split; [intros row; apply filter_In|].
  split.
  { pose proof (list_filter_length (PrismaQueries.linked (committed d))
                  (entityRows (committed d))). lia. }
  split.
  - intros doc Hdoc. unfold PrismaQueries.hydrate. f_equal.
    apply omap_agree. intros id Hid.
    unfold Prisma.entity_findById. cbn [entityRows].
    apply find_filter_same. intros row _ Hrow.
    unfold PrismaQueries.linked. apply existsb_exists.
    exists doc. split; [exact Hdoc|].
    apply existsb_exists. exists id. split; [exact Hid|].
    apply Nat.eqb_eq in Hrow. apply Nat.eqb_eq. exact Hrow.
  - unfold PrismaQueries.linked at 1 3. cbn [documentRows entityRows].
    fold (PrismaQueries.linked (committed d)).
    change (fun row : DatabaseEntity =>
              existsb (fun d0 : DocumentRow =>
                         existsb (Nat.eqb (de_id row)) (dr_entityIds d0))
                      (documentRows (committed d)))
      with (PrismaQueries.linked (committed d)).
    rewrite filter_twice, Nat.sub_diag. reflexivity.
Qed.

Lemma deleteOrphaned_removes_exactly_the_orphans_witness :
  db_fault (Demo.runtime []) (queries Demo2.database) = false
  /\ exists d',
       EntityQueries.deleteOrphaned (Demo.runtime []) None Demo2.database
       = (Ok 1, d')
       /\ entityRows (committed d') = [Demo2.ent 0 "John Smith" "person"].
Proof.
  split; [reflexivity|].
  destruct (deleteOrphaned_removes_exactly_the_orphans (Demo.runtime [])
              Demo2.database eq_refl) as (n & d' & H & _).
  exists d'. vm_compute in H. inversion H. split; reflexivity.
Defined.

Lemma relink_keeps_id id links row :
  dr_id (PrismaQueries.relink id links row) = dr_id row.
Proof. unfold PrismaQueries.relink. destruct (Nat.eqb (dr_id row) id); reflexivity. Qed.

Lemma document_exists_relinked id links (t : Tables) :
  PrismaQueries.document_exists id
    (PrismaQueries.with_documents t
       (map (PrismaQueries.relink id links) (documentRows t)))
  = PrismaQueries.document_exists id t.
Proof.
  unfold PrismaQueries.document_exists. cbn [documentRows PrismaQueries.with_documents].
  induction (documentRows t) as [|row rows IH]; [reflexivity|].
  cbn. rewrite relink_keeps_id, IH. reflexivity.
Qed.

Lemma relink_twice id (ids : list nat) (rows : list DocumentRow) :
  map (PrismaQueries.relink id (fun old => Prisma.dedup_ids (old ++ ids)%list))
      (map (PrismaQueries.relink id (fun _ => [])) rows)
  = map (PrismaQueries.relink id (fun _ => Prisma.dedup_ids ids)) rows.
Proof.
  rewrite map_map. apply map_ext. intros row.
  unfold PrismaQueries.relink.
  destruct (Nat.eqb (dr_id row) id) eqn:E; cbn; rewrite E; reflexivity.
Qed.

(** [updateEntities] on an existing document with ids that all name
    entities: the links of the document become the given ids (each one
    once); the columns of its row, [updatedAt] among them, are what they
    were, and nothing else in the store changes. *)
Theorem updateEntities_replaces_links (rt : Runtime) (documentId : nat)
    (entityIds : list nat) (t : Tables) (k : nat) :
  (forall k, db_fault rt k = false) ->
  PrismaQueries.document_exists documentId t = true ->
  forallb (fun e => entity_found (Prisma.entity_findById t e)) entityIds = true ->
  exists doc t',
    DocumentQueries.updateEntities rt documentId entityIds None
      {| committed := t; inTx := None; queries := k |}
    = (Ok (Some doc), {| committed := t'; inTx := None; queries := S (S k) |})
    /\ dr_id (dd_row doc) = documentId
    /\ dr_entityIds (dd_row doc) = Prisma.dedup_ids entityIds
    /\ (exists old,
          In old (documentRows t) /\ dr_id old = documentId
          /\ dr_title (dd_row doc) = dr_title old
          /\ dr_fileName (dd_row doc) = dr_fileName old
          /\ dr_content (dd_row doc) = dr_content old
          /\ dr_imageUrl (dd_row doc) = dr_imageUrl old
          /\ dr_documentType (dd_row doc) = dr_documentType old
          /\ dr_createdAt (dd_row doc) = dr_createdAt old
          /\ dr_updatedAt (dd_row doc) = dr_updatedAt old)
    /\ In (dd_row doc) (documentRows t')
    /\ documentRows t'
       = map (PrismaQueries.relink documentId
                (fun _ => Prisma.dedup_ids entityIds)) (documentRows t)
    /\ entityRows t' = entityRows t /\ nextId t' = nextId t.
Proof.
  intros Hnf Hex Hall. unfold entity_found in Hall.
  unfold DocumentQueries.updateEntities, try_catch, BaseRepository.client_of, bind,
    Prisma.query.
  cbn [queries committed inTx]. rewrite !Hnf.
  unfold PrismaQueries.document_disconnectAll. rewrite Hex.
  cbn [queries committed inTx]. rewrite Hnf.
  unfold PrismaQueries.document_connect.
  rewrite document_exists_relinked, Hex.
  change (fun e => match Prisma.entity_findById
                           (PrismaQueries.with_documents t
                              (map (PrismaQueries.relink documentId (fun _ => []))
                                 (documentRows t))) e with
                   | Some _ => true | None => false end)
    with (fun e => match Prisma.entity_findById t e with
                   | Some _ => true | None => false end).
  rewrite Hall. cbn [andb PrismaQueries.with_documents documentRows entityRows nextId].
  rewrite relink_twice.
  destruct (List.find (fun row => Nat.eqb (dr_id row) documentId)
              (map (PrismaQueries.relink documentId
                      (fun _ => Prisma.dedup_ids entityIds)) (documentRows t)))
    as [row|] eqn:Ef.
  - pose proof (find_some _ _ Ef) as [Hin Hid].
    apply Nat.eqb_eq in Hid.
    apply in_map_iff in Hin as (row0 & Hrow & Hin0).
    assert (Nat.eqb (dr_id row0) documentId = true) as Hid0.
    { rewrite <- Hrow in Hid. rewrite relink_keeps_id in Hid.
      apply Nat.eqb_eq. exact Hid. }
    eexists _, _. split; [reflexivity|]. cbn.
    split; [exact Hid|].
    unfold PrismaQueries.relink in Hrow. rewrite Hid0 in Hrow.
    split; [rewrite <- Hrow; reflexivity|].
    split.
    { exists row0. split; [exact Hin0|].
      split; [apply Nat.eqb_eq; exact Hid0|].
      rewrite <- Hrow. repeat split; reflexivity. }
    split.
    { apply in_map_iff. exists row0. split; [|exact Hin0].
      unfold PrismaQueries.relink. rewrite Hid0. exact Hrow. }
    repeat split; reflexivity.
  - exfalso. unfold PrismaQueries.document_exists in Hex.
    apply existsb_exists in Hex as (row0 & Hin0 & Hid0).
    eapply find_none in Ef.
    2:{ apply in_map. exact Hin0. }
    cbn in Ef. rewrite relink_keeps_id in Ef. congruence.
Qed.

Lemma updateEntities_replaces_links_witness :
  PrismaQueries.document_exists 2 Demo2.tables = true
  /\ exists doc t',
       DocumentQueries.updateEntities (Demo.runtime []) 2 [1; 1] None
         Demo2.database
       = (Ok (Some doc), {| committed := t'; inTx := None; queries := 2 |})
       /\ dr_entityIds (dd_row doc) = [1].
Proof.
  split; [reflexivity|].
  destruct (updateEntities_replaces_links (Demo.runtime []) 2 [1; 1]
              Demo2.tables 0 runtime_has_no_fault eq_refl eq_refl)
    as (doc & t' & H1 & _ & H2 & _).
  exists doc, t'. split; [exact H1 | exact H2].
Defined.

(** [updateEntities] is two updates: called outside a transaction with an
    id that names no entity, it throws "Failed to update document
    entities" after the first update has gone through, and the document is
    left without any link; the columns of its row and all other rows are
    what they were. *)
Theorem updateEntities_failure_drops_links (rt : Runtime)
    (documentId : nat) (entityIds : list nat) (t : Tables) (k : nat) :
  (forall k, db_fault rt k = false) ->
  PrismaQueries.document_exists documentId t = true ->
  forallb (fun e => entity_found (Prisma.entity_findById t e)) entityIds = false ->
  exists t',
    DocumentQueries.updateEntities rt documentId entityIds None
      {| committed := t; inTx := None; queries := k |}
    = (Err (AppError "Failed to update document entities"),
       {| committed := t'; inTx := None; queries := S (S k) |})
    /\ documentRows t'
       = map (PrismaQueries.relink documentId (fun _ => [])) (documentRows t)
    /\ (forall row, In row (documentRows t') -> dr_id row = documentId ->
        dr_entityIds row = [])
    /\ entityRows t' = entityRows t.
Proof.
  intros Hnf Hex Hall. unfold entity_found in Hall.
  unfold DocumentQueries.updateEntities, try_catch, BaseRepository.client_of, bind,
    Prisma.query.
  cbn [queries committed inTx]. rewrite !Hnf.
  unfold PrismaQueries.document_disconnectAll. rewrite Hex.
  cbn [queries committed inTx]. rewrite Hnf.
  unfold PrismaQueries.document_connect.
  rewrite document_exists_relinked, Hex.
  change (fun e => match Prisma.entity_findById
                           (PrismaQueries.with_documents t
                              (map (PrismaQueries.relink documentId (fun _ => []))
                                 (documentRows t))) e with
                   | Some _ => true | None => false end)
    with (fun e => match Prisma.entity_findById t e with
                   | Some _ => true | None => false end).
  rewrite Hall. cbn [andb].
  eexists. split; [reflexivity|]. cbn.
  split; [reflexivity|]. split; [|reflexivity].
  intros row Hin Hid. apply in_map_iff in Hin as (row0 & <- & _).
  rewrite relink_keeps_id in Hid. unfold PrismaQueries.relink.
  apply Nat.eqb_eq in Hid. rewrite Hid. reflexivity.
Qed.

Lemma updateEntities_failure_drops_links_witness :
  PrismaQueries.document_exists 2 Demo2.tables = true
  /\ exists t',
       DocumentQueries.updateEntities (Demo.runtime []) 2 [1; 7] None
         Demo2.database
       = (Err (JsError "Failed to update document entities" 500),
          {| committed := t'; inTx := None; queries := 2 |})
       /\ map dr_entityIds (documentRows t') = [[]].
Proof.
  split; [reflexivity|].
  destruct (updateEntities_failure_drops_links (Demo.runtime []) 2 [1; 7]
              Demo2.tables 0 runtime_has_no_fault eq_refl eq_refl)
    as (t' & H1 & H2 & _).
  exists t'. split; [exact H1|]. rewrite H2. reflexivity.
Defined.

(** [validateDocumentUniqueness] never throws and changes nothing in the
    store. When the lookup fails it answers with the one error "Failed to
    validate document uniqueness". When the lookup is answered, each
    message it gives is true: some stored document has the given title, or
    the given file name, up to case. With no document to exclude, and a
    title and a file name without pattern characters, it accepts exactly
    when no stored document has the same title or the same file name up to
    case. *)
Theorem validateDocumentUniqueness_never_throws (rt : Runtime)
    (title fileName : string) (excludeId : option nat) (d : Database) :
  exists v d',
    ValidationUniqueness.validateDocumentUniqueness rt title fileName excludeId d
    = (Ok v, d')
    /\ committed d' = committed d
    /\ (db_fault rt (queries d) = true ->
        v = {| isValid := false;
               errors := ["Failed to validate document uniqueness"] |})
    /\ (db_fault rt (queries d) = false ->
        (forall m, In m (errors v) ->
           exists row,
             In row (documentRows (committed d))
             /\ ((m = "A document with this title already exists"
                  /\ Str.toLowerCase (dr_title row) = Str.toLowerCase title)
                 \/ (m = "A document with this filename already exists"
                     /\ Str.toLowerCase (dr_fileName row)
                        = Str.toLowerCase fileName)))
        /\ (excludeId = None ->
            Str.plain title = true -> Str.plain fileName = true ->
            (isValid v = true <->
             forall row, In row (documentRows (committed d)) ->
               Str.toLowerCase (dr_title row) <> Str.toLowerCase title
               /\ Str.toLowerCase (dr_fileName row) <> Str.toLowerCase fileName))).
Proof.
  unfold ValidationUniqueness.validateDocumentUniqueness,
    DocumentQueries.findByTitleOrFilename, try_catch, bind, Prisma.query,
    BaseRepository.client_of, PrismaQueries.document_findByTitleOrFilename.
  destruct (db_fault rt (queries d)) eqn:F.
  - eexists _, _. split; [reflexivity|]. cbn.
    split; [reflexivity|]. split; [reflexivity | discriminate].
  - eexists _, _. split; [reflexivity|]. cbn [committed].
    split; [reflexivity|]. split; [discriminate|].
    intros _.
    destruct (List.find _ (documentRows (committed d))) as [row|] eqn:E.
    + cbn [option_map PrismaQueries.hydrate dd_row].
      pose proof (find_some _ _ E) as [Hin Hm]. split.
      * intros m Hm'. cbn [errors ValidationService.finish] in Hm'.
        destruct (match excludeId with
                  | Some x => Nat.eqb (dr_id row) x
                  | None => false
                  end); [destruct Hm'|].
        exists row. split; [exact Hin|].
        apply in_app_iff in Hm' as [H|H].
        -- destruct (String.eqb_spec (Str.toLowerCase (dr_title row))
                       (Str.toLowerCase title)) as [Eq|_]; [|destruct H].
           destruct H as [<-|[]]. left. split; [reflexivity | exact Eq].
        -- destruct (String.eqb_spec (Str.toLowerCase (dr_fileName row))
                       (Str.toLowerCase fileName)) as [Eq|_]; [|destruct H].
           destruct H as [<-|[]]. right. split; [reflexivity | exact Eq].
      * intros -> Ht Hf.
        rewrite (equals_insensitive_plain _ _ Ht),
          (equals_insensitive_plain _ _ Hf) in Hm.
        split.
        -- intros Hv. exfalso.
           apply finish_valid in Hv. apply app_eq_nil in Hv as [H1 H2].
           apply orb_true_iff in Hm as [Hm|Hm]; rewrite Hm in *; discriminate.
        -- intros H. destruct (H row Hin) as [H1 H2].
           apply String.eqb_neq in H1, H2. rewrite H1, H2 in Hm.
           discriminate.
    + cbn. split; [intros m []|].
      intros _ Ht Hf. split; [|reflexivity]. intros _ row Hin.
      eapply find_none in E; [|exact Hin]. cbn in E.
      rewrite (equals_insensitive_plain _ _ Ht),
        (equals_insensitive_plain _ _ Hf) in E.
      apply orb_false_iff in E as [E1 E2].
      apply String.eqb_neq in E1, E2. split; assumption.
Qed.

(** ** What the validators accept *)

Section Checks.
Context (rt : Runtime).
Import ValidationService.
Local Open Scope list_scope.

Lemma app_nil_both {A} (xs ys : list A) : xs ++ ys = [] <-> xs = [] /\ ys = [].
Proof.
  destruct xs; simpl; split.
  - intros ->. split; reflexivity.
  - intros [_ H]. exact H.
  - discriminate.
  - intros [H _]. discriminate.
Qed.

Lemma blank_false_truthy s : Spec.blank s = false -> Str.truthy s = true.
Proof. destruct s; [discriminate | reflexivity]. Qed.

Lemma len_zero s : (Str.len s =? 0)%Z = negb (Str.truthy s).
Proof. destruct s; reflexivity. Qed.

(** [!s || s.trim().length === 0] holds exactly for the blank strings. *)
Lemma body_blank_check s :
  negb (Str.truthy s) || (Str.len (Str.trim s) =? 0)%Z = Spec.blank s.
Proof.
  rewrite len_zero, falsy_trim, negb_involutive.
  destruct s; reflexivity.
Qed.

Lemma text_check s bound (a b : string) :
  (if negb (Str.truthy (Str.trim s)) then [a]
   else if (bound <? Str.len s)%Z then [b] else []) = []
  <-> Spec.blank s = false /\ (Str.len s <= bound)%Z.
Proof.
  rewrite falsy_trim, negb_involutive.
  destruct (Spec.blank s).
  - split; [discriminate | intros [H _]; discriminate].
  - destruct (Z.ltb_spec bound (Str.len s)); split.
    + discriminate.
    + intros [_ H']. lia.
    + intros _. split; [reflexivity | lia].
    + reflexivity.
Qed.

Lemma includes_In xs x : Str.includes xs x = true <-> In x xs.
Proof.
  unfold Str.includes. rewrite existsb_exists. split.
  - intros [y [Hy E]]. apply String.eqb_eq in E. now subst.
  - intros H. exists x. split; [assumption | apply String.eqb_refl].
Qed.

Lemma enum_truthy values x :
  Str.includes values "" = false -> In x values -> Str.truthy x = true.
Proof.
  intros H0 H. destruct x; [|reflexivity].
  apply includes_In in H. congruence.
Qed.

Lemma enum_check values x (a b : string) :
  Str.includes values "" = false ->
  (if negb (Str.truthy x) then [a]
   else if negb (Str.includes values x) then [b] else []) = []
  <-> In x values.
Proof.
  intros H0. rewrite <- includes_In.
  destruct x as [|c x]; cbn [Str.truthy negb].
  - rewrite H0. split; discriminate.
  - destruct (Str.includes values (String c x)); cbn [negb]; split; congruence.
Qed.

Lemma short_name_check ty kind name (msg : string) :
  Spec.blank name = false ->
  (if String.eqb ty kind && Str.truthy name && (Str.len name <? 2)%Z
   then [msg] else []) = []
  <-> (ty = kind -> (2 <= Str.len name)%Z).
Proof.
  intros Hb. rewrite (blank_false_truthy _ Hb), andb_true_r.
  destruct (String.eqb_spec ty kind) as [->|Hne]; cbn [andb].
  - destruct (Z.ltb_spec (Str.len name) 2); split.
    + discriminate.
    + intros H'. specialize (H' eq_refl). lia.
    + intros _ _. lia.
    + reflexivity.
  - split; [intros _ E; contradiction | reflexivity].
Qed.

Lemma date_check e :
  Spec.blank (e_name e) = false ->
  validateEntity_date rt e = []
  <-> (e_type e = "date" ->
       exists d, Date_parse rt (e_name e) = Some d
                 /\ (1800 <= getFullYear rt d <= currentYear rt + 10)%Z).
Proof.
  intros Hb. unfold validateEntity_date, EntityType.date.
  rewrite (blank_false_truthy _ Hb). cbn [negb].
  destruct (String.eqb_spec (e_type e) "date") as [Ht|Hne]; cbn [negb].
  - destruct (Date_parse rt (e_name e)) as [d|].
    + destruct (Z.ltb_spec (getFullYear rt d) 1800),
        (Z.ltb_spec (currentYear rt + 10) (getFullYear rt d)); cbn [orb]; split;
        intros H'; try discriminate; try reflexivity;
        try (destruct (H' Ht) as [d' [E Hy]]; injection E as <-; lia).
      intros _. exists d. split; [reflexivity | lia].
    + split; [discriminate|]. intros H'. destruct (H' Ht) as [d' [E _]]. discriminate.
  - split; [intros _ E; contradiction | reflexivity].
Qed.

Lemma validateEntity_valid_iff e :
  isValid (validateEntity rt e) = true <-> entity_ok rt e.
Proof.
  unfold validateEntity, entity_ok. cbv zeta.
  rewrite finish_valid, !app_nil_both, text_check.
  rewrite (enum_check EntityType.values _ _ _ eq_refl).
  split.
  - intros [[Hb Hl] [Ht [Hd [Hp Hloc]]]].
    split; [exact Hb|]. split; [exact Hl|]. split; [exact Ht|].
    split; [apply (date_check e Hb); exact Hd|].
    intros [E|E].
    + apply (proj1 (short_name_check _ _ _ _ Hb) Hp E).
    + apply (proj1 (short_name_check _ _ _ _ Hb) Hloc E).
  - intros (Hb & Hl & Ht & Hd & Hp).
    split; [split; assumption|]. split; [exact Ht|].
    split; [apply (date_check e Hb); exact Hd|].
    split; apply (short_name_check _ _ _ _ Hb); intros E; apply Hp;
      [left | right]; exact E.
Qed.

Lemma finish_numbered errs (f : string -> string) :
  (if isValid (finish errs) then [] else map f (errors (finish errs)))
  = map f errs.
Proof. destruct errs; reflexivity. Qed.

Lemma numbered_errors i e :
  (if isValid (validateEntity rt e) then []
   else map (fun error => "Entity " +:+ Str.of_nat (i + 1) +:+ ": " +:+ error)
          (errors (validateEntity rt e)))
  = map (fun error => "Entity " +:+ Str.of_nat (i + 1) +:+ ": " +:+ error)
      (errors (validateEntity rt e)).
Proof. exact (finish_numbered _ _). Qed.

Lemma validateEach_In es : forall off m',
  In m' (validateEach rt off es) <->
  exists i e m, es !! i = Some e /\ In m (errors (validateEntity rt e))
    /\ m' = "Entity " +:+ Str.of_nat (off + i + 1) +:+ ": " +:+ m.
Proof.
  induction es as [|e es IH]; intros off m'; cbn [validateEach].
  - split; [intros [] | intros (i & e & m & H & _)].
    rewrite lookup_nil in H. discriminate.
  - rewrite in_app_iff, numbered_errors, in_map_iff, IH. split.
    + intros [[m [<- Hm]] | (i & e' & m & Hi & Hm & ->)].
      * exists 0%nat, e, m. rewrite Nat.add_0_r. repeat split; auto.
      * exists (S i), e', m. split; [exact Hi|]. split; [exact Hm|].
        replace (off + S i + 1)%nat with (S off + i + 1)%nat by lia. reflexivity.
    + intros (i & e' & m & Hi & Hm & ->). destruct i as [|i].
      * left. cbn in Hi. injection Hi as <-. exists m.
        rewrite Nat.add_0_r. auto.
      * right. exists i, e', m. split; [exact Hi|]. split; [exact Hm|].
        replace (off + S i + 1)%nat with (S off + i + 1)%nat by lia. reflexivity.
Qed.

Lemma validateEach_nil es : forall off,
  validateEach rt off es = [] <-> Forall (entity_ok rt) es.
Proof.
  induction es as [|e es IH]; intros off; cbn [validateEach].
  - split; [constructor | reflexivity].
  - rewrite app_nil_both, IH, Forall_cons, <- validateEntity_valid_iff,
      numbered_errors.
    assert (map (fun error => "Entity " +:+ Str.of_nat (off + 1) +:+ ": " +:+ error)
              (errors (validateEntity rt e)) = []
            <-> isValid (validateEntity rt e) = true) as ->; [|reflexivity].
    change (validateEntity rt e)
      with (finish (errors (validateEntity rt e))) at 2.
    rewrite finish_valid.
    destruct (errors (validateEntity rt e)); simpl; split; congruence.
Qed.

Lemma validateEntities_valid_iff es :
  isValid (validateEntities rt es) = true
  <-> (1 <= length es <= 50)%nat /\ Forall (entity_ok rt) es.
Proof.
  unfold validateEntities.
  destruct (Nat.eqb_spec (length es) 0) as [E|E].
  - cbn [isValid]. split; [discriminate | intros [? _]; lia].
  - rewrite finish_valid, app_nil_both, validateEach_nil.
    destruct (Nat.ltb_spec 50 (length es)); split.
    + intros [H1 _]. discriminate.
    + intros [H1 _]. lia.
    + intros [_ H2]. split; [lia | exact H2].
    + intros [_ H2]. split; [reflexivity | exact H2].
Qed.

Lemma entity_errors_check es :
  (if isValid (validateEntities rt es) then []
   else errors (validateEntities rt es)) = []
  <-> isValid (validateEntities rt es) = true.
Proof.
  unfold validateEntities.
  destruct (Nat.eqb (length es) 0); cbn [isValid errors].
  - split; discriminate.
  - destruct (_ ++ _); simpl; split; congruence.
Qed.

Lemma url_check d :
  match imageUrl d with
  | Some url =>
      if Str.truthy url && negb (isValidUrl rt url)
      then ["Invalid image URL format"] else []
  | None => []
  end = [] <-> url_ok rt d.
Proof.
  unfold url_ok, isValidUrl.
  destruct (imageUrl d) as [url|]; [|tauto].
  destruct (Str.truthy url), (URL_parses rt url); simpl; split;
    intros; try discriminate; try reflexivity; auto.
  specialize (H eq_refl). discriminate.
Qed.

Lemma photo_check d (msg : string) :
  (if String.eqb (documentType d) DocumentType.photo
      && negb (Str.truthy_opt (imageUrl d))
   then [msg] else []) = []
  <-> Spec.holds d Spec.PhotoImageRule = true.
Proof.
  cbn [Spec.holds]. unfold DocumentType.photo.
  destruct (String.eqb (documentType d) "photo"); cbn [andb negb orb].
  - destruct (imageUrl d) as [url|]; cbn [Str.truthy_opt].
    + rewrite truthy_eqb. destruct (negb (String.eqb url "")); simpl; split; congruence.
    + simpl. split; discriminate.
  - split; reflexivity.
Qed.

Lemma text_rule s bound :
  negb (Spec.blank s) && (Str.len s <=? bound)%Z = true
  <-> Spec.blank s = false /\ (Str.len s <= bound)%Z.
Proof. rewrite andb_true_iff, negb_true_iff, Z.leb_le. reflexivity. Qed.

Lemma validateDocumentForSave_valid_iff d :
  isValid (validateDocumentForSave rt d) = true
  <-> (forall r, Spec.holds d r = true) /\ url_ok rt d
      /\ Forall (entity_ok rt) (entities d).
Proof.
  unfold validateDocumentForSave. cbv zeta.
  rewrite finish_valid, !app_nil_both, !text_check.
  rewrite (enum_check DocumentType.values _ _ _ eq_refl).
  rewrite url_check, entity_errors_check, photo_check, validateEntities_valid_iff.
  rewrite <- !text_rule, <- includes_In.
  split.
  - intros (Ht & Hf & Hc & Hty & Hu & [Hn He] & Hp).
    split; [|split; assumption].
    intros []; cbn [Spec.holds]; try assumption.
    apply andb_true_iff. split; apply Nat.leb_le; lia.
  - intros (H & Hu & He).
    split; [exact (H Spec.TitleRule)|].
    split; [exact (H Spec.FileNameRule)|].
    split; [exact (H Spec.ContentRule)|].
    split; [exact (H Spec.DocumentTypeRule)|].
    split; [exact Hu|].
    split; [|exact (H Spec.PhotoImageRule)].
    split; [|exact He].
    pose proof (H Spec.EntityCountRule) as Hn. cbn [Spec.holds] in Hn.
    apply andb_true_iff in Hn as [H1 H2].
    apply Nat.leb_le in H1, H2. lia.
Qed.

Lemma bodyEntityErrors_nil es : forall i,
  Forall (entity_ok rt) es -> Middleware.bodyEntityErrors rt i es = [].
Proof.
  induction es as [|e es IH]; intros i H; cbn [Middleware.bodyEntityErrors];
    [reflexivity|].
  apply Forall_cons in H as [(Hb & Hl & Ht & Hd & _) Hrest].
  rewrite (IH _ Hrest), body_blank_check, Hb.
  rewrite (proj2 (Z.ltb_ge _ _) Hl).
  rewrite (enum_truthy EntityType.values _ eq_refl Ht).
  rewrite (proj2 (includes_In _ _) Ht). cbn [negb orb].
  destruct (String.eqb_spec (e_type e) EntityType.date) as [E|E]; [|reflexivity].
  destruct (Hd E) as [d [-> _]].
  destruct (Str.truthy (e_name e)); reflexivity.
Qed.

End Checks.

(** [validateEntity] accepts exactly the entities with a name that is not
    blank and has at most 255 characters, a type of the enum, for a date a
    name that parses to a year from 1800 to ten years from now, and for a
    person or a location a name of two characters or more. *)
Theorem validateEntity_accepts_exactly (rt : Runtime) (e : Entity) :
  isValid (ValidationService.validateEntity rt e) = true <-> entity_ok rt e.
Proof. exact (validateEntity_valid_iff rt e). Qed.

(** [validateEntities] accepts exactly the lists of 1 to 50 entities that
    [validateEntity] accepts one by one. *)
Theorem validateEntities_accepts_exactly (rt : Runtime) (es : list Entity) :
  isValid (ValidationService.validateEntities rt es) = true
  <-> (1 <= length es <= 50)%nat
      /\ Forall (fun e => isValid (ValidationService.validateEntity rt e) = true) es.
Proof.
  rewrite validateEntities_valid_iff.
  assert (Forall (entity_ok rt) es
          <-> Forall (fun e => isValid (ValidationService.validateEntity rt e) = true) es)
    as ->; [|reflexivity].
  rewrite !Forall_forall. split; intros H e He; apply validateEntity_valid_iff, H, He.
Qed.

(** The messages of [validateEntities] are the two messages on the number
    of entities and, for the entity at index [i], each message of
    [validateEntity] behind "Entity i+1: "; there are no others. *)
Theorem validateEntities_numbers_the_messages (rt : Runtime)
    (es : list Entity) (m' : string) :
  In m' (errors (ValidationService.validateEntities rt es))
  <-> (es = [] /\ m' = "At least one entity is required")
      \/ ((50 < length es)%nat
          /\ m' = "Cannot have more than 50 entities per document")
      \/ exists i e m,
           es !! i = Some e
           /\ In m (errors (ValidationService.validateEntity rt e))
           /\ m' = "Entity " +:+ Str.of_nat (i + 1) +:+ ": " +:+ m.
Proof.
  unfold ValidationService.validateEntities.
  destruct es as [|e0 es0] eqn:Ees.
  - cbn. split.
    + intros [<-|[]]. left. split; reflexivity.
    + intros [[_ ->] | [[H _] | (i & e & m & H & _)]].
      * left. reflexivity.
      * lia.
      * rewrite lookup_nil in H. discriminate.
  - rewrite <- Ees.
    assert (Nat.eqb (length es) 0 = false) as ->
      by (rewrite Ees; reflexivity).
    cbn [errors ValidationService.finish].
    rewrite in_app_iff, (validateEach_In rt es 0 m').
    destruct (Nat.ltb_spec 50 (length es)) as [Hlt|Hge]; split.
    + intros [[<-|[]] | H].
      * right. left. split; [exact Hlt | reflexivity].
      * right. right. exact H.
    + intros [[E _] | [[_ ->] | H]].
      * congruence.
      * left. left. reflexivity.
      * right. exact H.
    + intros [[] | H]. right. right. exact H.
    + intros [[E _] | [[H _] | H]].
      * congruence.
      * lia.
      * right. exact H.
Qed.

(** [validateDocumentForSave] accepts exactly the payloads that satisfy
    the six payload rules, whose image URL (when one is given and not
    empty) parses, and whose entities [validateEntity] accepts. *)
Theorem validateDocumentForSave_accepts_exactly (rt : Runtime)
    (d : CreateDocumentRequest) :
  isValid (ValidationService.validateDocumentForSave rt d) = true
  <-> (forall r, Spec.holds d r = true) /\ url_ok rt d
      /\ Forall (entity_ok rt) (entities d).
Proof. exact (validateDocumentForSave_valid_iff rt d). Qed.

(** The middleware [validateDocumentBody] lets through every body that
    [validateDocumentForSave] accepts: the service is the stricter of
    the two. *)
Theorem validateDocumentBody_is_weaker (rt : Runtime) (d : CreateDocumentRequest) :
  isValid (ValidationService.validateDocumentForSave rt d) = true ->
  Middleware.validateDocumentBody rt d = Next.
Proof.
  intros H. apply validateDocumentForSave_valid_iff in H as (H & _ & He).
  pose proof (H Spec.TitleRule) as Ht. pose proof (H Spec.FileNameRule) as Hf.
  pose proof (H Spec.ContentRule) as Hc.
  pose proof (H Spec.DocumentTypeRule) as Hty.
  pose proof (H Spec.EntityCountRule) as Hn.
  cbn [Spec.holds] in Ht, Hf, Hc, Hty, Hn.
  apply text_rule in Ht as [Ht1 Ht2]. apply text_rule in Hf as [Hf1 Hf2].
  apply text_rule in Hc as [Hc1 Hc2].
  apply andb_true_iff in Hn as [Hn1 Hn2]. apply Nat.leb_le in Hn1, Hn2.
  assert (In (documentType d) DocumentType.values) as Hin
    by (apply includes_In; exact Hty).
  unfold Middleware.validateDocumentBody, Middleware.bodyErrors. cbv beta zeta.
  rewrite !body_blank_check, Ht1, Hf1, Hc1.
  rewrite (proj2 (Z.ltb_ge _ _) Ht2), (proj2 (Z.ltb_ge _ _) Hf2),
    (proj2 (Z.ltb_ge _ _) Hc2).
  rewrite (enum_truthy DocumentType.values _ eq_refl Hin).
  rewrite (proj2 (includes_In _ _) Hin). cbn [negb orb].
  assert (Nat.eqb (length (entities d)) 0 = false) as ->
    by (apply Nat.eqb_neq; lia).
  assert (Nat.ltb 50 (length (entities d)) = false) as ->
    by (apply Nat.ltb_ge; lia).
  rewrite (bodyEntityErrors_nil rt _ 0 He). reflexivity.
Qed.

Lemma validateDocumentBody_is_weaker_witness :
  isValid (ValidationService.validateDocumentForSave (Demo.runtime [])
             Demo.letterFromTheFront) = true
  /\ Middleware.validateDocumentBody (Demo.runtime []) Demo.letterFromTheFront
     = Next.
Proof.
  split; [reflexivity|].
  apply (validateDocumentBody_is_weaker (Demo.runtime []) Demo.letterFromTheFront).
  reflexivity.
Defined.

(** ** Identifiers, pages and search queries *)

Section Queries.
Local Open Scope list_scope.

Lemma remove_dups_length_le (l : list string) :
  (length (remove_dups l) <= length l)%nat.
Proof.
  induction l as [|x l IH]; simpl; [lia|].
  destruct (decide_rel elem_of x l); simpl; lia.
Qed.

(** [new Set(ids).size === ids.length] holds exactly when no id is
    repeated. *)
Lemma remove_dups_same_length (l : list string) :
  length (remove_dups l) = length l <-> NoDup l.
Proof.
  induction l as [|x l IH]; simpl.
  - split; [constructor | reflexivity].
  - rewrite NoDup_cons. pose proof (remove_dups_length_le l).
    destruct (decide_rel elem_of x l) as [Hin|Hnin]; simpl.
    + split; [lia | intros [Hn _]; contradiction].
    + split.
      * intros E. split; [exact Hnin | apply IH; lia].
      * intros [_ Hnd]. apply IH in Hnd. lia.
Qed.

Lemma invalidIds_nil ids : forall i,
  ValidationQueries.invalidIds i ids = []
  <-> Forall (fun id => Spec.blank id = false) ids.
Proof.
  induction ids as [|id ids IH]; intros i; cbn [ValidationQueries.invalidIds].
  - split; [constructor | reflexivity].
  - rewrite app_nil_both, IH, Forall_cons, body_blank_check.
    destruct (Spec.blank id); split; intros [H1 H2]; try discriminate;
      split; auto.
Qed.

Lemma check_number_None x bound (a b : string) :
  Middleware.check_number x bound a b = None <-> number_ok x bound.
Proof.
  unfold Middleware.check_number, number_ok.
  destruct x as [s|]; [|tauto].
  destruct (Js.parseInt s) as [n|].
  - destruct (Z.ltb_spec n 1); [|destruct (Z.ltb_spec bound n)]; split;
      try discriminate; try reflexivity.
    + intros [n' [E Hn]]. injection E as <-. lia.
    + intros [n' [E Hn]]. injection E as <-. lia.
    + intros _. exists n. split; [reflexivity | lia].
  - split; [discriminate | intros [n [E _]]; discriminate].
Qed.

Lemma blank_trimEnd s : Spec.blank (Str.trimEnd s) = Spec.blank s.
Proof.
  induction s as [|c s IH]; simpl; [reflexivity|].
  destruct (Str.trimEnd s) eqn:E.
  - simpl in IH. rewrite <- IH, andb_true_r.
    destruct (Str.is_ws c) eqn:W; simpl; [reflexivity | now rewrite W].
  - rewrite <- IH. reflexivity.
Qed.

Lemma blank_trim s : Spec.blank (Str.trim s) = Spec.blank s.
Proof. unfold Str.trim. now rewrite blank_trimEnd, blank_trimStart. Qed.

End Queries.

(** [validateBulkOperation] accepts exactly the lists of 1 to [maxCount]
    ids, none of them blank and none repeated. *)
Theorem validateBulkOperation_accepts_exactly (ids : list string) (maxCount : Z) :
  isValid (ValidationQueries.validateBulkOperation ids maxCount) = true
  <-> (1 <= length ids)%nat /\ (Z.of_nat (length ids) <= maxCount)%Z
      /\ Forall (fun id => Spec.blank id = false) ids /\ NoDup ids.
Proof.
  unfold ValidationQueries.validateBulkOperation. rewrite finish_valid.
  destruct (Nat.eqb_spec (length ids) 0) as [E|E].
  - split; [discriminate | intros [H _]; lia].
  - destruct (Z.ltb_spec maxCount (Z.of_nat (length ids))) as [Hm|Hm].
    + split; [discriminate | intros (_ & H & _); lia].
    + rewrite app_nil_both, invalidIds_nil, <- remove_dups_same_length.
      destruct (Nat.eqb_spec (length (remove_dups ids)) (length ids)) as [Hd|Hd];
        cbn [negb]; split.
      * intros [H1 _]. repeat split; try assumption; lia.
      * intros (_ & _ & H1 & _). split; [exact H1 | reflexivity].
      * intros [_ H2]. discriminate.
      * intros (_ & _ & _ & H). contradiction.
Qed.

(** The two pagination validators agree: the middleware hands the request
    on exactly when the service finds it valid, which is when page and
    limit are each absent or a number from 1 to 10000 (page) or 100
    (limit); when the middleware answers, it is with status 400 and the
    first message of the service. *)
Theorem pagination_validators_agree (page limit : option string) :
  (Middleware.validatePagination page limit = Next
   <-> isValid (ValidationQueries.validatePagination page limit) = true)
  /\ (isValid (ValidationQueries.validatePagination page limit) = true
      <-> number_ok page 10000 /\ number_ok limit 100)
  /\ (forall code error,
        Middleware.validatePagination page limit = Respond code error ->
        code = 400%Z
        /\ head (errors (ValidationQueries.validatePagination page limit))
           = Some error).
Proof.
  unfold Middleware.validatePagination, ValidationQueries.validatePagination.
  rewrite finish_valid.
  rewrite <- (check_number_None page 10000 "Page must be a positive integer"
                "Page number cannot exceed 10,000").
  rewrite <- (check_number_None limit 100 "Limit must be a positive integer"
                "Limit cannot exceed 100").
  cbn [errors ValidationService.finish].
  destruct (Middleware.check_number page _ _ _) as [e1|];
    destruct (Middleware.check_number limit _ _ _) as [e2|]; simpl;
    (split; [split; intros; try discriminate; reflexivity|]);
    (split; [split; [intros; discriminate || (split; reflexivity)
                    | intros [? ?]; discriminate || reflexivity]|]);
    intros code error H; inversion H; subst; split; reflexivity.
Qed.

(** A request that [validatePagination] lets through is paginated as it
    asked: [extractPaginationParams] gives the page and the limit that
    were sent (1 and 10 when absent) without clamping, and skips the
    pages before. *)
Theorem accepted_page_is_not_clamped (page limit : option string) :
  Middleware.validatePagination page limit = Next ->
  let p := BaseController.extractPaginationParams page limit in
  match page with
  | Some s => Js.parseInt s = Some (pg_page p)
  | None => pg_page p = 1%Z
  end
  /\ match limit with
     | Some s => Js.parseInt s = Some (pg_limit p)
     | None => pg_limit p = 10%Z
     end
  /\ pg_skip p = ((pg_page p - 1) * pg_limit p)%Z
  /\ (0 <= pg_skip p)%Z.
Proof.
  intros H p.
  assert (number_ok page 10000 /\ number_ok limit 100) as [Hp Hl].
  { unfold Middleware.validatePagination in H.
    destruct (Middleware.check_number page _ _ _) eqn:E1; [discriminate|].
    destruct (Middleware.check_number limit _ _ _) eqn:E2; [discriminate|].
    apply check_number_None in E1, E2. split; assumption. }
  assert (match page with
          | Some s => Js.parseInt s = Some (pg_page p)
          | None => pg_page p = 1%Z
          end /\ (1 <= pg_page p)%Z) as [H1 H1'].
  { subst p. unfold BaseController.extractPaginationParams, number_ok in *.
    cbn [pg_page]. destruct page as [s|]; cbn [Js.parseInt_param Js.or_default].
    - destruct Hp as [n [-> Hn]]. cbn [Js.or_default].
      destruct (Z.eqb_spec n 0); [lia|].
      rewrite Z.max_r by lia. split; [reflexivity | lia].
    - split; [reflexivity | lia]. }
  assert (match limit with
          | Some s => Js.parseInt s = Some (pg_limit p)
          | None => pg_limit p = 10%Z
          end /\ (1 <= pg_limit p)%Z) as [H2 H2'].
  { subst p. unfold BaseController.extractPaginationParams, number_ok in *.
    cbn [pg_limit]. destruct limit as [s|]; cbn [Js.parseInt_param Js.or_default].
    - destruct Hl as [n [-> Hn]]. cbn [Js.or_default].
      destruct (Z.eqb_spec n 0); [lia|].
      rewrite Z.max_r, Z.min_r by lia. split; [reflexivity | lia].
    - split; [reflexivity | lia]. }
  split; [exact H1|]. split; [exact H2|].
  split; [reflexivity|].
  change (pg_skip p) with ((pg_page p - 1) * pg_limit p)%Z. nia.
Qed.

Lemma accepted_page_is_not_clamped_witness :
  Middleware.validatePagination (Some "3") (Some "20") = Next
  /\ Js.parseInt "3"
     = Some (pg_page (BaseController.extractPaginationParams (Some "3") (Some "20")))
  /\ Js.parseInt "20"
     = Some (pg_limit (BaseController.extractPaginationParams (Some "3") (Some "20"))).
Proof.
  split; [reflexivity|].
  destruct (accepted_page_is_not_clamped (Some "3") (Some "20") eq_refl)
    as (H1 & H2 & _).
  split; [exact H1 | exact H2].
Defined.

(** Whatever the query says, [extractPaginationParams] gives a page of at
    least 1, a limit from 1 to 100 and a skip that is not negative. *)
Theorem extractPaginationParams_is_in_bounds (page limit : option string) :
  let p := BaseController.extractPaginationParams page limit in
  (1 <= pg_page p)%Z /\ (1 <= pg_limit p <= 100)%Z /\ (0 <= pg_skip p)%Z.
Proof.
  unfold BaseController.extractPaginationParams.
  cbn [pg_page pg_limit pg_skip]. nia.
Qed.

(** The middleware [validateSearchQuery] hands a query on exactly when the
    service validator accepts the query with the white space around it
    removed. *)
Theorem search_middleware_checks_the_trimmed_query (q : string) :
  Middleware.validateSearchQuery (Some q) = Next
  <-> isValid (ValidationQueries.validateSearchQuery (Str.trim q)) = true.
Proof.
  unfold Middleware.validateSearchQuery, ValidationQueries.validateSearchQuery.
  rewrite finish_valid, app_nil_both, falsy_trim, blank_trim, negb_involutive.
  pose proof (falsy_trim q) as Ht.
  destruct (Spec.blank q) eqn:B.
  - assert (Str.trim q = "") as ->
      by (destruct (Str.trim q); [reflexivity | discriminate]).
    destruct (Str.truthy q); simpl; split; try discriminate;
      intros [? _]; discriminate.
  - rewrite (blank_false_truthy _ B). cbn [negb].
    destruct (Str.len (Str.trim q) <? 2)%Z;
      [split; [discriminate | intros [? _]; discriminate]|].
    destruct (100 <? Str.len (Str.trim q))%Z;
      [split; [discriminate | intros [? _]; discriminate]|].
    destruct (Js.has_dangerous (Str.trim q)); split; try discriminate.
    + intros [_ ?]. discriminate.
    + intros _. split; reflexivity.
    + reflexivity.
Qed.
